(** * MetroBuilder: placement, economy and clock of the city simulation

    A shallow embedding of the simulation core of MetroBuilder
    ([types.ts], [constants.ts], [App.tsx], [components/GameCanvas.tsx]).

    JavaScript values of type [number] are modelled by exact rationals
    ([Q]): every literal of the source ([0.05], [0.008], [0.5], ...) is the
    rational it denotes and the arithmetic operators are the exact ones.
    The rounding of binary64 arithmetic is not part of the model; where a
    result is rounded down to a whole number (the statistics), the
    summands are also computed in binary64 ([Binary64]) to check that the
    two arithmetics agree on the catalog.
    Equality of numbers is [Qeq] (written [==]). *)

From Stdlib Require Import QArith Qround Qabs Lqa ZArith Lia List String Bool.
From Stdlib Require Import DecimalString Qpower.
From Corelib Require PrimFloat.
Import ListNotations.

Open Scope Q_scope.

Abbreviation number := Q.

(** ** JavaScript operators on numbers *)

Module JS.

(** [a < b] *)
Definition lt (a b : number) : bool := negb (Qle_bool b a).
(** [a > b] *)
Definition gt (a b : number) : bool := lt b a.
(** [a >= b] *)
Definition ge (a b : number) : bool := Qle_bool b a.
(** [a <= b] *)
Definition le (a b : number) : bool := Qle_bool a b.
(** [a === b] on numbers *)
Definition eq (a b : number) : bool := Qeq_bool a b.

(** Truncation toward zero, the integer quotient used by [%]. *)
Definition trunc (q : number) : Z := Z.quot (Qnum q) (Zpos (Qden q)).

(** [a % b]: the remainder has the sign of the dividend. *)
Definition rem (a b : number) : number := a - b * inject_Z (trunc (a / b)).

End JS.

Module Math.

Definition floor (a : number) : number := inject_Z (Qfloor a).
Definition max (a b : number) : number := if JS.lt a b then b else a.
Definition min (a b : number) : number := if JS.lt b a then b else a.

(** [Math.random()] reads the next draw of an ambient source.  The source
    is a sequence of draws together with the position of the next one. *)
Record source := { draws : nat -> number; cursor : nat }.

Definition random (s : source) : number * source :=
  (draws s (cursor s), {| draws := draws s; cursor := S (cursor s) |}).

End Math.

(** ** types.ts *)

Inductive BuildingCategory :=
| RESIDENTIAL | COMMERCIAL | INDUSTRIAL | OFFICE
| UTILITY | DECORATION | ROAD | TOOLS.

Definition BuildingCategory_eqb (a b : BuildingCategory) : bool :=
  match a, b with
  | RESIDENTIAL, RESIDENTIAL | COMMERCIAL, COMMERCIAL
  | INDUSTRIAL, INDUSTRIAL | OFFICE, OFFICE
  | UTILITY, UTILITY | DECORATION, DECORATION
  | ROAD, ROAD | TOOLS, TOOLS => true
  | _, _ => false
  end.

Module BuildingType.
Record t := {
  id : string;
  name : string;
  category : BuildingCategory;
  width : number;
  depth : number;
  height : number;
  color : string;
  cost : number;
  description : string
}.
End BuildingType.

Module PlacedBuilding.
Record t := {
  id : string;
  typeId : string;
  x : number;
  z : number;
  rotation : number;
  variant : option number
}.
End PlacedBuilding.

Module Weather.
Inductive t := clear | rain | fog.
End Weather.

Module RCI.
Record t := { res : number; com : number; ind : number }.
End RCI.

Module GameState.
Record t := {
  funds : number;
  population : number;
  jobs : number;
  happiness : number;
  level : number;
  rci : RCI.t;
  time : number;
  weather : Weather.t
}.
End GameState.

(** ** constants.ts *)

Definition GRID_SIZE : number := 128.
Definition TILE_SIZE : number := 10.
Definition MAP_SIZE : number := GRID_SIZE * TILE_SIZE.

Definition INITIAL_FUNDS : number := 50000.
Definition INITIAL_POPULATION : number := 0.

(** The decimal text of a size, as a template literal prints it. *)
Definition showSize (size : Z) : string :=
  NilZero.string_of_int (Z.to_int size).

Definition createZone (prefix name : string) (category : BuildingCategory)
    (color : string) (baseCost baseHeight : number) : list BuildingType.t :=
  let sizes := [1; 2; 3; 4]%Z in
  map (fun size : Z =>
    {| BuildingType.id := prefix ++ "_" ++ showSize size ++ "x" ++ showSize size;
       BuildingType.name := name ++ " " ++ showSize size ++ "x" ++ showSize size;
       BuildingType.category := category;
       BuildingType.width := inject_Z size;
       BuildingType.depth := inject_Z size;
       BuildingType.height := baseHeight * (1 + (inject_Z size * 0.5));
       BuildingType.color := color;
       BuildingType.cost := baseCost * inject_Z size * inject_Z size;
       BuildingType.description :=
         showSize size ++ "x" ++ showSize size ++ " " ++ name ++ " zone." |})
    sizes.

Definition BUILDINGS : list BuildingType.t :=
  [ {| BuildingType.id := "tool_dezone";
       BuildingType.name := "De-Zone Tool";
       BuildingType.category := TOOLS;
       BuildingType.width := 1;
       BuildingType.depth := 1;
       BuildingType.height := 0.1;
       BuildingType.color := "#ff0000";
       BuildingType.cost := 0;
       BuildingType.description := "Removes zoning and buildings." |};
    {| BuildingType.id := "road_local";
       BuildingType.name := "Road";
       BuildingType.category := ROAD;
       BuildingType.width := 1;
       BuildingType.depth := 1;
       BuildingType.height := 0.1;
       BuildingType.color := "#374151";
       BuildingType.cost := 10;
       BuildingType.description := "Basic infrastructure." |} ]
  ++ createZone "res" "Residential" RESIDENTIAL "#4ade80" 50 2
  ++ createZone "com" "Commercial" COMMERCIAL "#60a5fa" 100 3
  ++ createZone "ind" "Industrial" INDUSTRIAL "#facc15" 150 3
  ++ createZone "off" "Office" OFFICE "#c084fc" 200 5
  ++ createZone "util_landfill" "Landfill" UTILITY "#854d0e" 500 1.5
  ++ createZone "dec_park" "Park" DECORATION "#166534" 100 0.5.

(** [BUILDINGS.find(t => t.id === typeId)] *)
Definition findType (typeId : string) : option BuildingType.t :=
  find (fun t => String.eqb (BuildingType.id t) typeId) BUILDINGS.

(** ** GameCanvas.tsx: the collision check *)

Module Rect.
Record t := { x1 : number; x2 : number; z1 : number; z2 : number }.
End Rect.

Definition checkCollision (buildings : list PlacedBuilding.t)
    (x z w d : number) : bool :=
  let halfMap := MAP_SIZE / 2 in
  let hw := (w * TILE_SIZE) / 2 in
  let hd := (d * TILE_SIZE) / 2 in
  if JS.lt (x - hw) (- halfMap) || JS.gt (x + hw) halfMap
     || JS.lt (z - hd) (- halfMap) || JS.gt (z + hd) halfMap
  then true
  else
    existsb (fun b =>
      match findType (PlacedBuilding.typeId b) with
      | None => false
      | Some bType =>
          let rect1 :=
            {| Rect.x1 := PlacedBuilding.x b - (BuildingType.width bType * TILE_SIZE) / 2;
               Rect.x2 := PlacedBuilding.x b + (BuildingType.width bType * TILE_SIZE) / 2;
               Rect.z1 := PlacedBuilding.z b - (BuildingType.depth bType * TILE_SIZE) / 2;
               Rect.z2 := PlacedBuilding.z b + (BuildingType.depth bType * TILE_SIZE) / 2 |} in
          let rect2 :=
            {| Rect.x1 := x - hw; Rect.x2 := x + hw;
               Rect.z1 := z - hd; Rect.z2 := z + hd |} in
          JS.lt (Rect.x1 rect1) (Rect.x2 rect2) && JS.gt (Rect.x2 rect1) (Rect.x1 rect2)
          && JS.lt (Rect.z1 rect1) (Rect.z2 rect2) && JS.gt (Rect.z2 rect1) (Rect.z1 rect2)
      end) buildings.

(** ** App.tsx *)

Module App.

Record state := {
  gameState : GameState.t;
  buildings : list PlacedBuilding.t;
  selectedBuildingId : option string;
  inspectedBuildingId : option string;
  isDemolishMode : bool;
  currentVariant : number
}.

Definition initial : state :=
  {| gameState :=
       {| GameState.funds := INITIAL_FUNDS;
          GameState.population := INITIAL_POPULATION;
          GameState.jobs := 0;
          GameState.happiness := 100;
          GameState.level := 1;
          GameState.rci := {| RCI.res := 100; RCI.com := 50; RCI.ind := 50 |};
          GameState.time := 8.0;
          GameState.weather := Weather.clear |};
     buildings := [];
     selectedBuildingId := None;
     inspectedBuildingId := None;
     isDemolishMode := false;
     currentVariant := 0 |}.

(** *** The 100ms timer: clock, weather and demand *)

Definition newTime (prev : GameState.t) : number :=
  JS.rem (GameState.time prev + 0.008) 24.

(** The categorical draw made when the weather is resampled. *)
Definition resample (roll : number) : Weather.t :=
  if JS.lt roll 0.5 then Weather.clear
  else if JS.lt roll 0.8 then Weather.rain
  else Weather.fog.

Definition newWeather (prev : GameState.t) (s : Math.source)
    : Weather.t * Math.source :=
  let '(gate, s1) := Math.random s in
  if JS.lt gate 0.00033 then
    let '(roll, s2) := Math.random s1 in
    (resample roll, s2)
  else (GameState.weather prev, s1).

Definition jobPopRatio (prev : GameState.t) : number :=
  if JS.eq (GameState.jobs prev) 0 then 0
  else GameState.jobs prev /
       (if JS.eq (GameState.population prev) 0 then 1 else GameState.population prev).

Definition targetRes (prev : GameState.t) : number :=
  if JS.gt (GameState.population prev) 0 then
    Math.min 100 (Math.max 0
      (50 + (GameState.jobs prev - GameState.population prev) * 0.1))
  else 100.

Definition targetCom (prev : GameState.t) : number :=
  Math.min 100 (Math.max 0
    ((GameState.population prev * 0.5 - GameState.jobs prev * 0.2) / 2)).

Definition targetInd (prev : GameState.t) : number :=
  Math.min 100 (Math.max 0
    ((GameState.population prev * 0.4 - GameState.jobs prev * 0.3) / 2)).

Definition lerp (a b : number) : number := a + (b - a) * 0.05.

Definition tick (prev : GameState.t) (s : Math.source)
    : GameState.t * Math.source :=
  let newTime := newTime prev in
  let '(newWeather, s') := newWeather prev s in
  let jobPopRatio := jobPopRatio prev in
  let targetRes := targetRes prev in
  let targetCom := targetCom prev in
  let targetInd := targetInd prev in
  ({| GameState.funds := GameState.funds prev;
      GameState.population := GameState.population prev;
      GameState.jobs := GameState.jobs prev;
      GameState.happiness := GameState.happiness prev;
      GameState.level := GameState.level prev;
      GameState.rci :=
        {| RCI.res := lerp (RCI.res (GameState.rci prev)) targetRes;
           RCI.com := lerp (RCI.com (GameState.rci prev)) targetCom;
           RCI.ind := lerp (RCI.ind (GameState.rci prev)) targetInd |};
      GameState.time := newTime;
      GameState.weather := newWeather |}, s').

(** *** The statistics effect, run when [buildings] changes *)

(** One iteration of the [forEach] body on the accumulators
    [(newPop, newJobs)]. *)
Definition accumulate (acc : number * number) (b : PlacedBuilding.t)
    : number * number :=
  let '(newPop, newJobs) := acc in
  match findType (PlacedBuilding.typeId b) with
  | None => (newPop, newJobs)
  | Some bType =>
      let area := BuildingType.width bType * BuildingType.depth bType in
      let factor := 10 in
      if BuildingCategory_eqb (BuildingType.category bType) RESIDENTIAL then
        (newPop + area * factor * (1 + BuildingType.width bType * 0.5), newJobs)
      else if BuildingCategory_eqb (BuildingType.category bType) COMMERCIAL
              || BuildingCategory_eqb (BuildingType.category bType) INDUSTRIAL
              || BuildingCategory_eqb (BuildingType.category bType) OFFICE then
        (newPop, newJobs + area * factor * (1 + BuildingType.width bType * 0.2))
      else (newPop, newJobs)
  end.

Definition totals (buildings : list PlacedBuilding.t) : number * number :=
  fold_left accumulate buildings (0, 0).

Definition updateStats (buildings : list PlacedBuilding.t)
    (prev : GameState.t) : GameState.t :=
  let '(newPop, newJobs) := totals buildings in
  {| GameState.funds := GameState.funds prev;
     GameState.population := Math.floor newPop;
     GameState.jobs := Math.floor newJobs;
     GameState.happiness := GameState.happiness prev;
     GameState.level := GameState.level prev;
     GameState.rci := GameState.rci prev;
     GameState.time := GameState.time prev;
     GameState.weather := GameState.weather prev |}.

Definition setGameState (f : GameState.t -> GameState.t) (st : state) : state :=
  {| gameState := f (gameState st);
     buildings := buildings st;
     selectedBuildingId := selectedBuildingId st;
     inspectedBuildingId := inspectedBuildingId st;
     isDemolishMode := isDemolishMode st;
     currentVariant := currentVariant st |}.

(** [setBuildings] followed by the effect that depends on [buildings]. *)
Definition setBuildings (bs : list PlacedBuilding.t) (st : state) : state :=
  setGameState (updateStats bs)
    {| gameState := gameState st;
       buildings := bs;
       selectedBuildingId := selectedBuildingId st;
       inspectedBuildingId := inspectedBuildingId st;
       isDemolishMode := isDemolishMode st;
       currentVariant := currentVariant st |}.

Definition setSelectedBuildingId (v : option string) (st : state) : state :=
  {| gameState := gameState st;
     buildings := buildings st;
     selectedBuildingId := v;
     inspectedBuildingId := inspectedBuildingId st;
     isDemolishMode := isDemolishMode st;
     currentVariant := currentVariant st |}.

Definition setInspectedBuildingId (v : option string) (st : state) : state :=
  {| gameState := gameState st;
     buildings := buildings st;
     selectedBuildingId := selectedBuildingId st;
     inspectedBuildingId := v;
     isDemolishMode := isDemolishMode st;
     currentVariant := currentVariant st |}.

Definition setIsDemolishMode (v : bool) (st : state) : state :=
  {| gameState := gameState st;
     buildings := buildings st;
     selectedBuildingId := selectedBuildingId st;
     inspectedBuildingId := inspectedBuildingId st;
     isDemolishMode := v;
     currentVariant := currentVariant st |}.

Definition setCurrentVariant (v : number) (st : state) : state :=
  {| gameState := gameState st;
     buildings := buildings st;
     selectedBuildingId := selectedBuildingId st;
     inspectedBuildingId := inspectedBuildingId st;
     isDemolishMode := isDemolishMode st;
     currentVariant := v |}.

(** *** Handlers *)

Definition handlePlaceBuilding (building : PlacedBuilding.t) (st : state) : state :=
  if String.eqb (PlacedBuilding.typeId building) "tool_dezone" then st
  else
    setBuildings
      (buildings st ++
       [ {| PlacedBuilding.id := PlacedBuilding.id building;
            PlacedBuilding.typeId := PlacedBuilding.typeId building;
            PlacedBuilding.x := PlacedBuilding.x building;
            PlacedBuilding.z := PlacedBuilding.z building;
            PlacedBuilding.rotation := PlacedBuilding.rotation building;
            PlacedBuilding.variant := Some (currentVariant st) |} ])
      st.

Definition handleRemoveBuilding (id : string) (st : state) : state :=
  let st1 :=
    setBuildings
      (filter (fun b => negb (String.eqb (PlacedBuilding.id b) id)) (buildings st))
      st in
  match inspectedBuildingId st with
  | Some i => if String.eqb i id then setInspectedBuildingId None st1 else st1
  | None => st1
  end.

Definition handleDeselect (st : state) : state :=
  setInspectedBuildingId None
    (setIsDemolishMode false (setSelectedBuildingId None st)).

Definition handleSelectBuildingTool (id : option string) (st : state) : state :=
  let st1 := setSelectedBuildingId id st in
  match id with
  | Some s =>
      if String.eqb s "" then st1
      else setIsDemolishMode false (setInspectedBuildingId None st1)
  | None => st1
  end.

Definition handleDemolishToggle (active : bool) (st : state) : state :=
  let st1 := setIsDemolishMode active st in
  if active then setInspectedBuildingId None (setSelectedBuildingId None st1)
  else st1.

(** [onUpdateGameState({ funds })], the only update the canvas sends:
    the given field replaces the one of the previous game state. *)
Definition onUpdateGameState (funds : number) (st : state) : state :=
  setGameState (fun prev =>
    {| GameState.funds := funds;
       GameState.population := GameState.population prev;
       GameState.jobs := GameState.jobs prev;
       GameState.happiness := GameState.happiness prev;
       GameState.level := GameState.level prev;
       GameState.rci := GameState.rci prev;
       GameState.time := GameState.time prev;
       GameState.weather := GameState.weather prev |}) st.

End App.

(** ** GameCanvas.tsx: clicks *)

Module GameCanvas.

(** The preview group ([ghostRef.current]): its visibility and position. *)
Record ghost := { visible : bool; position_x : number; position_z : number }.

(** What a click reads besides the props: the preview (absent before the
    scene is mounted), the identifier carried by the placed geometry under
    the pointer, if any ([handleBuildingClick]), and the identifier drawn
    for a new structure ([Math.random().toString(36).substr(2, 9)]). *)
Record pointer := {
  ghostRef : option ghost;
  target : option string;
  freshId : string
}.

(** A string used as a condition: absent and empty are both false. *)
Definition truthy (s : option string) : bool :=
  match s with
  | Some v => negb (String.eqb v "")
  | None => false
  end.

Definition is_dezone (s : option string) : bool :=
  match s with
  | Some v => String.eqb v "tool_dezone"
  | None => false
  end.

Definition getSelectedBuildingType (props : App.state) : option BuildingType.t :=
  match App.selectedBuildingId props with
  | Some v => findType v
  | None => None
  end.

Definition ghost_visible (g : option ghost) : bool :=
  match g with
  | Some gh => visible gh
  | None => false
  end.

(** The click handler.  The result is the next application state and the
    message of the alert raised, if any. *)
Definition handleClick (props : App.state) (p : pointer)
    : App.state * option string :=
  if App.isDemolishMode props || is_dezone (App.selectedBuildingId props) then
    match target p with
    | Some id =>
        if String.eqb id "" then (props, None)
        else (App.handleRemoveBuilding id props, None)
    | None => (props, None)
    end
  else
    match ghostRef p, App.selectedBuildingId props with
    | Some gh, Some selected =>
        if visible gh && negb (String.eqb selected "") then
          (* Placement Logic *)
          match getSelectedBuildingType props with
          | None => (props, None)
          | Some bType =>
              let x := position_x gh in
              let z := position_z gh in
              if negb (checkCollision (App.buildings props) x z
                         (BuildingType.width bType) (BuildingType.depth bType)) then
                if JS.ge (GameState.funds (App.gameState props)) (BuildingType.cost bType) then
                  let st1 :=
                    App.handlePlaceBuilding
                      {| PlacedBuilding.id := freshId p;
                         PlacedBuilding.typeId := selected;
                         PlacedBuilding.x := x;
                         PlacedBuilding.z := z;
                         PlacedBuilding.rotation := 0;
                         PlacedBuilding.variant := None |} props in
                  (App.onUpdateGameState
                     (GameState.funds (App.gameState props) - BuildingType.cost bType)
                     st1, None)
                else (props, Some "Not enough Simoleons!"%string)
              else (props, None)
          end
        else
          (* Inspection Mode (No tool selected) *)
          (App.setInspectedBuildingId
             (if truthy (target p) then target p else None) props, None)
    | _, _ =>
        (App.setInspectedBuildingId
           (if truthy (target p) then target p else None) props, None)
    end.

End GameCanvas.

(** ** GameCanvas.tsx: sky and fog of a render frame *)

Module Color.

Record t := { r : number; g : number; b : number }.

(** [setHex]: the three bytes of the hexadecimal triplet, each over 255. *)
Definition setHex (hex : Z) : t :=
  {| r := inject_Z (Z.land (Z.shiftr hex 16) 255) / 255;
     g := inject_Z (Z.land (Z.shiftr hex 8) 255) / 255;
     b := inject_Z (Z.land hex 255) / 255 |}.

(** [c.lerp(color, alpha)] *)
Definition lerp (c color : t) (alpha : number) : t :=
  {| r := r c + (r color - r c) * alpha;
     g := g c + (g color - g c) * alpha;
     b := b c + (b color - b c) * alpha |}.

(** Two colours are the same when their channels are equal numbers. *)
Definition same (c1 c2 : t) : Prop :=
  r c1 == r c2 /\ g c1 == g c2 /\ b c1 == b c2.

End Color.

Module COLORS.
(** The style text ['#38bdf8'], read as the triplet it denotes. *)
Definition WATER : Z := 0x38bdf8.
End COLORS.

Module Scene.

Record Fog := { color : Color.t; near : number; far : number }.

Record t := { background : Color.t; fog : option Fog }.

Definition initial : t :=
  {| background := Color.setHex COLORS.WATER;
     fog := Some {| color := Color.setHex COLORS.WATER; near := 600; far := 2500 |} |}.

Definition isNight (time : number) : bool :=
  JS.lt time 5 || JS.gt time 19.

Definition isDawnDusk (time : number) : bool :=
  (JS.ge time 5 && JS.lt time 7) || (JS.gt time 17 && JS.le time 19).

Definition targetSky (time : number) (weather : Weather.t) : Color.t :=
  let targetSky := Color.setHex COLORS.WATER in
  let targetSky :=
    if isNight time then Color.setHex 0x0a0a15
    else if isDawnDusk time then Color.setHex 0xffaa77
    else targetSky in
  match weather with
  | Weather.rain => Color.lerp targetSky (Color.setHex 0x333344) 0.8
  | Weather.fog => Color.lerp targetSky (Color.setHex 0xcccccc) 0.9
  | Weather.clear => targetSky
  end.

Definition wNear (weather : Weather.t) : number :=
  match weather with Weather.fog => 50 | Weather.rain => 300 | Weather.clear => 600 end.

Definition wFar (weather : Weather.t) : number :=
  match weather with Weather.fog => 900 | Weather.rain => 1500 | Weather.clear => 2500 end.

(** The sky and fog part of one [animate] frame. *)
Definition animate (curState : GameState.t) (scene : t) : t :=
  let time := GameState.time curState in
  let weather := GameState.weather curState in
  let targetSky := targetSky time weather in
  {| background := targetSky;
     fog :=
       match Scene.fog scene with
       | None => None
       | Some f =>
           Some {| color := targetSky;
                   near := near f + (wNear weather - near f) * 0.05;
                   far := far f + (wFar weather - far f) * 0.05 |}
       end |}.

End Scene.

(** ** The running application *)

(** What can happen to the application state: the timer fires, the canvas is
    clicked, a key is pressed, or the overlay calls one of its handlers. *)
Inductive event :=
| Tick (s : Math.source)
| Click (p : GameCanvas.pointer)
| KeyC
| Escape
| SelectBuildingTool (id : option string)
| DemolishToggle (active : bool)
| CloseInspector.

Definition step (e : event) (st : App.state) : App.state :=
  match e with
  | Tick s => App.setGameState (fun prev => fst (App.tick prev s)) st
  | Click p => fst (GameCanvas.handleClick st p)
  | KeyC => App.setCurrentVariant (JS.rem (App.currentVariant st + 1) 3) st
  | Escape => App.handleDeselect st
  | SelectBuildingTool id => App.handleSelectBuildingTool id st
  | DemolishToggle active => App.handleDemolishToggle active st
  | CloseInspector => App.setInspectedBuildingId None st
  end.

Inductive reachable : App.state -> Prop :=
| reachable_initial : reachable App.initial
| reachable_step e st : reachable st -> reachable (step e st).

(** A demand component is a percentage. *)
Definition percentage (v : number) : Prop := 0 <= v <= 100.

Definition rci_in_range (v : RCI.t) : Prop :=
  percentage (RCI.res v) /\ percentage (RCI.com v) /\ percentage (RCI.ind v).

(** ** components/UIOverlay.tsx *)

Module UIOverlay.

(** [n.toString()], on the whole numbers it is applied to here. *)
Definition toString (n : number) : string :=
  NilZero.string_of_int (Z.to_int (Qfloor n)).

(** [s.padStart(targetLength, padString)] *)
Definition padStart (s : string) (targetLength : nat) (padString : string) : string :=
  let len := String.length s in
  if (targetLength <=? len)%nat || String.eqb padString "" then s
  else
    let fill := (targetLength - len)%nat in
    (substring 0 fill (concat "" (repeat padString fill)) ++ s)%string.

Definition formatTime (t : number) : string :=
  let h := Math.floor t in
  let m := Math.floor (JS.rem t 1 * 60) in
  (padStart (toString h) 2 "0" ++ ":" ++ padStart (toString m) 2 "0")%string.

Definition getVariantName (v : number) : string :=
  if JS.eq v 0 then "Modern"
  else if JS.eq v 1 then "Classic"
  else if JS.eq v 2 then "Eco"
  else "Standard".

Definition getActiveToolName (props : App.state) : string :=
  if App.isDemolishMode props then "Demolish"
  else if GameCanvas.truthy (App.selectedBuildingId props) then
    match GameCanvas.getSelectedBuildingType props with
    | Some b => if String.eqb (BuildingType.name b) "" then "Unknown"
                else BuildingType.name b
    | None => "Unknown"
    end
  else "Pointer".

(** [BUILDINGS.filter(b => b.category === activeCategory)] *)
Definition filteredBuildings (activeCategory : BuildingCategory)
    : list BuildingType.t :=
  filter (fun b => BuildingCategory_eqb (BuildingType.category b) activeCategory)
    BUILDINGS.

(** What the inspector panel shows of a placed structure. *)
Record inspected := {
  building : PlacedBuilding.t;
  type : BuildingType.t;
  pop : number;
  jobs : number;
  variant : number
}.

Definition inspectedData (props : App.state) : option inspected :=
  match App.inspectedBuildingId props with
  | None => None
  | Some inspectedBuildingId =>
      if String.eqb inspectedBuildingId "" then None
      else
        match find (fun b => String.eqb (PlacedBuilding.id b) inspectedBuildingId)
                (App.buildings props) with
        | None => None
        | Some building =>
            match findType (PlacedBuilding.typeId building) with
            | None => None
            | Some type =>
                let area := BuildingType.width type * BuildingType.depth type in
                let factor := 10 in
                let pop :=
                  if BuildingCategory_eqb (BuildingType.category type) RESIDENTIAL
                  then Math.floor (area * factor * (1 + BuildingType.width type * 0.5))
                  else 0 in
                let jobs :=
                  if BuildingCategory_eqb (BuildingType.category type) RESIDENTIAL
                  then 0
                  else if BuildingCategory_eqb (BuildingType.category type) COMMERCIAL
                          || BuildingCategory_eqb (BuildingType.category type) INDUSTRIAL
                          || BuildingCategory_eqb (BuildingType.category type) OFFICE
                  then Math.floor (area * factor * (1 + BuildingType.width type * 0.2))
                  else 0 in
                Some {| building := building;
                        type := type;
                        pop := pop;
                        jobs := jobs;
                        variant := match PlacedBuilding.variant building with
                                   | Some v => v
                                   | None => 0
                                   end |}
            end
        end
  end.

(** The demolish button: [onDemolishMode(!isDemolishMode); onSelectBuilding(null)]. *)
Definition demolishButton (st : App.state) : App.state :=
  App.handleSelectBuildingTool None
    (App.handleDemolishToggle (negb (App.isDemolishMode st)) st).

(** A button of the construction menu:
    [onSelectBuilding(selectedBuildingId === building.id ? null : building.id);
     onDemolishMode(false)]. *)
Definition buildingButton (building : BuildingType.t) (st : App.state) : App.state :=
  App.handleDemolishToggle false
    (App.handleSelectBuildingTool
       (match App.selectedBuildingId st with
        | Some selected =>
            if String.eqb selected (BuildingType.id building) then None
            else Some (BuildingType.id building)
        | None => Some (BuildingType.id building)
        end) st).

End UIOverlay.

(** ** GameCanvas.tsx: the preview under the pointer *)

Module Preview.

Definition SELECTION_VALID : string := "#22c55e".
Definition SELECTION_INVALID : string := "#ef4444".

(** [Math.round]: the nearest whole number, halves going up. *)
Definition round (v : number) : number := Math.floor (v + 0.5).

(** The preview group: the part a click reads, the type it was built for
    ([userData.typeId]) and the colour given to its meshes, when one was
    given. *)
Record t := {
  ghost : GameCanvas.ghost;
  typeId : option string;
  tint : option string
}.

Definition hide (pv : t) : t :=
  {| ghost := {| GameCanvas.visible := false;
                 GameCanvas.position_x := GameCanvas.position_x (ghost pv);
                 GameCanvas.position_z := GameCanvas.position_z (ghost pv) |};
     typeId := typeId pv;
     tint := tint pv |}.

Definition updateGhost (props : App.state) (pv : t) (x z : number) : t :=
  match GameCanvas.getSelectedBuildingType props with
  | Some buildingType =>
      if GameCanvas.truthy (App.selectedBuildingId props) then
        {| ghost := {| GameCanvas.visible := true;
                       GameCanvas.position_x := x;
                       GameCanvas.position_z := z |};
           typeId := App.selectedBuildingId props;
           tint :=
             if GameCanvas.is_dezone (App.selectedBuildingId props) then None
             else
               let isValid :=
                 negb (checkCollision (App.buildings props) x z
                         (BuildingType.width buildingType)
                         (BuildingType.depth buildingType)) in
               Some (if isValid then SELECTION_VALID else SELECTION_INVALID) |}
      else hide pv
  | None => hide pv
  end.

(** The snapping of a world coordinate to the grid. *)
Definition snap (v : number) : number := round (v / TILE_SIZE) * TILE_SIZE.

Section MouseMove.

(** [Math.sin], which the model leaves open. *)
Variable sin : number -> number.

Definition riverZ (x : number) : number :=
  sin (x * 0.005) * 80 + sin (x * 0.015) * 30.

(** The mouse handler, given the point where the pointer's ray meets the
    terrain, if it does. *)
Definition handleMouseMove (props : App.state) (pv : t)
    (intersects : option (number * number)) : t :=
  match intersects with
  | Some (point_x, point_z) =>
      let riverZ := riverZ point_x in
      let limit := MAP_SIZE / 2 in
      if JS.lt point_x (- limit + 10) || JS.gt point_x (limit - 10)
         || JS.lt (Qabs (point_z - riverZ)) 35
      then hide pv
      else
        let snappedX := snap point_x in
        let snappedZ := snap point_z in
        updateGhost props pv snappedX snappedZ
  | None => hide pv
  end.

End MouseMove.

End Preview.

(** ** GameCanvas.tsx: rain *)

Module Rain.

(** [positions[k] = f(positions[k])]; a write outside the array is lost. *)
Fixpoint update_at (k : nat) (f : number -> number) (positions : list number)
    : list number :=
  match positions, k with
  | [], _ => []
  | v :: rest, O => f v :: rest
  | v :: rest, S k' => v :: update_at k' f rest
  end.

(** One particle falls by 8 and goes back to the top below the ground. *)
Definition fall (y : number) : number :=
  let y' := y - 8 in
  if JS.lt y' 0 then 800 else y'.

(** The iterations [i, i+1, ..., i+n-1] of the loop over the particles. *)
Fixpoint loop (n i : nat) (positions : list number) : list number :=
  match n with
  | O => positions
  | S n' => loop n' (S i) (update_at (i * 3 + 1) fall positions)
  end.

(** The number of [i = 0, 1, ...] below [positions.length / 3]. *)
Definition particles (positions : list number) : nat :=
  ((List.length positions + 2) / 3)%nat.

(** The rain part of one [animate] frame: the opacity of the rain material
    and the particle array. *)
Definition animate (weather : Weather.t) (positions : list number)
    : number * list number :=
  let isRaining := match weather with Weather.rain => true | _ => false end in
  (if isRaining then 0.6 else 0,
   if isRaining then loop (particles positions) 0 positions else positions).

End Rain.

(** ** GameCanvas.tsx: the procedural forms *)

Module THREE.

Record Vector3 := { x : number; y : number; z : number }.

Inductive Geometry :=
| BoxGeometry (width height depth : number)
| DodecahedronGeometry (radius detail : number)
| CylinderGeometry (radiusTop radiusBottom height : number)
| ConeGeometry (radius height : number) (radialSegments : option number).

(** A colour given as a style text or as a hexadecimal number. *)
Inductive ColorRepresentation :=
| Style (s : string)
| Hex (h : Z).

Inductive MaterialKind := MeshStandardMaterial | MeshBasicMaterial.

(** A material.  The fields a constructor call does not give have the
    defaults of the library (opaque, not transparent, smooth shading, no
    wire frame, black emissive colour of intensity 1); a basic material has
    no roughness, metalness or emissive colour. *)
Record Material := {
  kind : MaterialKind;
  color : ColorRepresentation;
  roughness : option number;
  metalness : option number;
  transparent : bool;
  opacity : number;
  flatShading : bool;
  emissive : option ColorRepresentation;
  emissiveIntensity : option number;
  wireframe : bool
}.

(** A mesh; [rotation_y] is in units of pi. *)
Record Mesh := {
  geometry : Geometry;
  material : Material;
  position : Vector3;
  rotation_y : number;
  name : string;
  castShadow : bool;
  receiveShadow : bool
}.

#[local] Set Warnings "-register-all".

Inductive Object3D :=
| AMesh (m : Mesh)
| Group (position : Vector3) (children : list Object3D).

(** [new THREE.Mesh(geometry, material)] with its position set to
    [(px, py, pz)]. *)
Definition mesh_at (g : Geometry) (m : Material) (px py pz : number) : Mesh :=
  {| geometry := g; material := m;
     position := {| x := px; y := py; z := pz |};
     rotation_y := 0; name := ""; castShadow := false; receiveShadow := false |}.

Definition named (n : string) (m : Mesh) : Mesh :=
  {| geometry := geometry m; material := material m; position := position m;
     rotation_y := rotation_y m; name := n;
     castShadow := castShadow m; receiveShadow := receiveShadow m |}.

Definition shadows (cast receive : bool) (m : Mesh) : Mesh :=
  {| geometry := geometry m; material := material m; position := position m;
     rotation_y := rotation_y m; name := name m;
     castShadow := cast; receiveShadow := receive |}.

Definition rotated_y (r : number) (m : Mesh) : Mesh :=
  {| geometry := geometry m; material := material m; position := position m;
     rotation_y := r; name := name m;
     castShadow := castShadow m; receiveShadow := receiveShadow m |}.

(** The meshes of an object, those of its groups included. *)
Fixpoint meshes (o : Object3D) : list Mesh :=
  match o with
  | AMesh m => [m]
  | Group _ children => flat_map meshes children
  end.

End THREE.

Module Procedural.

Import THREE.

(** [s.includes(sub)] *)
Fixpoint includes (s sub : string) : bool :=
  if String.prefix sub s then true
  else match s with
       | EmptyString => false
       | String _ rest => includes rest sub
       end.

(** The number of [i = 0, 1, 2, ...] with [i < bound]. *)
Definition below (bound : number) : nat := Z.to_nat (Qceiling bound).

(** The loop counter as a number. *)
Definition num (i : nat) : number := inject_Z (Z.of_nat i).

Definition createMat (isGhost : bool) (color : string) (rough metal : number)
    (emissive : bool) : Material :=
  {| kind := MeshStandardMaterial;
     color := Style color;
     roughness := Some rough;
     metalness := Some metal;
     transparent := isGhost;
     opacity := if isGhost then 0.6 else 1.0;
     flatShading := true;
     emissive := Some (if emissive then Style color else Hex 0x000000);
     emissiveIntensity := Some 0;
     wireframe := false |}.

(** The piles of a landfill: [n] iterations of the loop. *)
Fixpoint piles_loop (n : nat) (w d : number) (isGhost : bool) (pileMat : Material)
    (s : Math.source) : list Object3D * Math.source :=
  match n with
  | O => ([], s)
  | S n' =>
      let '(r0, s1) := Math.random s in
      let r := 2 + r0 * 3 in
      let '(rx, s2) := Math.random s1 in
      let '(rz, s3) := Math.random s2 in
      let pile :=
        shadows (negb isGhost) false
          (mesh_at (DodecahedronGeometry r 0) pileMat
             ((rx - 0.5) * (w - 4)) (r * 0.5) ((rz - 0.5) * (d - 4))) in
      let '(rest, s') := piles_loop n' w d isGhost pileMat s3 in
      (AMesh pile :: rest, s')
  end.

(** The trees of a park: [n] iterations of the loop. *)
Fixpoint trees_loop (n : nat) (w d : number) (trunkMat leavesMat : Material)
    (s : Math.source) : list Object3D * Math.source :=
  match n with
  | O => ([], s)
  | S n' =>
      let trunk := mesh_at (CylinderGeometry 0.5 0.5 2) trunkMat 0 1 0 in
      let leaves := mesh_at (ConeGeometry 2 4 None) leavesMat 0 3.5 0 in
      let '(rx, s1) := Math.random s in
      let '(rz, s2) := Math.random s1 in
      let tGroup :=
        Group {| x := (rx - 0.5) * (w - 4); y := 0.5; z := (rz - 0.5) * (d - 4) |}
          [AMesh trunk; AMesh leaves] in
      let '(rest, s') := trees_loop n' w d trunkMat leavesMat s2 in
      (tGroup :: rest, s')
  end.

(** One step of the eco form. *)
Definition eco_step (w d h steps : number) (isGhost : bool)
    (wallMat woodMat grassMat glassMat : Material) (i : number) : list Object3D :=
  let stepH := h / steps in
  let inset := i * 1.5 in
  let stepW := Math.max 2 (w - 2 - inset) in
  let stepD := Math.max 2 (d - 2 - inset) in
  let mesh :=
    shadows (negb isGhost) (negb isGhost)
      (mesh_at (BoxGeometry stepW stepH stepD)
         (if JS.eq (JS.rem i 2) 0 then wallMat else woodMat)
         0 ((i * stepH) + stepH / 2) 0) in
  [AMesh mesh]
  ++ (if JS.eq (JS.rem i 2) 0 && negb isGhost then
        [AMesh (named "window_mesh"
                  (mesh_at (BoxGeometry (stepW + 0.1) (stepH * 0.6) (stepD + 0.1))
                     glassMat 0 ((i * stepH) + stepH / 2) 0))]
      else [])
  ++ (if JS.gt i 0 && negb isGhost then
        let prevInset := (i - 1) * 1.5 in
        let prevW := Math.max 2 (w - 2 - prevInset) in
        let prevD := Math.max 2 (d - 2 - prevInset) in
        [AMesh (mesh_at (BoxGeometry (prevW - 0.2) 0.2 (prevD - 0.2))
                  grassMat 0 (i * stepH) 0)]
      else []).

(** The children of the group built for a type, a variant and the preview
    flag, and the random source after the draws. *)
Definition createProceduralBuilding (type : BuildingType.t) (variant : number)
    (isGhost : bool) (s : Math.source) : list Object3D * Math.source :=
  let w := BuildingType.width type * TILE_SIZE in
  let d := BuildingType.depth type * TILE_SIZE in
  let h := BuildingType.height type * TILE_SIZE in
  let style := JS.rem variant 3 in
  let isZone :=
    existsb (BuildingCategory_eqb (BuildingType.category type))
      [RESIDENTIAL; COMMERCIAL; OFFICE; INDUSTRIAL] in
  if BuildingCategory_eqb (BuildingType.category type) UTILITY
     && includes (BuildingType.id type) "landfill" then
    let piles := Math.max 3 (w * 0.5) in
    let pileMat := createMat isGhost "#713f12" 0.9 0.0 false in
    let '(heap, s') := piles_loop (below piles) w d isGhost pileMat s in
    (heap
     ++ (if negb isGhost then
           [AMesh (mesh_at (BoxGeometry w 2 d)
                     {| kind := MeshStandardMaterial;
                        color := Style "#444";
                        roughness := Some 1;
                        metalness := Some 0;
                        transparent := false;
                        opacity := 1;
                        flatShading := false;
                        emissive := Some (Hex 0x000000);
                        emissiveIntensity := Some 1;
                        wireframe := true |}
                     0 1 0)]
         else []), s')
  else if BuildingCategory_eqb (BuildingType.category type) DECORATION then
    let ground :=
      mesh_at (BoxGeometry w 1 d) (createMat isGhost "#166534" 0.9 0 false) 0 0.5 0 in
    if negb isGhost then
      let treeCount := Math.max 1 ((w * d) / 50) in
      let leavesCol : string := if JS.eq style 2 then "#4ade80"%string else "#15803d"%string in
      let '(wood, s') :=
        trees_loop (below treeCount) w d
          (createMat isGhost "#3f2c20" 1 0 false) (createMat isGhost leavesCol 0.8 0 false) s in
      (AMesh ground :: wood, s')
    else ([AMesh ground], s)
  else if negb isZone then
    ([AMesh (mesh_at (BoxGeometry (w - 0.2) h (d - 0.2))
               (createMat isGhost (BuildingType.color type) 0.5 0 false) 0 (h / 2) 0)], s)
  else if JS.eq style 0 then
    let glassColor : string :=
      match BuildingType.category type with
      | OFFICE => "#a78bfa"%string
      | COMMERCIAL => "#60a5fa"%string
      | RESIDENTIAL => "#86efac"%string
      | _ => "#fde047"%string
      end in
    let mat := createMat isGhost glassColor 0.1 0.8 true in
    if JS.gt h 15 then
      let towerW := w - 4 in
      let towerD := d - 4 in
      let tower :=
        shadows (negb isGhost) (negb isGhost)
          (named "window_mesh"
             (mesh_at (BoxGeometry towerW h towerD) mat 0 (h / 2) 0)) in
      let frame :=
        mesh_at (BoxGeometry (towerW - 0.5) (h + 0.2) (towerD - 0.5))
          {| kind := MeshBasicMaterial;
             color := Hex 0xffffff;
             roughness := None;
             metalness := None;
             transparent := true;
             opacity := 0.2;
             flatShading := false;
             emissive := None;
             emissiveIntensity := None;
             wireframe := true |}
          0 (h / 2) 0 in
      ([AMesh tower; AMesh frame], s)
    else
      let box :=
        shadows (negb isGhost) (negb isGhost)
          (named "window_mesh"
             (mesh_at (BoxGeometry (w - 2) h (d - 2)) mat 0 (h / 2) 0)) in
      ([AMesh box], s)
  else if JS.eq style 1 then
    let brickColor : string :=
      match BuildingType.category type with
      | RESIDENTIAL => "#b45309"%string
      | COMMERCIAL => "#78350f"%string
      | _ => "#57534e"%string
      end in
    let mat := createMat isGhost brickColor 0.9 0.1 false in
    let roofMat := createMat isGhost "#374151" 0.6 0.3 false in
    let trimMat := createMat isGhost "#e5e5e5" 0.5 0 false in
    let box :=
      shadows (negb isGhost) (negb isGhost)
        (mesh_at (BoxGeometry (w - 2) h (d - 2)) mat 0 (h / 2) 0) in
    ([AMesh box]
     ++ (if negb isGhost then
           let winMat := createMat isGhost "#ffffaa" 0.2 0.8 true in
           let floors := Math.floor (h / 3) in
           map (fun f =>
                  AMesh (named "window_mesh"
                           (mesh_at (BoxGeometry (w - 1.8) 1.5 (d - 1.8)) winMat
                              0 (num f * 3) 0)))
             (seq 1 (below floors - 1))
         else [])
     ++ (if negb isGhost then
           [AMesh (mesh_at (BoxGeometry (w - 1.5) 1 (d - 1.5)) trimMat 0 (h - 0.5) 0);
            AMesh (mesh_at (BoxGeometry (w - 1.8) 1 (d - 1.8)) trimMat 0 0.5 0)]
           ++ (if BuildingCategory_eqb (BuildingType.category type) RESIDENTIAL then
                 [AMesh (rotated_y (1 / 4)
                           (mesh_at (ConeGeometry (Math.min w d / 2) 4 (Some 4))
                              roofMat 0 (h + 2) 0))]
               else [])
         else []), s)
  else if JS.eq style 2 then
    let wallMat := createMat isGhost "#f9fafb" 0.3 0.1 false in
    let woodMat := createMat isGhost "#d97706" 0.8 0 false in
    let grassMat := createMat isGhost "#22c55e" 1.0 0 false in
    let glassMat := createMat isGhost "#a7f3d0" 0.1 0.8 true in
    let steps := Math.max 1 (Math.floor (h / 6)) in
    (flat_map (fun i => eco_step w d h steps isGhost wallMat woodMat grassMat glassMat
                          (num i))
       (seq 0 (below steps))
     ++ (if negb isGhost then
           let finalInset := (steps - 1) * 1.5 in
           let finalW := Math.max 2 (w - 2 - finalInset) in
           let finalD := Math.max 2 (d - 2 - finalInset) in
           [AMesh (mesh_at (BoxGeometry (finalW - 0.2) 0.2 (finalD - 0.2))
                     grassMat 0 h 0)]
         else []), s)
  else ([], s).

(** What the scene holds for a placed structure: the children of its group,
    the position of the group and the identifier in its user data. *)
Record rendered := {
  children : list Object3D;
  position : Vector3;
  userData_id : string
}.

(** The effect that rebuilds the group of placed structures. *)
Fixpoint renderBuildings (buildings : list PlacedBuilding.t) (s : Math.source)
    : list rendered * Math.source :=
  match buildings with
  | [] => ([], s)
  | b :: rest =>
      match findType (PlacedBuilding.typeId b) with
      | None => renderBuildings rest s
      | Some bType =>
          let variant :=
            match PlacedBuilding.variant b with
            | Some v => if JS.eq v 0 then 0 else v
            | None => 0
            end in
          let '(buildingMesh, s1) := createProceduralBuilding bType variant false s in
          let '(others, s') := renderBuildings rest s1 in
          ({| children := buildingMesh;
              position := {| x := PlacedBuilding.x b; y := 2; z := PlacedBuilding.z b |};
              userData_id := PlacedBuilding.id b |} :: others, s')
      end
  end.

End Procedural.

(** ** GameCanvas.tsx: sun, stars and lit windows of the frame *)

Module Lighting.

Import THREE.

(** [object.traverse(callback)] where the callback rewrites meshes. *)
Fixpoint traverse (f : Mesh -> Mesh) (o : Object3D) : Object3D :=
  match o with
  | AMesh m => AMesh (f m)
  | Group p children => Group p (map (traverse f) children)
  end.

Record DirectionalLight := { position : Vector3; intensity : number }.

Section Trigonometry.

(** [Math.sin], [Math.cos] and [Math.PI] are not rational: the frame is
    read for any functions and any constant in their place. *)
Variables sin cos : number -> number.
Variable PI : number.

Definition sunAngle (time : number) : number := ((time - 6) / 24) * PI * 2.

Definition sunLight (time : number) (weather : Weather.t) : DirectionalLight :=
  let dist := 1000 in
  let intensity := Math.max 0 (sin (sunAngle time)) in
  let weatherDim :=
    match weather with Weather.clear => 1.0 | _ => 0.4 end in
  {| position := {| x := cos (sunAngle time) * dist;
                    y := sin (sunAngle time) * dist;
                    z := 500 |};
     intensity := intensity * 1.5 * weatherDim |}.

Definition starOpacity (time : number) (weather : Weather.t) : number :=
  if Scene.isNight time
     && match weather with Weather.clear => true | _ => false end
  then Math.max 0 (sin ((JS.rem (time + 12) 24 / 24) * PI))
  else 0.

Definition nightIntensity (time : number) : number :=
  Math.max 0 (cos (sunAngle time) * -1).

(** The callback of the traversal.  In the source the assignment goes
    through the material object; [createProceduralBuilding] shares a
    material only among meshes that carry the same name. *)
Definition lightWindow (time : number) (weather : Weather.t) (child : Mesh) : Mesh :=
  if String.eqb (name child) "window_mesh" then
    let mat := material child in
    match emissive mat with
    | Some _ =>
        {| geometry := geometry child;
           material :=
             {| kind := kind mat; color := color mat;
                roughness := roughness mat; metalness := metalness mat;
                transparent := transparent mat; opacity := opacity mat;
                flatShading := flatShading mat; emissive := emissive mat;
                emissiveIntensity :=
                  Some (nightIntensity time
                        * match weather with Weather.clear => 1.5 | _ => 2.0 end);
                wireframe := wireframe mat |};
           THREE.position := THREE.position child;
           rotation_y := rotation_y child;
           name := name child;
           castShadow := castShadow child;
           receiveShadow := receiveShadow child |}
    | None => child
    end
  else child.

Definition lightWindows (time : number) (weather : Weather.t)
    (buildingsGroup : list Procedural.rendered) : list Procedural.rendered :=
  map (fun r =>
         {| Procedural.children :=
              map (traverse (lightWindow time weather)) (Procedural.children r);
            Procedural.position := Procedural.position r;
            Procedural.userData_id := Procedural.userData_id r |})
    buildingsGroup.

End Trigonometry.

End Lighting.

(** * Specification vocabulary and example data *)

(** *** Specification vocabulary *)

(** The rectangle of a candidate placement: centre plus or minus the half
    extent, in world units. *)
Definition candidateRect (x z w d : number) : Rect.t :=
  {| Rect.x1 := x - (w * TILE_SIZE) / 2; Rect.x2 := x + (w * TILE_SIZE) / 2;
     Rect.z1 := z - (d * TILE_SIZE) / 2; Rect.z2 := z + (d * TILE_SIZE) / 2 |}.

(** The rectangle of a placed structure, when its type resolves. *)
Definition footprint (b : PlacedBuilding.t) : option Rect.t :=
  match findType (PlacedBuilding.typeId b) with
  | Some bType =>
      Some (candidateRect (PlacedBuilding.x b) (PlacedBuilding.z b)
              (BuildingType.width bType) (BuildingType.depth bType))
  | None => None
  end.

Definition resolvable (b : PlacedBuilding.t) : Prop :=
  findType (PlacedBuilding.typeId b) <> None.

(** A rectangle that is not contained in the grid square. *)
Definition outside_grid (r : Rect.t) : Prop :=
  Rect.x1 r < - (MAP_SIZE / 2) \/ Rect.x2 r > MAP_SIZE / 2 \/
  Rect.z1 r < - (MAP_SIZE / 2) \/ Rect.z2 r > MAP_SIZE / 2.

(** A rectangle that has no point in common with the grid square. *)
Definition fully_outside (r : Rect.t) : Prop :=
  Rect.x2 r < - (MAP_SIZE / 2) \/ Rect.x1 r > MAP_SIZE / 2 \/
  Rect.z2 r < - (MAP_SIZE / 2) \/ Rect.z1 r > MAP_SIZE / 2.

(** The open-interval overlap test on both axes. *)
Definition overlaps (a c : Rect.t) : Prop :=
  Rect.x1 a < Rect.x2 c /\ Rect.x2 a > Rect.x1 c /\
  Rect.z1 a < Rect.z2 c /\ Rect.z2 a > Rect.z1 c.

(** Two rectangles that share an edge line: one ends where the other starts. *)
Definition touching (a c : Rect.t) : Prop :=
  Rect.x2 a == Rect.x1 c \/ Rect.x2 c == Rect.x1 a \/
  Rect.z2 a == Rect.z1 c \/ Rect.z2 c == Rect.z1 a.

Definition collides_with (b : PlacedBuilding.t) (c : Rect.t) : Prop :=
  exists r, footprint b = Some r /\ overlaps r c.

(** *** The collision check *)

(** A structure of the catalog's 1x1 residential type, used in examples. *)
Definition house (id : string) (x z : number) : PlacedBuilding.t :=
  {| PlacedBuilding.id := id;
     PlacedBuilding.typeId := "res_1x1";
     PlacedBuilding.x := x;
     PlacedBuilding.z := z;
     PlacedBuilding.rotation := 0;
     PlacedBuilding.variant := Some 0 |}.

(** *** Structures of unknown type *)

(** A structure whose type does not resolve, sitting on the centre tile. *)
Definition ruin : PlacedBuilding.t :=
  {| PlacedBuilding.id := "old";
     PlacedBuilding.typeId := "res_9x9";
     PlacedBuilding.x := 0;
     PlacedBuilding.z := 0;
     PlacedBuilding.rotation := 0;
     PlacedBuilding.variant := None |}.

(** *** Committing a placement *)

(** The structure a successful commit appends. *)
Definition committed (props : App.state) (p : GameCanvas.pointer)
    (selected : string) (gh : GameCanvas.ghost) : PlacedBuilding.t :=
  {| PlacedBuilding.id := GameCanvas.freshId p;
     PlacedBuilding.typeId := selected;
     PlacedBuilding.x := GameCanvas.position_x gh;
     PlacedBuilding.z := GameCanvas.position_z gh;
     PlacedBuilding.rotation := 0;
     PlacedBuilding.variant := Some (App.currentVariant props) |}.

(** The initial city with the 1x1 residential type armed, and a pointer
    whose preview sits on the centre tile. *)
Definition armed (funds : number) : App.state :=
  App.onUpdateGameState funds
    (App.handleSelectBuildingTool (Some "res_1x1"%string) App.initial).

Definition centre_click : GameCanvas.pointer :=
  {| GameCanvas.ghostRef :=
       Some {| GameCanvas.visible := true;
               GameCanvas.position_x := 0;
               GameCanvas.position_z := 0 |};
     GameCanvas.target := None;
     GameCanvas.freshId := "k3x9q0a1z" |}.

(** The two modes exclude each other, and the funds are never negative. *)
Definition session_invariant (st : App.state) : Prop :=
  (App.isDemolishMode st = true ->
   GameCanvas.truthy (App.selectedBuildingId st) = false)
  /\ 0 <= GameState.funds (App.gameState st).

(** A pointer whose preview sits at [(x, z)], nothing under it. *)
Definition click_at (x z : number) : GameCanvas.pointer :=
  {| GameCanvas.ghostRef :=
       Some {| GameCanvas.visible := true;
               GameCanvas.position_x := x;
               GameCanvas.position_z := z |};
     GameCanvas.target := None;
     GameCanvas.freshId := "k3x9q0a1z" |}.

(** A spending spree: arm the 4x4 office type and click along a row of
    fifteen free sites. *)
Definition spree : App.state :=
  fold_left (fun st e => step e st)
    (map (fun i : Z => Click (click_at (inject_Z (40 * i)) 0))
       [-7; -6; -5; -4; -3; -2; -1; 0; 1; 2; 3; 4; 5; 6; 7]%Z)
    (step (SelectBuildingTool (Some "off_4x4"%string)) App.initial).

(** *** Population and jobs *)

(** The contribution of a type to the population, as the specification
    words it: the floor of [area * 10 * (1 + width * 0.5)] for a
    Residential type, nothing for the others. *)
Definition residents (t : BuildingType.t) : Z :=
  match BuildingType.category t with
  | RESIDENTIAL =>
      Qfloor (BuildingType.width t * BuildingType.depth t * 10
              * (1 + BuildingType.width t * 0.5))
  | _ => 0%Z
  end.

(** The contribution of a type to the jobs: the floor of
    [area * 10 * (1 + width * 0.2)] for a Commercial, Industrial or Office
    type, nothing for the others. *)
Definition workplaces (t : BuildingType.t) : Z :=
  match BuildingType.category t with
  | COMMERCIAL | INDUSTRIAL | OFFICE =>
      Qfloor (BuildingType.width t * BuildingType.depth t * 10
              * (1 + BuildingType.width t * 0.2))
  | _ => 0%Z
  end.

(** The sum, over the structures of a list, of a quantity of their type;
    a structure whose type does not resolve counts for nothing. *)
Fixpoint sum_over (f : BuildingType.t -> Z) (l : list PlacedBuilding.t) : Z :=
  match l with
  | [] => 0%Z
  | b :: l' =>
      (match findType (PlacedBuilding.typeId b) with
       | Some t => f t
       | None => 0
       end + sum_over f l')%Z
  end.

(** What the [forEach] body adds for one type, before any rounding. *)
Definition raw_residents (t : BuildingType.t) : number :=
  match BuildingType.category t with
  | RESIDENTIAL =>
      BuildingType.width t * BuildingType.depth t * 10
      * (1 + BuildingType.width t * 0.5)
  | _ => 0
  end.

Definition raw_workplaces (t : BuildingType.t) : number :=
  match BuildingType.category t with
  | COMMERCIAL | INDUSTRIAL | OFFICE =>
      BuildingType.width t * BuildingType.depth t * 10
      * (1 + BuildingType.width t * 0.2)
  | _ => 0
  end.

(** Every type of the catalog contributes a whole number. *)
Definition whole_contributions (t : BuildingType.t) : bool :=
  Qeq_bool (raw_residents t) (inject_Z (residents t))
  && Qeq_bool (raw_workplaces t) (inject_Z (workplaces t)).

(** What the [forEach] body adds for a type of the given width, depth and
    density coefficient (0.5 for population, 0.2 for jobs), in binary64. *)
Module Binary64.
Import PrimFloat.
Definition summand (width depth density : float) : float :=
  let area := (width * depth)%float in
  let factor := 10%float in
  (area * factor * (1 + width * density))%float.
End Binary64.

(** *** Placing, then removing *)

(** The application after [b] is placed and the structures carrying its
    identifier are removed again. *)
Definition placed_then_removed (b : PlacedBuilding.t) (st : App.state) : App.state :=
  App.handleRemoveBuilding (PlacedBuilding.id b) (App.handlePlaceBuilding b st).

(** The totals shown by a game state. *)
Definition shown_totals (g : GameState.t) : number * number :=
  (GameState.population g, GameState.jobs g).

(** The claim about [b] and the structures of [st]: the totals after
    placing and removing are the totals recomputed on the structures of
    [st] alone. *)
Definition totals_restored (b : PlacedBuilding.t) (st : App.state) : Prop :=
  shown_totals (App.gameState (placed_then_removed b st))
  = shown_totals (App.updateStats (App.buildings st) (App.gameState st)).

(** A city of one house, and a second house that was given the same
    identifier. *)
Definition one_house_city : App.state :=
  App.handlePlaceBuilding (house "a" 0 0) App.initial.

Definition namesake : PlacedBuilding.t := house "a" 10 0.

(** *** Demand stays a percentage *)

(** A source whose every draw is [v]. *)
Definition constant_source (v : number) : Math.source :=
  {| Math.draws := fun _ => v; Math.cursor := 0 |}.

(** A short session: arm the 1x1 residential type, place it on the centre
    tile, let the timer fire. *)
Definition short_session : App.state :=
  step (Tick (constant_source 0.5))
    (step (Click centre_click)
       (step (SelectBuildingTool (Some "res_1x1"%string)) App.initial)).

(** *** The clock *)

(** The state and the source after [n] firings of the timer. *)
Fixpoint ticks (n : nat) (prev : GameState.t) (s : Math.source)
    : GameState.t * Math.source :=
  match n with
  | O => (prev, s)
  | S n' => let '(next, s') := App.tick prev s in ticks n' next s'
  end.

Definition clock (t : number) : Prop := 0 <= t /\ t < 24.

(** A game state that only differs from the initial one by its clock. *)
Definition at_time (t : number) : GameState.t :=
  {| GameState.funds := INITIAL_FUNDS;
     GameState.population := INITIAL_POPULATION;
     GameState.jobs := 0;
     GameState.happiness := 100;
     GameState.level := 1;
     GameState.rci := {| RCI.res := 100; RCI.com := 50; RCI.ind := 50 |};
     GameState.time := t;
     GameState.weather := Weather.clear |}.

(** *** Weather *)

(** The rule as the specification words it: a draw of at most 0.5 is clear,
    a draw above 0.5 and at most 0.8 is rain, any other draw is fog. *)
Definition claimed_weather (roll : number) : Weather.t :=
  if JS.le roll 0.5 then Weather.clear
  else if JS.le roll 0.8 then Weather.rain
  else Weather.fog.

(** A source that opens the gate of the resample (first draw 0) and then
    draws [roll]. *)
Definition resampling_source (roll : number) : Math.source :=
  {| Math.draws := fun n => match n with O => 0 | S _ => roll end;
     Math.cursor := 0 |}.

(** *** Sky and fog *)

(** A channel that moved part of the way from [p] toward [t]: strictly
    between the two, or at rest when they already agree. *)
Definition channel_between (p n t : number) : Prop :=
  (p == t /\ n == t) \/ (p < n /\ n < t) \/ (t < n /\ n < p).

(** A colour that moved part of the way toward the target without
    reaching it. *)
Definition strictly_between (p n t : Color.t) : Prop :=
  channel_between (Color.r p) (Color.r n) (Color.r t)
  /\ channel_between (Color.g p) (Color.g n) (Color.g t)
  /\ channel_between (Color.b p) (Color.b n) (Color.b t)
  /\ ~ Color.same n t.

(** The claim about one frame: when the displayed sky differs from the
    target, the frame leaves it strictly between its previous value and the
    target. *)
Definition sky_is_smoothed (curState : GameState.t) (scene : Scene.t) : Prop :=
  let target :=
    Scene.targetSky (GameState.time curState) (GameState.weather curState) in
  ~ Color.same (Scene.background scene) target ->
  strictly_between (Scene.background scene)
    (Scene.background (Scene.animate curState scene)) target.

(** The scene as the frame drawn at 19:00 in clear weather leaves it. *)
Definition dusk_scene : Scene.t := Scene.animate (at_time 19) Scene.initial.

(** *** Invariants of a session *)

(** A placed structure whose type resolves and whose rectangle is inside
    the grid square. *)
Definition placed_in_grid (b : PlacedBuilding.t) : Prop :=
  exists r, footprint b = Some r /\ ~ outside_grid r.

(** Two placed structures whose rectangles, when they have one, do not
    overlap. *)
Definition apart (a b : PlacedBuilding.t) : Prop :=
  forall ra rb, footprint a = Some ra -> footprint b = Some rb -> ~ overlaps ra rb.

(** The population and jobs shown are those recomputed from the placed
    structures. *)
Definition stats_fresh (st : App.state) : Prop :=
  shown_totals (App.gameState st)
  = shown_totals (App.updateStats (App.buildings st) (App.gameState st)).

(** One of the three style variants. *)
Definition is_style (v : number) : Prop := v == 0 \/ v == 1 \/ v == 2.

Definition styled (b : PlacedBuilding.t) : Prop :=
  exists v, PlacedBuilding.variant b = Some v /\ is_style v.

(** The identifiers of a list of placed structures. *)
Definition ids (bs : list PlacedBuilding.t) : list string :=
  map PlacedBuilding.id bs.

(** *** Catalog, fog and sky *)

(** What [createZone] promises of the type it builds for a size. *)
Definition zone_type (category : BuildingCategory) (baseCost baseHeight : number)
    (t : BuildingType.t) : Prop :=
  BuildingType.category t = category
  /\ BuildingType.width t == BuildingType.depth t
  /\ (BuildingType.width t == 1 \/ BuildingType.width t == 2
      \/ BuildingType.width t == 3 \/ BuildingType.width t == 4)
  /\ BuildingType.cost t == baseCost * BuildingType.width t * BuildingType.width t
  /\ BuildingType.height t == baseHeight * (1 + BuildingType.width t * 0.5).

(** The fog range of a scene is within the ranges of the three weathers. *)
Definition fog_in_range (scene : Scene.t) : Prop :=
  match Scene.fog scene with
  | Some f =>
      50 <= Scene.near f /\ Scene.near f <= 600
      /\ 900 <= Scene.far f /\ Scene.far f <= 2500
  | None => True
  end.

(** The scene after a sequence of frames, each drawn from the game state of
    its time. *)
Definition frames (states : list GameState.t) (scene : Scene.t) : Scene.t :=
  fold_left (fun sc g => Scene.animate g sc) states scene.

(** A colour whose three channels are in [0,1]. *)
Definition valid_color (c : Color.t) : Prop :=
  (0 <= Color.r c /\ Color.r c <= 1)
  /\ (0 <= Color.g c /\ Color.g c <= 1)
  /\ (0 <= Color.b c /\ Color.b c <= 1).

(** *** The overlay *)

(** The two decimal digits of a number below 100. *)
Definition two_digits (n : Z) : string :=
  String (Ascii.ascii_of_nat (48 + Z.to_nat (n / 10)))
    (String (Ascii.ascii_of_nat (48 + Z.to_nat (n mod 10))) EmptyString).





(** The road type of the catalog. *)
Definition road_type : BuildingType.t :=
  {| BuildingType.id := "road_local";
     BuildingType.name := "Road";
     BuildingType.category := ROAD;
     BuildingType.width := 1;
     BuildingType.depth := 1;
     BuildingType.height := 0.1;
     BuildingType.color := "#374151";
     BuildingType.cost := 10;
     BuildingType.description := "Basic infrastructure." |}.

(** The pointer a click reads when the preview is [pv]. *)
Definition pointer_of (pv : Preview.t) (target : option string) (freshId : string)
    : GameCanvas.pointer :=
  {| GameCanvas.ghostRef := Some (Preview.ghost pv);
     GameCanvas.target := target;
     GameCanvas.freshId := freshId |}.

(** A preview that was never tinted. *)
Definition blank_preview : Preview.t :=
  {| Preview.ghost := {| GameCanvas.visible := false;
                         GameCanvas.position_x := 0;
                         GameCanvas.position_z := 0 |};
     Preview.typeId := None;
     Preview.tint := None |}.

(** *** Rain *)

(** Every height of the particle array (the entries 1, 4, 7, ...) is
    between the ground and the top of the rain volume. *)
Definition heights_in_range (positions : list number) : Prop :=
  forall j y, (j mod 3 = 1)%nat -> nth_error positions j = Some y ->
              0 <= y /\ y <= 800.

(** *** Procedural forms *)

(** The children of the group built for a type. *)
Definition form (type : BuildingType.t) (variant : number) (isGhost : bool)
    (s : Math.source) : list THREE.Object3D :=
  fst (Procedural.createProceduralBuilding type variant isGhost s).

(** The meshes of a list of objects, those of their groups included. *)
Definition all_meshes (os : list THREE.Object3D) : list THREE.Mesh :=
  flat_map THREE.meshes os.

(** A type of one of the four zoned categories. *)
Definition zoned (t : BuildingType.t) : Prop :=
  In (BuildingType.category t) [RESIDENTIAL; COMMERCIAL; OFFICE; INDUSTRIAL].

(** A mesh that throws and takes no shadow and is seen through. *)
Definition bare (m : THREE.Mesh) : Prop :=
  THREE.castShadow m = false
  /\ THREE.receiveShadow m = false
  /\ THREE.transparent (THREE.material m) = true
  /\ THREE.opacity (THREE.material m) <= 0.6.

(** A mesh that, unless it is a wire frame, is fully opaque. *)
Definition solid (m : THREE.Mesh) : Prop :=
  THREE.wireframe (THREE.material m) = false ->
  THREE.transparent (THREE.material m) = false
  /\ THREE.opacity (THREE.material m) == 1.

(** The pile made from three draws, and the tree made from two. *)
Definition pile_of (w d : number) (isGhost : bool) (pileMat : THREE.Material)
    (r0 rx rz : number) : THREE.Object3D :=
  THREE.AMesh
    (THREE.shadows (negb isGhost) false
       (THREE.mesh_at (THREE.DodecahedronGeometry (2 + r0 * 3) 0) pileMat
          ((rx - 0.5) * (w - 4)) ((2 + r0 * 3) * 0.5) ((rz - 0.5) * (d - 4)))).

Definition tree_of (w d : number) (trunkMat leavesMat : THREE.Material)
    (rx rz : number) : THREE.Object3D :=
  THREE.Group
    {| THREE.x := (rx - 0.5) * (w - 4); THREE.y := 0.5; THREE.z := (rz - 0.5) * (d - 4) |}
    [THREE.AMesh (THREE.mesh_at (THREE.CylinderGeometry 0.5 0.5 2) trunkMat 0 1 0);
     THREE.AMesh (THREE.mesh_at (THREE.ConeGeometry 2 4 None) leavesMat 0 3.5 0)].

(** A source whose draws are in the range of [Math.random()]. *)
Definition unit_draws (s : Math.source) : Prop :=
  forall k, 0 <= Math.draws s k /\ Math.draws s k < 1.

(** A placed structure the scene can draw: its type is in the catalog and
    its variant is one of the three styles. *)
Definition drawable (b : PlacedBuilding.t) : Prop :=
  resolvable b /\ styled b.

(** Where the group of a placed structure is put. *)
Definition seat (b : PlacedBuilding.t) : THREE.Vector3 :=
  {| THREE.x := PlacedBuilding.x b; THREE.y := 2; THREE.z := PlacedBuilding.z b |}.

(** The group of placed structures after the effect. *)
Definition drawn (st : App.state) (s : Math.source) : list Procedural.rendered :=
  fst (Procedural.renderBuildings (App.buildings st) s).

(** The type of the catalog with an identifier (a type of no size when
    there is none). *)
Definition the_type (id : string) : BuildingType.t :=
  match findType id with
  | Some t => t
  | None =>
      {| BuildingType.id := ""; BuildingType.name := "";
         BuildingType.category := TOOLS;
         BuildingType.width := 0; BuildingType.depth := 0;
         BuildingType.height := 0; BuildingType.color := "";
         BuildingType.cost := 0; BuildingType.description := "" |}
  end.

(** The objects that throw a shadow. *)
Definition casts (o : THREE.Object3D) : bool :=
  match o with
  | THREE.AMesh m => THREE.castShadow m
  | THREE.Group _ _ => false
  end.

(** The shape and the place of a mesh. *)
Definition outline (o : THREE.Object3D) : option (THREE.Geometry * THREE.Vector3) :=
  match o with
  | THREE.AMesh m => Some (THREE.geometry m, THREE.position m)
  | THREE.Group _ _ => None
  end.

(** Boxes centred on the vertical axis and piled from [base] up to [top]
    without a gap: each rests on the top of the one before, is at least two
    units wide and deep and no wider or deeper than the one under it
    ([under], when there is one). *)
Fixpoint stacked (base : number) (under : option (number * number))
    (form : list THREE.Object3D) (top : number) : Prop :=
  match form with
  | [] => base == top
  | THREE.AMesh m :: rest =>
      match THREE.geometry m with
      | THREE.BoxGeometry bw bh bd =>
          THREE.x (THREE.position m) == 0
          /\ THREE.z (THREE.position m) == 0
          /\ THREE.y (THREE.position m) - bh / 2 == base
          /\ 2 <= bw /\ 2 <= bd
          /\ match under with
             | Some (pw, pd) => bw <= pw /\ bd <= pd
             | None => True
             end
          /\ stacked (base + bh) (Some (bw, bd)) rest top
      | _ => False
      end
  | THREE.Group _ _ :: _ => False
  end.

(** The types whose form is scattered by draws: landfills and parks. *)
Definition scattered (t : BuildingType.t) : bool :=
  (BuildingCategory_eqb (BuildingType.category t) UTILITY
   && Procedural.includes (BuildingType.id t) "landfill")
  || BuildingCategory_eqb (BuildingType.category t) DECORATION.

(** A box or a cone centred on the vertical axis of the group whose plan
    is inside the [w] by [d] rectangle around that axis. *)
Definition within (w d : number) (m : THREE.Mesh) : Prop :=
  THREE.x (THREE.position m) == 0
  /\ THREE.z (THREE.position m) == 0
  /\ match THREE.geometry m with
     | THREE.BoxGeometry bw _ bd => bw <= w /\ bd <= d
     | THREE.ConeGeometry r _ _ => 2 * r <= w /\ 2 * r <= d
     | _ => False
     end.

(** A pile of a landfill on a [w] by [d] rectangle: a dodecahedron of
    radius from 2 up to 5 that sits at half its radius, with its centre at
    least two units inside the rectangle. *)
Definition pile_on (w d : number) (o : THREE.Object3D) : Prop :=
  match o with
  | THREE.AMesh m =>
      match THREE.geometry m with
      | THREE.DodecahedronGeometry r _ =>
          2 <= r /\ r < 5
          /\ THREE.y (THREE.position m) == r / 2
          /\ - (w / 2 - 2) <= THREE.x (THREE.position m) <= w / 2 - 2
          /\ - (d / 2 - 2) <= THREE.z (THREE.position m) <= d / 2 - 2
      | _ => False
      end
  | THREE.Group _ _ => False
  end.

(** A tree of a park on a [w] by [d] rectangle: a group of a trunk and a
    cone of leaves of radius 2 on the axis of the group, which stands at
    least two units inside the rectangle. *)
Definition tree_on (w d : number) (o : THREE.Object3D) : Prop :=
  match o with
  | THREE.Group p [THREE.AMesh trunk; THREE.AMesh leaves] =>
      - (w / 2 - 2) <= THREE.x p <= w / 2 - 2
      /\ - (d / 2 - 2) <= THREE.z p <= d / 2 - 2
      /\ THREE.geometry trunk = THREE.CylinderGeometry 0.5 0.5 2
      /\ THREE.geometry leaves = THREE.ConeGeometry 2 4 None
      /\ THREE.x (THREE.position trunk) == 0 /\ THREE.z (THREE.position trunk) == 0
      /\ THREE.x (THREE.position leaves) == 0 /\ THREE.z (THREE.position leaves) == 0
  | _ => False
  end.

(** The wire fence of a landfill. *)
Definition fence_of (w d : number) : THREE.Mesh :=
  THREE.mesh_at (THREE.BoxGeometry w 2 d)
    {| THREE.kind := THREE.MeshStandardMaterial;
       THREE.color := THREE.Style "#444";
       THREE.roughness := Some 1;
       THREE.metalness := Some 0;
       THREE.transparent := false;
       THREE.opacity := 1;
       THREE.flatShading := false;
       THREE.emissive := Some (THREE.Hex 0x000000);
       THREE.emissiveIntensity := Some 1;
       THREE.wireframe := true |}
    0 1 0.

(** A mesh whose material glows in its own colour, when lit. *)
Definition glazed (m : THREE.Mesh) : Prop :=
  THREE.emissive (THREE.material m) = Some (THREE.color (THREE.material m)).

(** [m'] is [m] with the emissive intensity of its material set to
    [level] and nothing else changed. *)
Definition relit (level : number) (m m' : THREE.Mesh) : Prop :=
  THREE.geometry m' = THREE.geometry m
  /\ THREE.position m' = THREE.position m
  /\ THREE.rotation_y m' = THREE.rotation_y m
  /\ THREE.name m' = THREE.name m
  /\ THREE.castShadow m' = THREE.castShadow m
  /\ THREE.receiveShadow m' = THREE.receiveShadow m
  /\ THREE.color (THREE.material m') = THREE.color (THREE.material m)
  /\ THREE.emissive (THREE.material m') = THREE.emissive (THREE.material m)
  /\ THREE.opacity (THREE.material m') = THREE.opacity (THREE.material m)
  /\ THREE.transparent (THREE.material m') = THREE.transparent (THREE.material m)
  /\ THREE.emissiveIntensity (THREE.material m') = Some level.

(** The level the frame gives to the windows. *)
Definition window_level (cos : number -> number) (PI time : number)
    (weather : Weather.t) : number :=
  Lighting.nightIntensity cos PI time
  * match weather with Weather.clear => 1.5 | _ => 2.0 end.

(** What the frame does to one mesh, by its tag. *)
Definition window_rule (cos : number -> number) (PI time : number)
    (weather : Weather.t) (m : THREE.Mesh) : Prop :=
  (THREE.name m = "window_mesh"%string <-> glazed m)
  /\ (THREE.name m = "window_mesh"%string ->
      relit (window_level cos PI time weather) m
        (Lighting.lightWindow cos PI time weather m))
  /\ (THREE.name m <> "window_mesh"%string ->
      Lighting.lightWindow cos PI time weather m = m).

(** The vertical extent of a mesh: how tall its geometry is, and where its
    lowest and highest points are. *)
Definition tall (m : THREE.Mesh) : number :=
  match THREE.geometry m with
  | THREE.BoxGeometry _ bh _ => bh
  | THREE.ConeGeometry _ ch _ => ch
  | THREE.CylinderGeometry _ _ ch => ch
  | THREE.DodecahedronGeometry r _ => 2 * r
  end.

Definition bottom (m : THREE.Mesh) : number :=
  THREE.y (THREE.position m) - tall m / 2.

Definition top (m : THREE.Mesh) : number :=
  THREE.y (THREE.position m) + tall m / 2.

(** A band of windows between the plinth and the cornice of a form of
    height [h]. *)
Definition storey_band (h : number) (m : THREE.Mesh) : Prop :=
  THREE.name m = "window_mesh"%string
  /\ 2.25 <= bottom m
  /\ top m <= h - 2.25.

(** * Properties *)

(** ** Comparison operators *)

Lemma JS_lt_true a b : JS.lt a b = true <-> a < b.
Proof.
  unfold JS.lt. rewrite negb_true_iff.
  split; intro H.
  - apply Qnot_le_lt. intro Hle. apply Qle_bool_iff in Hle. congruence.
  - destruct (Qle_bool b a) eqn:E; [|reflexivity].
    apply Qle_bool_iff in E. lra.
Qed.

Lemma JS_lt_false a b : JS.lt a b = false <-> b <= a.
Proof.
  unfold JS.lt. rewrite negb_false_iff. apply Qle_bool_iff.
Qed.

Lemma JS_gt_true a b : JS.gt a b = true <-> a > b.
Proof. unfold JS.gt. apply JS_lt_true. Qed.

Lemma JS_gt_false a b : JS.gt a b = false <-> a <= b.
Proof. unfold JS.gt. apply JS_lt_false. Qed.

Lemma JS_ge_true a b : JS.ge a b = true <-> b <= a.
Proof. unfold JS.ge. apply Qle_bool_iff. Qed.

Lemma JS_ge_false a b : JS.ge a b = false <-> a < b.
Proof.
  unfold JS.ge. split; intro H.
  - apply Qnot_le_lt. intro Hle. apply Qle_bool_iff in Hle. congruence.
  - destruct (Qle_bool b a) eqn:E; [|reflexivity].
    apply Qle_bool_iff in E. lra.
Qed.

Lemma JS_le_true a b : JS.le a b = true <-> a <= b.
Proof. unfold JS.le. apply Qle_bool_iff. Qed.

(** Linear arithmetic with divisions by literals turned into products. *)
Ltac qlra := unfold Qdiv in *; cbn [Qinv Qnum Qden] in *; lra.

(** Case analysis on a comparison, leaving the order fact in the context. *)
Ltac case_lt a b :=
  let E := fresh "E" in
  destruct (JS.lt a b) eqn:E;
  [ apply JS_lt_true in E | apply JS_lt_false in E ].

Ltac case_gt a b :=
  let E := fresh "E" in
  destruct (JS.gt a b) eqn:E;
  [ apply JS_gt_true in E | apply JS_gt_false in E ].

(** ** The collision check *)

Lemma bounds_test_true x z w d :
  (JS.lt (x - (w * TILE_SIZE) / 2) (- (MAP_SIZE / 2))
   || JS.gt (x + (w * TILE_SIZE) / 2) (MAP_SIZE / 2)
   || JS.lt (z - (d * TILE_SIZE) / 2) (- (MAP_SIZE / 2))
   || JS.gt (z + (d * TILE_SIZE) / 2) (MAP_SIZE / 2)) = true
  <-> outside_grid (candidateRect x z w d).
Proof.
  unfold outside_grid, candidateRect; simpl.
  rewrite !orb_true_iff, !JS_lt_true, !JS_gt_true. tauto.
Qed.

Lemma overlap_test_true (b : PlacedBuilding.t) x z w d :
  match findType (PlacedBuilding.typeId b) with
  | None => false
  | Some bType =>
      JS.lt (PlacedBuilding.x b - (BuildingType.width bType * TILE_SIZE) / 2)
            (x + (w * TILE_SIZE) / 2)
      && JS.gt (PlacedBuilding.x b + (BuildingType.width bType * TILE_SIZE) / 2)
               (x - (w * TILE_SIZE) / 2)
      && JS.lt (PlacedBuilding.z b - (BuildingType.depth bType * TILE_SIZE) / 2)
               (z + (d * TILE_SIZE) / 2)
      && JS.gt (PlacedBuilding.z b + (BuildingType.depth bType * TILE_SIZE) / 2)
               (z - (d * TILE_SIZE) / 2)
  end = true
  <-> collides_with b (candidateRect x z w d).
Proof.
  unfold collides_with, footprint.
  destruct (findType (PlacedBuilding.typeId b)) as [bType|].
  - rewrite !andb_true_iff, !JS_lt_true, !JS_gt_true.
    unfold overlaps, candidateRect; simpl. split.
    + intros H. eexists. split; [reflexivity|]. simpl. tauto.
    + intros [r [Hr H]]. injection Hr as <-. simpl in H. tauto.
  - split; [discriminate|]. intros [r [Hr _]]. discriminate.
Qed.

(** The check, read as a proposition: out of the grid, or overlapping the
    footprint of a structure whose type resolves. *)
Lemma checkCollision_true buildings x z w d :
  checkCollision buildings x z w d = true
  <-> outside_grid (candidateRect x z w d)
      \/ exists b, In b buildings /\ collides_with b (candidateRect x z w d).
Proof.
  unfold checkCollision. cbv zeta.
  rewrite <- bounds_test_true.
  destruct (_ || _ || _ || _)%bool eqn:Hb.
  - tauto.
  - rewrite existsb_exists. split.
    + intros [b [Hin Hov]]. right. exists b. split; [assumption|].
      apply overlap_test_true. exact Hov.
    + intros [Hf | [b [Hin Hov]]]; [discriminate|].
      exists b. split; [assumption|]. apply overlap_test_true in Hov. exact Hov.
Qed.

Lemma touching_not_overlaps a c : touching a c -> ~ overlaps a c.
Proof.
  unfold touching, overlaps. intros H [H1 [H2 [H3 H4]]].
  destruct H as [H | [H | [H | H]]]; lra.
Qed.

Lemma fully_outside_outside x z w d :
  0 <= w -> 0 <= d ->
  fully_outside (candidateRect x z w d) -> outside_grid (candidateRect x z w d).
Proof.
  unfold fully_outside, outside_grid, candidateRect, TILE_SIZE.
  cbn [Rect.x1 Rect.x2 Rect.z1 Rect.z2].
  intros Hw Hd H. destruct H as [H | [H | [H | H]]].
  - left. qlra.
  - right; left. qlra.
  - right; right; left. qlra.
  - right; right; right. qlra.
Qed.

Lemma findType_res_1x1 :
  exists bType, findType "res_1x1" = Some bType
    /\ BuildingType.category bType = RESIDENTIAL
    /\ BuildingType.width bType == 1 /\ BuildingType.depth bType == 1
    /\ BuildingType.cost bType == 50.
Proof. eexists. split; [reflexivity|]. repeat split. Qed.

Lemma footprint_house id x z :
  exists r, footprint (house id x z) = Some r
    /\ Rect.x1 r == x - 5 /\ Rect.x2 r == x + 5
    /\ Rect.z1 r == z - 5 /\ Rect.z2 r == z + 5.
Proof.
  destruct findType_res_1x1 as [bType [E [_ [Hw [Hd _]]]]].
  unfold footprint, house.
  cbn [PlacedBuilding.typeId PlacedBuilding.x PlacedBuilding.z].
  rewrite E. eexists. split; [reflexivity|].
  unfold candidateRect, TILE_SIZE. cbn [Rect.x1 Rect.x2 Rect.z1 Rect.z2].
  repeat split; qlra.
Qed.

(** A 1x1 candidate inside the grid collides with a house exactly when
    the centres are less than one tile size apart on both axes. *)
Lemma house_collision id x z cx cz :
  ~ outside_grid (candidateRect cx cz 1 1) ->
  (checkCollision [house id x z] cx cz 1 1 = true
   <-> Qabs (cx - x) < TILE_SIZE /\ Qabs (cz - z) < TILE_SIZE).
Proof.
  intros Hin. rewrite checkCollision_true, !Qabs_Qlt_condition.
  destruct (footprint_house id x z) as [r [Hr [X1 [X2 [Z1 Z2]]]]].
  unfold collides_with, overlaps, candidateRect, TILE_SIZE in *.
  cbn [Rect.x1 Rect.x2 Rect.z1 Rect.z2] in *.
  split.
  - intros [Ho | [b [[<- | []] [r' [Hr' Hov]]]]]; [contradiction|].
    rewrite Hr in Hr'. injection Hr' as <-. split; split; qlra.
  - intros [[Ha Hb] [Hc Hd]]. right. exists (house id x z).
    split; [left; reflexivity|]. exists r. split; [exact Hr|].
    repeat split; qlra.
Qed.

Example adjacent_tiles_do_not_collide :
  checkCollision [house "a" 0 0] TILE_SIZE 0 1 1 = false.
Proof. reflexivity. Qed.

Example same_tile_collides :
  checkCollision [house "a" 0 0] 0 0 1 1 = true.
Proof. reflexivity. Qed.

Example half_tile_apart_collides :
  checkCollision [house "a" 0 0] 5 0 1 1 = true.
Proof. reflexivity. Qed.

Example far_outside_collides :
  checkCollision [] 2000 0 1 1 = true.
Proof. reflexivity. Qed.

(** C1. The occupancy check answers true exactly when the candidate
    rectangle (centre plus or minus the half extent scaled by the tile
    size) is not inside the grid bounds or overlaps, under the open-interval
    test on both axes, the rectangle of some placed structure, all placed
    structures having a resolvable type.  In particular a structure whose
    rectangle only touches the candidate along an edge line does not make
    the check answer true (so two 1x1 footprints one tile size apart do not
    collide), and a candidate lying fully outside the grid is reported
    occupied whatever the placed structures are. *)
Theorem checkCollision_correct :
  (forall buildings x z w d,
     Forall resolvable buildings ->
     (checkCollision buildings x z w d = true
      <-> outside_grid (candidateRect x z w d)
          \/ exists b r, In b buildings /\ footprint b = Some r
                         /\ overlaps r (candidateRect x z w d)))
  /\ (forall buildings x z w d,
        ~ outside_grid (candidateRect x z w d) ->
        (forall b r, In b buildings -> footprint b = Some r ->
                     touching r (candidateRect x z w d)) ->
        checkCollision buildings x z w d = false)
  /\ (forall id x z cx cz,
        ~ outside_grid (candidateRect cx cz 1 1) ->
        (checkCollision [house id x z] cx cz 1 1 = true
         <-> Qabs (cx - x) < TILE_SIZE /\ Qabs (cz - z) < TILE_SIZE)
        /\ (Qabs (cx - x) == TILE_SIZE \/ Qabs (cz - z) == TILE_SIZE ->
            checkCollision [house id x z] cx cz 1 1 = false))
  /\ (forall buildings x z w d,
        0 <= w -> 0 <= d ->
        fully_outside (candidateRect x z w d) ->
        checkCollision buildings x z w d = true).
Proof.
  assert (Htouch : forall buildings x z w d,
        ~ outside_grid (candidateRect x z w d) ->
        (forall b r, In b buildings -> footprint b = Some r ->
                     touching r (candidateRect x z w d)) ->
        checkCollision buildings x z w d = false).
  { intros buildings x z w d Hin Ht.
    apply not_true_is_false. rewrite checkCollision_true.
    intros [Ho | [b [Hb [r [Hr Hov]]]]]; [contradiction|].
    exact (touching_not_overlaps _ _ (Ht b r Hb Hr) Hov). }
  split; [|split; [|split]].
  - intros buildings x z w d _. rewrite checkCollision_true. split.
    + intros [Ho | [b [Hb [r [Hr Hov]]]]]; [left; assumption|].
      right. exists b, r. auto.
    + intros [Ho | [b [r [Hb [Hr Hov]]]]]; [left; assumption|].
      right. exists b. split; [assumption|]. exists r. auto.
  - exact Htouch.
  - intros id x z cx cz Hin. split; [apply house_collision; assumption|].
    intros Hd. apply not_true_is_false. intros Hc.
    apply house_collision in Hc; [|assumption].
    destruct Hc as [Hx Hz]. destruct Hd as [Hd | Hd]; lra.
  - intros buildings x z w d Hw Hd Hout.
    apply checkCollision_true. left.
    apply fully_outside_outside; assumption.
Qed.

(** The theorem above on concrete placements around one house. *)
Lemma checkCollision_correct_witness :
  checkCollision [house "a" 0 0] 5 0 1 1 = true
  /\ checkCollision [house "a" 0 0] (0 + TILE_SIZE) 0 1 1 = false
  /\ checkCollision [house "a" 0 0] 2000 0 1 1 = true.
Proof.
  split; [|split].
  - apply (proj1 checkCollision_correct).
    + constructor; [discriminate | constructor].
    + right. exists (house "a" 0 0). eexists.
      split; [left; reflexivity|]. split; [reflexivity|].
      repeat split.
  - apply (proj1 (proj2 (proj2 checkCollision_correct)) "a"%string 0 0 (0 + TILE_SIZE) 0).
    + intros [H | [H | [H | H]]]; discriminate H.
    + left. reflexivity.
  - apply (proj2 (proj2 (proj2 checkCollision_correct))).
    + discriminate.
    + discriminate.
    + right; left. reflexivity.
Defined.

(** ** Structures of unknown type *)

Lemma existsb_skip {A} (f : A -> bool) l1 a l2 :
  f a = false -> existsb f (l1 ++ a :: l2) = existsb f (l1 ++ l2).
Proof.
  intros Ha. rewrite !existsb_app. cbn [existsb]. rewrite Ha. reflexivity.
Qed.

Lemma accumulate_unknown acc b :
  findType (PlacedBuilding.typeId b) = None -> App.accumulate acc b = acc.
Proof.
  intros H. unfold App.accumulate. destruct acc as [newPop newJobs].
  rewrite H. reflexivity.
Qed.

Example ruin_does_not_block :
  findType (PlacedBuilding.typeId ruin) = None
  /\ checkCollision [ruin] 0 0 1 1 = false
  /\ checkCollision [ruin; house "a" 0 0] 0 0 1 1 = true.
Proof. repeat split. Qed.

(** A house is placed on the very tile of the ruin. *)
Example build_over_ruin :
  App.buildings
    (fst (GameCanvas.handleClick
            (App.setBuildings [ruin] (armed 50000)) centre_click))
  = [ruin;
     {| PlacedBuilding.id := "k3x9q0a1z";
        PlacedBuilding.typeId := "res_1x1";
        PlacedBuilding.x := 0;
        PlacedBuilding.z := 0;
        PlacedBuilding.rotation := 0;
        PlacedBuilding.variant := Some 0 |}].
Proof. reflexivity. Qed.

(** C10. A placed structure whose type identifier does not resolve in the
    catalog contributes no footprint to the collision check: alone it never
    blocks a candidate that is inside the grid, wherever the two are, and
    anywhere in the structure list it leaves the answer of the check
    unchanged; the totals of the statistics skip it in the same way. *)
Theorem unknown_type_is_skipped (b : PlacedBuilding.t) :
  findType (PlacedBuilding.typeId b) = None ->
  (forall x z w d,
     ~ outside_grid (candidateRect x z w d) ->
     checkCollision [b] x z w d = false)
  /\ (forall before after x z w d,
        checkCollision (before ++ b :: after) x z w d
        = checkCollision (before ++ after) x z w d)
  /\ (forall before after,
        App.totals (before ++ b :: after) = App.totals (before ++ after)).
Proof.
  intros Hb. split; [|split].
  - intros x z w d Hin. apply not_true_is_false.
    rewrite checkCollision_true.
    intros [Ho | [b' [[<- | []] [r [Hr _]]]]]; [contradiction|].
    unfold footprint in Hr. rewrite Hb in Hr. discriminate.
  - intros before after x z w d. unfold checkCollision. cbv zeta.
    destruct (_ || _ || _ || _)%bool; [reflexivity|].
    apply existsb_skip. rewrite Hb. reflexivity.
  - intros before after. unfold App.totals.
    rewrite !fold_left_app. cbn [fold_left].
    rewrite accumulate_unknown by assumption. reflexivity.
Qed.

Lemma unknown_type_is_skipped_witness :
  checkCollision [ruin] 0 0 1 1 = false.
Proof.
  apply (proj1 (unknown_type_is_skipped ruin eq_refl)).
  intros [H | [H | [H | H]]]; discriminate H.
Defined.

(** ** Committing a placement *)

Lemma findType_empty : findType "" = None.
Proof. reflexivity. Qed.

Lemma setBuildings_funds bs st :
  GameState.funds (App.gameState (App.setBuildings bs st))
  = GameState.funds (App.gameState st).
Proof.
  unfold App.setBuildings, App.setGameState, App.updateStats.
  cbn [App.gameState]. destruct (App.totals bs). reflexivity.
Qed.

Lemma handleRemoveBuilding_funds id st :
  GameState.funds (App.gameState (App.handleRemoveBuilding id st))
  = GameState.funds (App.gameState st).
Proof.
  unfold App.handleRemoveBuilding. cbv zeta.
  destruct (App.inspectedBuildingId st) as [i|];
    [destruct (String.eqb i id)|]; cbn [App.setInspectedBuildingId App.gameState];
    apply setBuildings_funds.
Qed.

(** A click never takes the funds below zero. *)
Lemma handleClick_funds_nonneg props p :
  0 <= GameState.funds (App.gameState props) ->
  0 <= GameState.funds (App.gameState (fst (GameCanvas.handleClick props p))).
Proof.
  intros H. unfold GameCanvas.handleClick.
  destruct (App.isDemolishMode props || GameCanvas.is_dezone (App.selectedBuildingId props))%bool.
  - destruct (GameCanvas.target p) as [id|]; [|exact H].
    destruct (String.eqb id ""); [exact H|].
    cbn [fst]. rewrite handleRemoveBuilding_funds. exact H.
  - destruct (GameCanvas.ghostRef p) as [gh|];
      destruct (App.selectedBuildingId props) as [selected|] eqn:Hsel;
      try exact H.
    destruct (GameCanvas.visible gh && negb (String.eqb selected ""))%bool; [|exact H].
    destruct (GameCanvas.getSelectedBuildingType props) as [bType|]; [|exact H].
    destruct (negb (checkCollision _ _ _ _ _)); [|exact H].
    destruct (JS.ge _ _) eqn:Hge; [|exact H].
    apply JS_ge_true in Hge. cbn. lra.
Qed.

(** A click with a structure type armed: the demolish mode is off and the
    selection is a catalog type other than the de-zone tool. *)
Lemma placement_click (props : App.state) (p : GameCanvas.pointer)
    (selected : string) (bType : BuildingType.t) :
  App.isDemolishMode props = false ->
  App.selectedBuildingId props = Some selected ->
  selected <> "tool_dezone"%string ->
  findType selected = Some bType ->
  let funds := GameState.funds (App.gameState props) in
  let next := fst (GameCanvas.handleClick props p) in
  (funds < BuildingType.cost bType ->
     GameState.funds (App.gameState next) = funds
     /\ App.buildings next = App.buildings props)
  /\ (BuildingType.cost bType <= funds ->
      forall gh,
        GameCanvas.ghostRef p = Some gh ->
        GameCanvas.visible gh = true ->
        checkCollision (App.buildings props)
          (GameCanvas.position_x gh) (GameCanvas.position_z gh)
          (BuildingType.width bType) (BuildingType.depth bType) = false ->
        App.buildings next = App.buildings props ++ [committed props p selected gh]
        /\ GameState.funds (App.gameState next) = funds - BuildingType.cost bType
        /\ 0 <= GameState.funds (App.gameState next)).
Proof.
  intros Hmode Hsel Hdz Hty funds next.
  assert (Hne : String.eqb selected "" = false).
  { apply String.eqb_neq. intros ->. rewrite findType_empty in Hty. discriminate. }
  apply String.eqb_neq in Hdz.
  assert (Hget : GameCanvas.getSelectedBuildingType props = Some bType).
  { unfold GameCanvas.getSelectedBuildingType. rewrite Hsel. exact Hty. }
  split.
  - intros Hlt. apply JS_ge_false in Hlt.
    subst next funds. unfold GameCanvas.handleClick.
    rewrite Hmode, Hsel. cbn [GameCanvas.is_dezone orb]. rewrite Hdz.
    destruct (GameCanvas.ghostRef p) as [gh|]; [|split; reflexivity].
    rewrite Hne. cbn [negb].
    destruct (GameCanvas.visible gh); cbn [andb]; [|split; reflexivity].
    rewrite Hget.
    destruct (negb (checkCollision _ _ _ _ _)); [|split; reflexivity].
    rewrite Hlt. split; reflexivity.
  - intros Hle gh Hgh Hvis Hfree. apply JS_ge_true in Hle.
    subst next funds. unfold GameCanvas.handleClick.
    rewrite Hmode, Hsel. cbn [GameCanvas.is_dezone orb]. rewrite Hdz, Hgh, Hvis, Hne.
    cbn [negb andb]. rewrite Hget. cbv zeta. rewrite Hfree. cbn [negb].
    rewrite Hle. cbn [fst].
    unfold App.handlePlaceBuilding. cbn [PlacedBuilding.typeId]. rewrite Hdz.
    unfold App.onUpdateGameState, App.setGameState, App.setBuildings.
    cbn [App.gameState App.buildings GameState.funds PlacedBuilding.id
         PlacedBuilding.x PlacedBuilding.z PlacedBuilding.rotation].
    split; [reflexivity|]. split; [reflexivity|].
    apply JS_ge_true in Hle. lra.
Qed.

(** A click changes neither the demolish mode nor the selection. *)
Lemma handleRemoveBuilding_modes id st :
  App.isDemolishMode (App.handleRemoveBuilding id st) = App.isDemolishMode st
  /\ App.selectedBuildingId (App.handleRemoveBuilding id st)
     = App.selectedBuildingId st.
Proof.
  unfold App.handleRemoveBuilding. cbv zeta.
  destruct (App.inspectedBuildingId st) as [i|];
    [destruct (String.eqb i id)|]; split; reflexivity.
Qed.

Lemma handlePlaceBuilding_modes b st :
  App.isDemolishMode (App.handlePlaceBuilding b st) = App.isDemolishMode st
  /\ App.selectedBuildingId (App.handlePlaceBuilding b st)
     = App.selectedBuildingId st.
Proof.
  unfold App.handlePlaceBuilding. destruct (String.eqb _ _); split; reflexivity.
Qed.

Lemma handleClick_modes props p :
  App.isDemolishMode (fst (GameCanvas.handleClick props p))
  = App.isDemolishMode props
  /\ App.selectedBuildingId (fst (GameCanvas.handleClick props p))
     = App.selectedBuildingId props.
Proof.
  unfold GameCanvas.handleClick.
  destruct (App.isDemolishMode props || GameCanvas.is_dezone (App.selectedBuildingId props))%bool.
  - destruct (GameCanvas.target p) as [id|]; [|split; reflexivity].
    destruct (String.eqb id ""); [split; reflexivity|].
    apply handleRemoveBuilding_modes.
  - destruct (GameCanvas.ghostRef p) as [gh|];
      destruct (App.selectedBuildingId props) as [selected|] eqn:Hsel;
      try (split; [reflexivity | exact Hsel]).
    destruct (GameCanvas.visible gh && negb (String.eqb selected ""))%bool;
      [|split; [reflexivity | exact Hsel]].
    destruct (GameCanvas.getSelectedBuildingType props) as [bType|];
      [|split; [reflexivity | exact Hsel]].
    destruct (negb (checkCollision _ _ _ _ _)); [|split; [reflexivity | exact Hsel]].
    destruct (JS.ge _ _); [|split; [reflexivity | exact Hsel]].
    cbn [fst]. unfold App.onUpdateGameState, App.setGameState.
    cbn [App.isDemolishMode App.selectedBuildingId].
    rewrite <- Hsel. apply handlePlaceBuilding_modes.
Qed.

Lemma tick_funds prev s :
  GameState.funds (fst (App.tick prev s)) = GameState.funds prev.
Proof.
  unfold App.tick. cbv zeta. destruct (App.newWeather prev s). reflexivity.
Qed.

Lemma reachable_session_invariant st : reachable st -> session_invariant st.
Proof.
  induction 1 as [|e st Hst [Hmode Hfunds]].
  - split; [discriminate|]. cbn. discriminate.
  - destruct e; cbn [step].
    + split; [exact Hmode|].
      unfold App.setGameState. cbn [App.gameState]. rewrite tick_funds. exact Hfunds.
    + destruct (handleClick_modes st p) as [Ed Es].
      split; [rewrite Ed, Es; exact Hmode|].
      apply handleClick_funds_nonneg. exact Hfunds.
    + split; assumption.
    + split; [discriminate | exact Hfunds].
    + unfold App.handleSelectBuildingTool. cbv zeta.
      destruct id as [v|]; [destruct (String.eqb v "") eqn:Ev|];
        (split; [|exact Hfunds]);
        cbn [App.setSelectedBuildingId App.setIsDemolishMode
             App.setInspectedBuildingId App.isDemolishMode
             App.selectedBuildingId GameCanvas.truthy].
      * intros _. rewrite Ev. reflexivity.
      * discriminate.
      * reflexivity.
    + unfold App.handleDemolishToggle. cbv zeta.
      destruct active; (split; [|exact Hfunds]).
      * reflexivity.
      * discriminate.
    + split; assumption.
Qed.

Lemma dezone_is_free bType :
  findType "tool_dezone" = Some bType -> BuildingType.cost bType == 0.
Proof. intros H. vm_compute in H. injection H as <-. reflexivity. Qed.

(** In a reachable state a click with too little money for the selected
    type changes neither the funds nor the structures. *)
Lemma reachable_poor_click props p selected bType :
  reachable props ->
  App.selectedBuildingId props = Some selected ->
  findType selected = Some bType ->
  GameState.funds (App.gameState props) < BuildingType.cost bType ->
  GameState.funds (App.gameState (fst (GameCanvas.handleClick props p)))
  = GameState.funds (App.gameState props)
  /\ App.buildings (fst (GameCanvas.handleClick props p)) = App.buildings props.
Proof.
  intros Hreach Hsel Hty Hlt.
  destruct (reachable_session_invariant props Hreach) as [Hmode Hfunds].
  destruct (String.eqb selected "tool_dezone") eqn:Edz.
  - apply String.eqb_eq in Edz. subst selected.
    apply dezone_is_free in Hty. lra.
  - apply String.eqb_neq in Edz.
    assert (Hoff : App.isDemolishMode props = false).
    { destruct (App.isDemolishMode props); [|reflexivity].
      specialize (Hmode eq_refl). rewrite Hsel in Hmode.
      cbn [GameCanvas.truthy] in Hmode. apply negb_false_iff, String.eqb_eq in Hmode.
      subst selected. rewrite findType_empty in Hty. discriminate. }
    exact (proj1 (placement_click props p selected bType Hoff Hsel Edz Hty) Hlt).
Qed.

Lemma reachable_steps es : forall st,
  reachable st -> reachable (fold_left (fun st e => step e st) es st).
Proof.
  induction es as [|e es IH]; intros st H; [exact H|].
  cbn [fold_left]. apply IH. apply reachable_step. exact H.
Qed.

(** C2. In every reachable state, a commit attempt with funds below the
    cost of the selected type changes neither the funds nor the placed
    structures (and so does, in any state, a click with a structure type
    armed: demolish mode off, selection not the de-zone tool).  With a
    structure type armed, a commit with funds at least the cost, a visible
    preview and no collision appends exactly one structure and debits the
    funds by exactly the cost.  No click takes the funds below zero, and
    the funds of a reachable state are never negative. *)
Theorem commit_respects_funds :
  (forall props p selected bType,
     reachable props ->
     App.selectedBuildingId props = Some selected ->
     findType selected = Some bType ->
     GameState.funds (App.gameState props) < BuildingType.cost bType ->
     GameState.funds (App.gameState (fst (GameCanvas.handleClick props p)))
     = GameState.funds (App.gameState props)
     /\ App.buildings (fst (GameCanvas.handleClick props p)) = App.buildings props)
  /\ (forall props p selected bType,
        App.isDemolishMode props = false ->
        App.selectedBuildingId props = Some selected ->
        selected <> "tool_dezone"%string ->
        findType selected = Some bType ->
        GameState.funds (App.gameState props) < BuildingType.cost bType ->
        GameState.funds (App.gameState (fst (GameCanvas.handleClick props p)))
        = GameState.funds (App.gameState props)
        /\ App.buildings (fst (GameCanvas.handleClick props p)) = App.buildings props)
  /\ (forall props p selected bType gh,
        App.isDemolishMode props = false ->
        App.selectedBuildingId props = Some selected ->
        selected <> "tool_dezone"%string ->
        findType selected = Some bType ->
        BuildingType.cost bType <= GameState.funds (App.gameState props) ->
        GameCanvas.ghostRef p = Some gh ->
        GameCanvas.visible gh = true ->
        checkCollision (App.buildings props)
          (GameCanvas.position_x gh) (GameCanvas.position_z gh)
          (BuildingType.width bType) (BuildingType.depth bType) = false ->
        App.buildings (fst (GameCanvas.handleClick props p))
        = App.buildings props ++ [committed props p selected gh]
        /\ GameState.funds (App.gameState (fst (GameCanvas.handleClick props p)))
           = GameState.funds (App.gameState props) - BuildingType.cost bType
        /\ 0 <= GameState.funds (App.gameState (fst (GameCanvas.handleClick props p))))
  /\ (forall props p,
        0 <= GameState.funds (App.gameState props) ->
        0 <= GameState.funds (App.gameState (fst (GameCanvas.handleClick props p))))
  /\ (forall st, reachable st -> 0 <= GameState.funds (App.gameState st)).
Proof.
  split; [exact reachable_poor_click|].
  split.
  { intros props p selected bType Hoff Hsel Hdz Hty Hlt.
    exact (proj1 (placement_click props p selected bType Hoff Hsel Hdz Hty) Hlt). }
  split.
  { intros props p selected bType gh Hoff Hsel Hdz Hty Hle Hgh Hvis Hfree.
    exact (proj2 (placement_click props p selected bType Hoff Hsel Hdz Hty)
             Hle gh Hgh Hvis Hfree). }
  split; [exact handleClick_funds_nonneg|].
  intros st H. exact (proj2 (reachable_session_invariant st H)).
Qed.

Example rich_click_places :
  let next := fst (GameCanvas.handleClick (armed 50000) centre_click) in
  List.length (App.buildings next) = 1%nat
  /\ GameState.funds (App.gameState next) == 49950
  /\ GameState.population (App.gameState next) == 15.
Proof. repeat split. Qed.

Example poor_click_is_refused :
  GameCanvas.handleClick (armed 49) centre_click
  = (armed 49, Some "Not enough Simoleons!"%string).
Proof. reflexivity. Qed.

Example spree_leaves_2000 :
  GameState.funds (App.gameState spree) == 2000
  /\ List.length (App.buildings spree) = 15%nat.
Proof. vm_compute. split; reflexivity. Qed.

(** After the spree the sixteenth office tower is refused; with 50 in the
    bank the house on the centre tile is placed. *)
Lemma commit_respects_funds_witness :
  (GameState.funds (App.gameState (fst (GameCanvas.handleClick spree (click_at 600 40))))
   = GameState.funds (App.gameState spree)
   /\ App.buildings (fst (GameCanvas.handleClick spree (click_at 600 40)))
      = App.buildings spree)
  /\ List.length (App.buildings (fst (GameCanvas.handleClick (armed 50) centre_click)))
     = 1%nat.
Proof.
  split.
  - unshelve refine (proj1 commit_respects_funds spree (click_at 600 40)
                       "off_4x4"%string _ _ eq_refl eq_refl _).
    + unfold spree. apply reachable_steps. apply reachable_step. apply reachable_initial.
    + vm_compute. reflexivity.
  - unshelve refine
      (let H := proj1 (proj2 (proj2 commit_respects_funds)) (armed 50) centre_click
                  "res_1x1"%string _ _ eq_refl eq_refl _ eq_refl _ eq_refl eq_refl eq_refl
       in _);
      first [discriminate | rewrite (proj1 H); reflexivity].
Defined.

(** ** Population and jobs *)

Lemma catalog_whole_contributions :
  forallb whole_contributions BUILDINGS = true.
Proof. vm_compute. reflexivity. Qed.

(** In binary64 too, the four sizes of the catalog give whole summands. *)
Module Binary64Facts.
Import PrimFloat.
#[local] Set Warnings "-inexact-float".
Example summands_are_whole :
  map (fun size => Binary64.summand size size 0.5) [1; 2; 3; 4]%float
  = [15; 80; 225; 480]%float
  /\ map (fun size => Binary64.summand size size 0.2) [1; 2; 3; 4]%float
     = [12; 56; 144; 288]%float.
Proof. vm_compute. split; reflexivity. Qed.
End Binary64Facts.

(** The same summands in the exact arithmetic of the model. *)
Example exact_summands_are_whole :
  Forall2 Qeq
    (map raw_residents
       (flat_map (fun id => match findType id with Some t => [t] | None => [] end)
          ["res_1x1"; "res_2x2"; "res_3x3"; "res_4x4"]%string))
    [15; 80; 225; 480]
  /\ Forall2 Qeq
       (map raw_workplaces
          (flat_map (fun id => match findType id with Some t => [t] | None => [] end)
             ["com_1x1"; "ind_2x2"; "off_3x3"; "com_4x4"]%string))
       [12; 56; 144; 288].
Proof. split; repeat constructor. Qed.

Lemma findType_In typeId t : findType typeId = Some t -> In t BUILDINGS.
Proof. unfold findType. intros H. apply find_some in H. tauto. Qed.

Lemma resolved_whole typeId t :
  findType typeId = Some t ->
  raw_residents t == inject_Z (residents t)
  /\ raw_workplaces t == inject_Z (workplaces t).
Proof.
  intros H. apply findType_In in H.
  pose proof catalog_whole_contributions as Hall.
  rewrite forallb_forall in Hall. specialize (Hall t H).
  unfold whole_contributions in Hall. apply andb_true_iff in Hall.
  destruct Hall as [H1 H2]. split; apply Qeq_bool_iff; assumption.
Qed.

Lemma accumulate_resolved newPop newJobs b t :
  findType (PlacedBuilding.typeId b) = Some t ->
  exists p j, App.accumulate (newPop, newJobs) b = (p, j)
    /\ p == newPop + raw_residents t /\ j == newJobs + raw_workplaces t.
Proof.
  intros H. unfold App.accumulate. rewrite H. cbv zeta.
  unfold raw_residents, raw_workplaces.
  destruct (BuildingType.category t); cbn [BuildingCategory_eqb orb];
    eexists; eexists; (split; [reflexivity|]); split; ring.
Qed.

(** The accumulators after the loop, up to equality of numbers. *)
Lemma fold_accumulate buildings : forall newPop newJobs,
  exists p j, fold_left App.accumulate buildings (newPop, newJobs) = (p, j)
    /\ p == newPop + inject_Z (sum_over residents buildings)
    /\ j == newJobs + inject_Z (sum_over workplaces buildings).
Proof.
  induction buildings as [|b l IH]; intros newPop newJobs.
  - exists newPop, newJobs. cbn [fold_left sum_over].
    change (inject_Z 0) with 0. split; [reflexivity|]. split; lra.
  - cbn [fold_left sum_over].
    destruct (findType (PlacedBuilding.typeId b)) as [t|] eqn:E.
    + destruct (accumulate_resolved newPop newJobs b t E) as [p1 [j1 [E1 [Hp Hj]]]].
      rewrite E1. destruct (IH p1 j1) as [p [j [E2 [Hp2 Hj2]]]].
      exists p, j. split; [exact E2|].
      destruct (resolved_whole _ _ E) as [Wr Ww].
      rewrite !inject_Z_plus. split; lra.
    + rewrite accumulate_unknown by exact E.
      destruct (IH newPop newJobs) as [p [j [E2 [Hp2 Hj2]]]].
      exists p, j. split; [exact E2|].
      rewrite !inject_Z_plus. change (inject_Z 0) with 0. split; lra.
Qed.

Lemma floor_whole q n : q == 0 + inject_Z n -> Math.floor q = inject_Z n.
Proof.
  intros H. unfold Math.floor. f_equal.
  rewrite (Qfloor_comp _ _ H).
  assert (E : 0 + inject_Z n == inject_Z n) by lra.
  rewrite (Qfloor_comp _ _ E). apply Qfloor_Z.
Qed.

Lemma updateStats_totals buildings prev :
  GameState.population (App.updateStats buildings prev)
  = inject_Z (sum_over residents buildings)
  /\ GameState.jobs (App.updateStats buildings prev)
     = inject_Z (sum_over workplaces buildings).
Proof.
  unfold App.updateStats, App.totals.
  destruct (fold_accumulate buildings 0 0) as [p [j [E [Hp Hj]]]].
  rewrite E. cbn [GameState.population GameState.jobs].
  split; apply floor_whole; assumption.
Qed.

Example one_house_totals prev :
  GameState.population (App.updateStats [house "a" 0 0] prev) = 15
  /\ GameState.jobs (App.updateStats [house "a" 0 0] prev) = 0.
Proof. split; reflexivity. Qed.

(** C3. For every list of placed structures whose types resolve in the
    catalog, the recomputed population is the sum, over the Residential
    structures, of floor(area * 10 * (1 + width * 0.5)), and the recomputed
    jobs are the sum, over the Commercial, Industrial and Office structures,
    of floor(area * 10 * (1 + width * 0.2)), with area = width * depth.  In
    the loop a Residential structure leaves the jobs as they are, a
    Commercial, Industrial or Office one leaves the population as it is, and
    a Utility, Decoration, Road or Tool structure leaves both.  One
    Residential 1x1 alone gives population 15 and jobs 0. *)
Theorem recomputed_totals :
  (forall buildings prev,
     Forall resolvable buildings ->
     GameState.population (App.updateStats buildings prev)
     = inject_Z (sum_over residents buildings)
     /\ GameState.jobs (App.updateStats buildings prev)
        = inject_Z (sum_over workplaces buildings))
  /\ (forall newPop newJobs b t,
        findType (PlacedBuilding.typeId b) = Some t ->
        match BuildingType.category t with
        | RESIDENTIAL =>
            snd (App.accumulate (newPop, newJobs) b) = newJobs
        | COMMERCIAL | INDUSTRIAL | OFFICE =>
            fst (App.accumulate (newPop, newJobs) b) = newPop
        | UTILITY | DECORATION | ROAD | TOOLS =>
            App.accumulate (newPop, newJobs) b = (newPop, newJobs)
        end)
  /\ (forall id x z prev,
        GameState.population (App.updateStats [house id x z] prev) = 15
        /\ GameState.jobs (App.updateStats [house id x z] prev) = 0).
Proof.
  split; [|split].
  - intros buildings prev _. apply updateStats_totals.
  - intros newPop newJobs b t E. unfold App.accumulate. rewrite E.
    destruct (BuildingType.category t); reflexivity.
  - intros id x z prev.
    destruct (updateStats_totals [house id x z] prev) as [Hp Hj].
    rewrite Hp, Hj. split; reflexivity.
Qed.

Lemma recomputed_totals_witness :
  GameState.population
    (App.updateStats [house "a" 0 0; house "b" 10 0] (App.gameState App.initial))
  = inject_Z (sum_over residents [house "a" 0 0; house "b" 10 0]).
Proof.
  apply (proj1 recomputed_totals).
  repeat constructor; discriminate.
Defined.

(** ** Placing, then removing *)

Lemma filter_all {A} (f : A -> bool) l :
  (forall a, In a l -> f a = true) -> filter f l = l.
Proof.
  induction l as [|a l IH]; intros H; [reflexivity|].
  cbn [filter]. rewrite (H a (or_introl eq_refl)).
  f_equal. apply IH. intros a' Ha'. apply H. right. exact Ha'.
Qed.

Lemma handleRemoveBuilding_buildings id st :
  App.buildings (App.handleRemoveBuilding id st)
  = filter (fun b => negb (String.eqb (PlacedBuilding.id b) id)) (App.buildings st).
Proof.
  unfold App.handleRemoveBuilding. cbv zeta.
  destruct (App.inspectedBuildingId st) as [i|];
    [destruct (String.eqb i id)|]; reflexivity.
Qed.

Lemma handleRemoveBuilding_gameState id st :
  App.gameState (App.handleRemoveBuilding id st)
  = App.updateStats
      (filter (fun b => negb (String.eqb (PlacedBuilding.id b) id)) (App.buildings st))
      (App.gameState st).
Proof.
  unfold App.handleRemoveBuilding. cbv zeta.
  destruct (App.inspectedBuildingId st) as [i|];
    [destruct (String.eqb i id)|]; reflexivity.
Qed.

Lemma handlePlaceBuilding_buildings b st :
  App.buildings (App.handlePlaceBuilding b st) = App.buildings st
  \/ exists b', PlacedBuilding.id b' = PlacedBuilding.id b
       /\ App.buildings (App.handlePlaceBuilding b st) = App.buildings st ++ [b'].
Proof.
  unfold App.handlePlaceBuilding.
  destruct (String.eqb (PlacedBuilding.typeId b) "tool_dezone").
  - left. reflexivity.
  - right. eexists. split; [|reflexivity]. reflexivity.
Qed.

(** Removing by a fresh identifier undoes the placement. *)
Lemma placed_then_removed_buildings b st :
  (forall s, In s (App.buildings st) -> PlacedBuilding.id s <> PlacedBuilding.id b) ->
  App.buildings (placed_then_removed b st) = App.buildings st.
Proof.
  intros Hfresh. unfold placed_then_removed.
  rewrite handleRemoveBuilding_buildings.
  assert (Hkeep : filter (fun s => negb (String.eqb (PlacedBuilding.id s) (PlacedBuilding.id b)))
                    (App.buildings st) = App.buildings st).
  { apply filter_all. intros s Hs. apply negb_true_iff, String.eqb_neq, Hfresh, Hs. }
  destruct (handlePlaceBuilding_buildings b st) as [E | [b' [Hid E]]]; rewrite E.
  - exact Hkeep.
  - rewrite filter_app, Hkeep. cbn [filter]. rewrite Hid, String.eqb_refl.
    cbn [negb]. apply app_nil_r.
Qed.

Lemma updateStats_shown bs g1 g2 :
  shown_totals (App.updateStats bs g1) = shown_totals (App.updateStats bs g2).
Proof.
  unfold shown_totals, App.updateStats. destruct (App.totals bs). reflexivity.
Qed.

Lemma placed_then_removed_gameState b st :
  exists g,
    App.gameState (placed_then_removed b st)
    = App.updateStats (App.buildings (placed_then_removed b st)) g.
Proof.
  unfold placed_then_removed.
  rewrite handleRemoveBuilding_gameState, handleRemoveBuilding_buildings.
  eexists. reflexivity.
Qed.

(** C8 as stated fails when the identifier of [b] is already carried by a
    structure of the city: removal is by identifier, and takes both. *)
Lemma namesake_not_restored : ~ totals_restored namesake one_house_city.
Proof.
  unfold totals_restored. vm_compute. discriminate.
Qed.

(** C8, amended.  The recomputed population and jobs are a function of the
    structure list alone, and for every city and every structure [b] whose
    identifier no structure of the city carries, placing [b] and removing
    it again leaves the structure list as it was and the population and
    jobs equal to those recomputed on the city's structures alone. *)
Theorem place_remove_restores_totals (b : PlacedBuilding.t) (st : App.state) :
  (forall s, In s (App.buildings st) -> PlacedBuilding.id s <> PlacedBuilding.id b) ->
  (forall bs g1 g2,
     shown_totals (App.updateStats bs g1) = shown_totals (App.updateStats bs g2))
  /\ App.buildings (placed_then_removed b st) = App.buildings st
  /\ totals_restored b st.
Proof.
  intros Hfresh. split; [exact updateStats_shown|].
  split; [apply placed_then_removed_buildings; exact Hfresh|].
  unfold totals_restored.
  destruct (placed_then_removed_gameState b st) as [g Hg].
  rewrite Hg, (placed_then_removed_buildings b st Hfresh).
  apply updateStats_shown.
Qed.

Lemma place_remove_restores_totals_witness :
  totals_restored (house "b" 10 0) one_house_city.
Proof.
  apply (place_remove_restores_totals (house "b" 10 0) one_house_city).
  intros s [<- | []]. discriminate.
Defined.

(** ** Demand smoothing *)


Lemma Qabs_095 x : Qabs (0.95 * x) == 0.95 * Qabs x.
Proof.
  rewrite Qabs_Qmult. rewrite (Qabs_pos 0.95) by lra. reflexivity.
Qed.


Lemma tick_rci prev s :
  GameState.rci (fst (App.tick prev s))
  = {| RCI.res := App.lerp (RCI.res (GameState.rci prev)) (App.targetRes prev);
       RCI.com := App.lerp (RCI.com (GameState.rci prev)) (App.targetCom prev);
       RCI.ind := App.lerp (RCI.ind (GameState.rci prev)) (App.targetInd prev) |}.
Proof.
  unfold App.tick. cbv zeta. destruct (App.newWeather prev s). reflexivity.
Qed.

Example one_step_from_100_to_50 : App.lerp 100 50 == 97.5.
Proof. reflexivity. Qed.



(** ** Demand stays a percentage *)

Lemma clamp_percentage v : percentage (Math.min 100 (Math.max 0 v)).
Proof.
  unfold percentage, Math.min, Math.max.
  case_lt 0 v.
  - case_lt v 100; lra.
  - case_lt 0 100; lra.
Qed.

Lemma targets_percentage prev :
  percentage (App.targetRes prev)
  /\ percentage (App.targetCom prev)
  /\ percentage (App.targetInd prev).
Proof.
  unfold App.targetRes, App.targetCom, App.targetInd.
  repeat split; try apply clamp_percentage;
    destruct (JS.gt _ _); try apply clamp_percentage; lra.
Qed.

Lemma lerp_percentage c t :
  percentage c -> percentage t -> percentage (App.lerp c t).
Proof. unfold percentage, App.lerp. intros Hc Ht. split; lra. Qed.

Lemma tick_rci_in_range prev s :
  rci_in_range (GameState.rci prev) ->
  rci_in_range (GameState.rci (fst (App.tick prev s))).
Proof.
  intros [Hr [Hc Hi]]. rewrite tick_rci.
  destruct (targets_percentage prev) as [Tr [Tc Ti]].
  unfold rci_in_range. cbn [RCI.res RCI.com RCI.ind].
  repeat split; apply lerp_percentage; assumption.
Qed.

Lemma setBuildings_rci bs st :
  GameState.rci (App.gameState (App.setBuildings bs st))
  = GameState.rci (App.gameState st).
Proof.
  unfold App.setBuildings, App.setGameState, App.updateStats.
  cbn [App.gameState]. destruct (App.totals bs). reflexivity.
Qed.

Lemma handleRemoveBuilding_rci id st :
  GameState.rci (App.gameState (App.handleRemoveBuilding id st))
  = GameState.rci (App.gameState st).
Proof.
  rewrite handleRemoveBuilding_gameState.
  unfold App.updateStats. destruct (App.totals _). reflexivity.
Qed.

Lemma handlePlaceBuilding_rci b st :
  GameState.rci (App.gameState (App.handlePlaceBuilding b st))
  = GameState.rci (App.gameState st).
Proof.
  unfold App.handlePlaceBuilding.
  destruct (String.eqb _ _); [reflexivity | apply setBuildings_rci].
Qed.

Lemma handleClick_rci props p :
  GameState.rci (App.gameState (fst (GameCanvas.handleClick props p)))
  = GameState.rci (App.gameState props).
Proof.
  unfold GameCanvas.handleClick.
  destruct (App.isDemolishMode props || GameCanvas.is_dezone (App.selectedBuildingId props))%bool.
  - destruct (GameCanvas.target p) as [id|]; [|reflexivity].
    destruct (String.eqb id ""); [reflexivity|].
    apply handleRemoveBuilding_rci.
  - destruct (GameCanvas.ghostRef p) as [gh|];
      destruct (App.selectedBuildingId props) as [selected|];
      try reflexivity.
    destruct (GameCanvas.visible gh && negb (String.eqb selected ""))%bool; [|reflexivity].
    destruct (GameCanvas.getSelectedBuildingType props) as [bType|]; [|reflexivity].
    destruct (negb (checkCollision _ _ _ _ _)); [|reflexivity].
    destruct (JS.ge _ _); [|reflexivity].
    cbn [fst]. unfold App.onUpdateGameState, App.setGameState.
    cbn [App.gameState GameState.rci]. apply handlePlaceBuilding_rci.
Qed.

(** Only the timer touches the demand. *)
Lemma step_rci e st :
  match e with
  | Tick s =>
      GameState.rci (App.gameState (step e st))
      = GameState.rci (fst (App.tick (App.gameState st) s))
  | _ =>
      GameState.rci (App.gameState (step e st))
      = GameState.rci (App.gameState st)
  end.
Proof.
  destruct e; cbn [step]; try reflexivity.
  - apply handleClick_rci.
  - unfold App.handleSelectBuildingTool. cbv zeta.
    destruct id as [v|]; [destruct (String.eqb v "")|]; reflexivity.
  - unfold App.handleDemolishToggle. cbv zeta. destruct active; reflexivity.
Qed.

Lemma reachable_rci_in_range st :
  reachable st -> rci_in_range (GameState.rci (App.gameState st)).
Proof.
  induction 1 as [|e st Hst IH].
  - unfold rci_in_range, percentage. cbn. repeat split; lra.
  - pose proof (step_rci e st) as Hstep.
    destruct e; try (rewrite Hstep; exact IH).
    rewrite Hstep. apply tick_rci_in_range. exact IH.
Qed.

(** C6. In every reachable state of the application each of the three
    demand components lies in [0,100], and every tick preserves this: the
    three targets lie in [0,100], and smoothing a value of [0,100] toward a
    target of [0,100] stays in [0,100]. *)
Theorem rci_always_percentages :
  (forall st, reachable st -> rci_in_range (GameState.rci (App.gameState st)))
  /\ (forall prev,
        percentage (App.targetRes prev)
        /\ percentage (App.targetCom prev)
        /\ percentage (App.targetInd prev))
  /\ (forall c t, percentage c -> percentage t -> percentage (App.lerp c t))
  /\ (forall prev s,
        rci_in_range (GameState.rci prev) ->
        rci_in_range (GameState.rci (fst (App.tick prev s)))).
Proof.
  split; [exact reachable_rci_in_range|].
  split; [exact targets_percentage|].
  split; [exact lerp_percentage | exact tick_rci_in_range].
Qed.

Lemma rci_always_percentages_witness :
  rci_in_range (GameState.rci (App.gameState short_session)).
Proof.
  apply (proj1 rci_always_percentages).
  unfold short_session. repeat apply reachable_step. apply reachable_initial.
Defined.

(** ** The clock *)

Lemma Qnum_nonneg q : 0 <= q -> (0 <= Qnum q)%Z.
Proof. unfold Qle. cbn. lia. Qed.

Lemma trunc_floor q : 0 <= q -> JS.trunc q = Qfloor q.
Proof.
  intros H. apply Qnum_nonneg in H. unfold JS.trunc. destruct q as [n d].
  cbn [Qnum Qden Qfloor] in *. apply Z.quot_div_nonneg; lia.
Qed.

Lemma floor_unique q n : inject_Z n <= q -> q < inject_Z n + 1 -> Qfloor q = n.
Proof.
  intros Hlo Hhi.
  pose proof (Qfloor_le q) as H1. pose proof (Qlt_floor q) as H2.
  assert (Ha : inject_Z (Qfloor q) < inject_Z (n + 1)).
  { rewrite inject_Z_plus. change (inject_Z 1) with 1. lra. }
  assert (Hb : inject_Z n < inject_Z (Qfloor q + 1)).
  { rewrite inject_Z_plus in H2 |- *. change (inject_Z 1) with 1 in *. lra. }
  rewrite <- Zlt_Qlt in Ha, Hb. lia.
Qed.

Lemma rem_24_below a : 0 <= a -> a < 24 -> JS.rem a 24 == a.
Proof.
  intros H0 H1. unfold JS.rem.
  assert (E : JS.trunc (a / 24) = 0%Z).
  { rewrite trunc_floor by qlra. apply floor_unique; change (inject_Z 0) with 0; qlra. }
  rewrite E. change (inject_Z 0) with 0. lra.
Qed.

Lemma rem_24_wrap a : 24 <= a -> a < 48 -> JS.rem a 24 == a - 24.
Proof.
  intros H0 H1. unfold JS.rem.
  assert (E : JS.trunc (a / 24) = 1%Z).
  { rewrite trunc_floor by qlra. apply floor_unique; change (inject_Z 1) with 1; qlra. }
  rewrite E. change (inject_Z 1) with 1. lra.
Qed.

Lemma tick_time prev s :
  GameState.time (fst (App.tick prev s)) = App.newTime prev.
Proof.
  unfold App.tick. cbv zeta. destruct (App.newWeather prev s). reflexivity.
Qed.

Lemma newTime_cases prev :
  clock (GameState.time prev) ->
  (GameState.time prev + 0.008 < 24
   /\ App.newTime prev == GameState.time prev + 0.008)
  \/ (24 <= GameState.time prev + 0.008
      /\ App.newTime prev == GameState.time prev + 0.008 - 24).
Proof.
  intros [H0 H1]. unfold App.newTime.
  destruct (Qlt_le_dec (GameState.time prev + 0.008) 24) as [Hlt | Hge].
  - left. split; [exact Hlt|]. apply rem_24_below; lra.
  - right. split; [exact Hge|]. apply rem_24_wrap; lra.
Qed.

Lemma newTime_clock prev :
  clock (GameState.time prev) -> clock (App.newTime prev).
Proof.
  intros H. destruct (newTime_cases prev H) as [[Hc E] | [Hc E]];
    destruct H as [H0 H1]; unfold clock; rewrite E; split; lra.
Qed.

(** After [n] ticks the clock has advanced by [n * 0.008], less a whole
    number of days. *)
Lemma ticks_time n : forall prev s,
  clock (GameState.time prev) ->
  clock (GameState.time (fst (ticks n prev s)))
  /\ exists k : Z,
       GameState.time (fst (ticks n prev s))
       == GameState.time prev + inject_Z (Z.of_nat n) * 0.008 - 24 * inject_Z k.
Proof.
  induction n as [|n IH]; intros prev s Hc.
  - cbn [ticks fst]. split; [exact Hc|]. exists 0%Z.
    change (inject_Z (Z.of_nat 0)) with 0. change (inject_Z 0) with 0. lra.
  - cbn [ticks]. destruct (App.tick prev s) as [next s'] eqn:E.
    assert (Hn : GameState.time next = App.newTime prev).
    { rewrite <- (tick_time prev s), E. reflexivity. }
    assert (Hc' : clock (GameState.time next)).
    { rewrite Hn. apply newTime_clock. exact Hc. }
    destruct (IH next s' Hc') as [Hclock [k Hk]].
    split; [exact Hclock|].
    rewrite Nat2Z.inj_succ. unfold Z.succ. rewrite inject_Z_plus.
    change (inject_Z 1) with 1.
    rewrite Hn in Hk.
    destruct (newTime_cases prev Hc) as [[_ Et] | [_ Et]].
    + exists k. rewrite Hk, Et. lra.
    + exists (k + 1)%Z. rewrite Hk, Et, inject_Z_plus.
      change (inject_Z 1) with 1. lra.
Qed.

Lemma same_clock_mod_24 a b (k : Z) :
  clock a -> clock b -> b == a + 24 - 24 * inject_Z k -> b == a.
Proof.
  intros [A0 A1] [B0 B1] E.
  assert (Hk : (k = 1)%Z).
  { assert (H1 : inject_Z 0 < inject_Z k).
    { change (inject_Z 0) with 0. lra. }
    assert (H2 : inject_Z k < inject_Z 2).
    { change (inject_Z 2) with 2. lra. }
    rewrite <- Zlt_Qlt in H1, H2. lia. }
  subst k. change (inject_Z 1) with 1 in E. lra.
Qed.

Example tick_at_23_995 : App.newTime (at_time 23.995) == 0.003.
Proof. reflexivity. Qed.

(** C7. For every clock value in [0,24), one tick advances it by exactly
    0.008 and wraps modulo 24: the new value is the old one plus 0.008 when
    that is below 24 and that sum less 24 otherwise, and it is again in
    [0,24).  A tick at clock 23.995 yields 0.003, and 3000 ticks, whose
    increments sum to exactly 24, bring the clock back to its value. *)
Theorem clock_wraps (prev : GameState.t) (s : Math.source) :
  clock (GameState.time prev) ->
  let t := GameState.time prev in
  let t' := GameState.time (fst (App.tick prev s)) in
  clock t'
  /\ (t + 0.008 < 24 -> t' == t + 0.008)
  /\ (24 <= t + 0.008 -> t' == t + 0.008 - 24)
  /\ GameState.time (fst (App.tick (at_time 23.995) s)) == 0.003
  /\ inject_Z (Z.of_nat 3000) * 0.008 == 24
  /\ GameState.time (fst (ticks 3000 prev s)) == t.
Proof.
  intros Hc t t'. subst t t'. rewrite !tick_time.
  split; [apply newTime_clock; exact Hc|].
  destruct (newTime_cases prev Hc) as [[Hlt E] | [Hge E]].
  - split; [intros _; exact E|]. split; [intros H; lra|].
    split; [reflexivity|]. split; [reflexivity|].
    destruct (ticks_time 3000 prev s Hc) as [Hclock [k Hk]].
    apply (same_clock_mod_24 _ _ k Hc Hclock).
    rewrite Hk. assert (E3 : inject_Z (Z.of_nat 3000) * 0.008 == 24) by reflexivity.
    rewrite E3. reflexivity.
  - split; [intros H; lra|]. split; [intros _; exact E|].
    split; [reflexivity|]. split; [reflexivity|].
    destruct (ticks_time 3000 prev s Hc) as [Hclock [k Hk]].
    apply (same_clock_mod_24 _ _ k Hc Hclock).
    rewrite Hk. assert (E3 : inject_Z (Z.of_nat 3000) * 0.008 == 24) by reflexivity.
    rewrite E3. reflexivity.
Qed.

Lemma clock_wraps_witness :
  GameState.time (fst (ticks 3000 (at_time 8) (constant_source 0.5))) == 8.
Proof.
  refine (proj2 (proj2 (proj2 (proj2 (proj2
    (clock_wraps (at_time 8) (constant_source 0.5) _)))))).
  split; [discriminate | reflexivity].
Defined.

(** ** Weather *)

Lemma tick_weather prev s :
  GameState.weather (fst (App.tick prev s))
  = if JS.lt (Math.draws s (Math.cursor s)) 0.00033
    then App.resample (Math.draws s (S (Math.cursor s)))
    else GameState.weather prev.
Proof.
  unfold App.tick, App.newWeather, Math.random. cbv zeta.
  cbn [Math.draws Math.cursor].
  destruct (JS.lt (Math.draws s (Math.cursor s)) 0.00033); reflexivity.
Qed.

Lemma resample_cases roll :
  (roll < 0.5 -> App.resample roll = Weather.clear)
  /\ (0.5 <= roll -> roll < 0.8 -> App.resample roll = Weather.rain)
  /\ (0.8 <= roll -> App.resample roll = Weather.fog).
Proof.
  unfold App.resample.
  case_lt roll 0.5; case_lt roll 0.8; repeat split; intros; try reflexivity; lra.
Qed.

(** C4 as stated fails at the draw 0.5 (and at 0.8): the tick that
    resamples with the draw 0.5 turns the weather to rain, where the claimed
    rule gives clear. *)
Lemma draw_one_half_is_not_clear :
  claimed_weather 0.5 = Weather.clear
  /\ GameState.weather (fst (App.tick (at_time 8) (resampling_source 0.5)))
     = Weather.rain
  /\ App.resample 0.5 <> claimed_weather 0.5
  /\ App.resample 0.8 <> claimed_weather 0.8.
Proof.
  split; [reflexivity|]. split; [reflexivity|]. split; discriminate.
Qed.

(** C4, amended.  On a tick that resamples the weather with the draw
    [roll], the new weather is clear when [roll < 0.5], rain when
    [0.5 <= roll < 0.8] and fog when [0.8 <= roll]; a draw of exactly 0.5
    yields rain.  The weather is resampled when the first draw of the tick
    is below 0.00033, [roll] being the next draw; on every other tick the
    weather is unchanged. *)
Theorem weather_resample_rule :
  (forall roll,
     (roll < 0.5 -> App.resample roll = Weather.clear)
     /\ (0.5 <= roll -> roll < 0.8 -> App.resample roll = Weather.rain)
     /\ (0.8 <= roll -> App.resample roll = Weather.fog))
  /\ App.resample 0.5 = Weather.rain
  /\ (forall prev s,
        let gate := Math.draws s (Math.cursor s) in
        let roll := Math.draws s (S (Math.cursor s)) in
        (gate < 0.00033 ->
           GameState.weather (fst (App.tick prev s)) = App.resample roll)
        /\ (0.00033 <= gate ->
              GameState.weather (fst (App.tick prev s)) = GameState.weather prev)).
Proof.
  split; [exact resample_cases|]. split; [reflexivity|].
  intros prev s gate roll. subst gate roll. rewrite tick_weather.
  split; intros H.
  - apply JS_lt_true in H. rewrite H. reflexivity.
  - apply JS_lt_false in H. rewrite H. reflexivity.
Qed.

Lemma weather_resample_rule_witness :
  GameState.weather (fst (App.tick (at_time 8) (resampling_source 0.7)))
  = Weather.rain
  /\ GameState.weather (fst (App.tick (at_time 8) (constant_source 0.9)))
     = Weather.clear.
Proof.
  split.
  - rewrite (proj1 (proj2 (proj2 weather_resample_rule) (at_time 8) (resampling_source 0.7)))
      by reflexivity.
    apply (proj1 (proj2 (proj1 weather_resample_rule 0.7))); [discriminate | reflexivity].
  - apply (proj2 (proj2 (proj2 weather_resample_rule) (at_time 8) (constant_source 0.9))).
    discriminate.
Defined.

(** ** Sky and fog *)

Lemma same_refl c : Color.same c c.
Proof. unfold Color.same. repeat split; reflexivity. Qed.

Example dusk_then_night :
  Color.same (Scene.background dusk_scene) (Color.setHex 0xffaa77)
  /\ Color.same (Scene.background (Scene.animate (at_time 19.008) dusk_scene))
       (Color.setHex 0x0a0a15).
Proof. split; repeat split. Qed.

(** C9 as stated fails on the first frame of the night: the sky shown at
    19:00 is the dusk colour, the target at 19:00.008 is the night colour,
    and the frame shows the night colour at once. *)
Lemma night_falls_at_once : ~ sky_is_smoothed (at_time 19.008) dusk_scene.
Proof.
  unfold sky_is_smoothed. cbv zeta. intros H.
  assert (Hdiff : ~ Color.same (Scene.background dusk_scene)
                    (Scene.targetSky (GameState.time (at_time 19.008))
                       (GameState.weather (at_time 19.008)))).
  { intros [Hr _]. vm_compute in Hr. discriminate. }
  destruct (H Hdiff) as [_ [_ [_ Hnot]]].
  apply Hnot. apply same_refl.
Qed.

Lemma fog_distance n w : n + (w - n) * 0.05 - w == 0.95 * (n - w).
Proof. lra. Qed.

(** C9, amended.  On every render frame the displayed sky colour and the
    fog colour are set to the instantaneous target itself, whatever was
    displayed before; what a frame smooths exponentially is the fog range:
    its near and far distances each move 5% of the way to the distance of
    the current weather. *)
Theorem sky_is_assigned (curState : GameState.t) (scene : Scene.t) :
  let target :=
    Scene.targetSky (GameState.time curState) (GameState.weather curState) in
  let weather := GameState.weather curState in
  let scene' := Scene.animate curState scene in
  Scene.background scene' = target
  /\ match Scene.fog scene, Scene.fog scene' with
     | Some f, Some f' =>
         Scene.color f' = target
         /\ Scene.near f' == Scene.near f + (Scene.wNear weather - Scene.near f) * 0.05
         /\ Scene.far f' == Scene.far f + (Scene.wFar weather - Scene.far f) * 0.05
         /\ Qabs (Scene.near f' - Scene.wNear weather)
            == 0.95 * Qabs (Scene.near f - Scene.wNear weather)
         /\ Qabs (Scene.far f' - Scene.wFar weather)
            == 0.95 * Qabs (Scene.far f - Scene.wFar weather)
     | None, None => True
     | _, _ => False
     end.
Proof.
  cbv zeta. unfold Scene.animate. cbv zeta. cbn [Scene.background Scene.fog].
  split; [reflexivity|].
  destruct (Scene.fog scene) as [f|]; [|exact I].
  cbn [Scene.color Scene.near Scene.far].
  split; [reflexivity|]. split; [reflexivity|]. split; [reflexivity|].
  split; rewrite fog_distance; apply Qabs_095.
Qed.

(** * Further properties *)

(** ** What a click does to the placed structures *)

Lemma handleClick_buildings props p :
  App.buildings (fst (GameCanvas.handleClick props p)) = App.buildings props
  \/ (exists id,
        App.buildings (fst (GameCanvas.handleClick props p))
        = filter (fun b => negb (String.eqb (PlacedBuilding.id b) id))
            (App.buildings props))
  \/ (exists selected bType gh,
        App.selectedBuildingId props = Some selected
        /\ findType selected = Some bType
        /\ GameCanvas.ghostRef p = Some gh
        /\ checkCollision (App.buildings props)
             (GameCanvas.position_x gh) (GameCanvas.position_z gh)
             (BuildingType.width bType) (BuildingType.depth bType) = false
        /\ BuildingType.cost bType <= GameState.funds (App.gameState props)
        /\ GameState.funds (App.gameState (fst (GameCanvas.handleClick props p)))
           = GameState.funds (App.gameState props) - BuildingType.cost bType
        /\ App.buildings (fst (GameCanvas.handleClick props p))
           = App.buildings props ++ [committed props p selected gh]).
Proof.
  unfold GameCanvas.handleClick.
  destruct (App.isDemolishMode props); cbn [orb].
  { destruct (GameCanvas.target p) as [id|]; [|left; reflexivity].
    destruct (String.eqb id ""); [left; reflexivity|].
    right; left. exists id. apply handleRemoveBuilding_buildings. }
  destruct (GameCanvas.is_dezone (App.selectedBuildingId props)) eqn:Hdz.
  { destruct (GameCanvas.target p) as [id|]; [|left; reflexivity].
    destruct (String.eqb id ""); [left; reflexivity|].
    right; left. exists id. apply handleRemoveBuilding_buildings. }
  destruct (GameCanvas.ghostRef p) as [gh|];
    destruct (App.selectedBuildingId props) as [selected|] eqn:Hsel;
    try (left; reflexivity).
  destruct (GameCanvas.visible gh && negb (String.eqb selected ""))%bool;
    [|left; reflexivity].
  unfold GameCanvas.getSelectedBuildingType. rewrite Hsel.
  destruct (findType selected) as [bType|] eqn:Hty; [|left; reflexivity].
  cbv zeta.
  destruct (checkCollision _ _ _ _ _) eqn:Hfree; cbn [negb]; [left; reflexivity|].
  destruct (JS.ge _ _) eqn:Hge; [|left; reflexivity].
  right; right. exists selected, bType, gh.
  apply JS_ge_true in Hge.
  repeat (split; [first [reflexivity | assumption]|]).
  cbn [fst GameCanvas.is_dezone] in *.
  unfold App.handlePlaceBuilding. cbn [PlacedBuilding.typeId]. rewrite Hdz.
  split; reflexivity.
Qed.

Lemma step_buildings e st :
  App.buildings (step e st) = App.buildings st
  \/ (exists id,
        App.buildings (step e st)
        = filter (fun b => negb (String.eqb (PlacedBuilding.id b) id))
            (App.buildings st))
  \/ (exists p selected bType gh,
        e = Click p
        /\ App.selectedBuildingId st = Some selected
        /\ findType selected = Some bType
        /\ GameCanvas.ghostRef p = Some gh
        /\ checkCollision (App.buildings st)
             (GameCanvas.position_x gh) (GameCanvas.position_z gh)
             (BuildingType.width bType) (BuildingType.depth bType) = false
        /\ App.buildings (step e st)
           = App.buildings st ++ [committed st p selected gh]).
Proof.
  destruct e; cbn [step]; try (left; reflexivity).
  - destruct (handleClick_buildings st p)
      as [H | [[id H] | [sel [bT [gh [H1 [H2 [H3 [H4 [_ [_ H7]]]]]]]]]]].
    + left. exact H.
    + right; left. exists id. exact H.
    + right; right. exists p, sel, bT, gh. repeat split; assumption.
  - left. unfold App.handleSelectBuildingTool. cbv zeta.
    destruct id as [v|]; [destruct (String.eqb v "")|]; reflexivity.
  - left. unfold App.handleDemolishToggle. cbv zeta. destruct active; reflexivity.
Qed.

(** ** Placed structures stay in the grid and apart *)

Lemma FOP_snoc {A} (R : A -> A -> Prop) l b :
  ForallOrdPairs R l -> Forall (fun a => R a b) l -> ForallOrdPairs R (l ++ [b]).
Proof.
  induction 1 as [|a l Ha Hl IH]; intros Hb; cbn [app].
  - constructor; constructor.
  - inversion Hb as [|? ? Hab Hlb]; subst. constructor.
    + apply Forall_app. split; [exact Ha | constructor; [exact Hab | constructor]].
    + apply IH. exact Hlb.
Qed.

Lemma Forall_filter {A} (P : A -> Prop) f l :
  Forall P l -> Forall P (filter f l).
Proof.
  intros H. rewrite Forall_forall in *. intros a Ha.
  apply filter_In in Ha. apply H. tauto.
Qed.

Lemma FOP_filter {A} (R : A -> A -> Prop) f l :
  ForallOrdPairs R l -> ForallOrdPairs R (filter f l).
Proof.
  induction 1 as [|a l Ha Hl IH]; cbn [filter]; [constructor|].
  destruct (f a); [|exact IH].
  constructor; [apply Forall_filter; exact Ha | exact IH].
Qed.

Lemma footprint_committed props p selected gh bType :
  findType selected = Some bType ->
  footprint (committed props p selected gh)
  = Some (candidateRect (GameCanvas.position_x gh) (GameCanvas.position_z gh)
            (BuildingType.width bType) (BuildingType.depth bType)).
Proof.
  intros H. unfold footprint, committed.
  cbn [PlacedBuilding.typeId PlacedBuilding.x PlacedBuilding.z].
  rewrite H. reflexivity.
Qed.

Lemma free_site buildings x z w d :
  checkCollision buildings x z w d = false ->
  ~ outside_grid (candidateRect x z w d)
  /\ Forall (fun a => forall ra, footprint a = Some ra ->
                      ~ overlaps ra (candidateRect x z w d)) buildings.
Proof.
  intros H. apply not_true_iff_false in H. rewrite checkCollision_true in H.
  split; [tauto|]. apply Forall_forall. intros a Ha ra Hra Hov.
  apply H. right. exists a. split; [exact Ha|]. exists ra. tauto.
Qed.

(** X1. In every reachable state each placed structure has a type of the
    catalog and a rectangle inside the grid, and no two placed structures
    have overlapping rectangles. *)
Theorem placed_structures_stay_apart (st : App.state) :
  reachable st ->
  Forall placed_in_grid (App.buildings st)
  /\ ForallOrdPairs apart (App.buildings st).
Proof.
  induction 1 as [|e st Hst [Hin Hap]].
  - split; constructor.
  - destruct (step_buildings e st)
      as [E | [[id E] | [p [sel [bT [gh [_ [_ [Hty [_ [Hfree E]]]]]]]]]]]; rewrite E.
    + split; assumption.
    + split; [apply Forall_filter | apply FOP_filter]; assumption.
    + apply free_site in Hfree. destruct Hfree as [Hgrid Hfree].
      pose proof (footprint_committed st p sel gh bT Hty) as Hfp.
      split.
      * apply Forall_app. split; [exact Hin|]. constructor; [|constructor].
        eexists. split; [exact Hfp | exact Hgrid].
      * apply FOP_snoc; [exact Hap|].
        eapply Forall_impl; [|exact Hfree].
        intros a Ha ra rb Hra Hrb. rewrite Hfp in Hrb. injection Hrb as <-.
        apply Ha. exact Hra.
Qed.

Lemma placed_structures_stay_apart_witness :
  ForallOrdPairs apart (App.buildings spree).
Proof.
  apply (placed_structures_stay_apart spree).
  unfold spree. apply reachable_steps. apply reachable_step. apply reachable_initial.
Defined.

(** ** Money only goes down *)

Lemma catalog_costs_nonneg typeId t :
  findType typeId = Some t -> 0 <= BuildingType.cost t.
Proof.
  intros H. apply findType_In in H.
  assert (Hall : forallb (fun t => Qle_bool 0 (BuildingType.cost t)) BUILDINGS = true)
    by (vm_compute; reflexivity).
  rewrite forallb_forall in Hall. apply Qle_bool_iff. apply Hall. exact H.
Qed.

Lemma handleClick_funds_le props p :
  GameState.funds (App.gameState (fst (GameCanvas.handleClick props p)))
  <= GameState.funds (App.gameState props).
Proof.
  unfold GameCanvas.handleClick.
  destruct (App.isDemolishMode props || GameCanvas.is_dezone (App.selectedBuildingId props))%bool.
  - destruct (GameCanvas.target p) as [id|]; [|apply Qle_refl].
    destruct (String.eqb id ""); [apply Qle_refl|].
    cbn [fst]. rewrite handleRemoveBuilding_funds. apply Qle_refl.
  - destruct (GameCanvas.ghostRef p) as [gh|];
      destruct (App.selectedBuildingId props) as [selected|] eqn:Hsel;
      try apply Qle_refl.
    destruct (GameCanvas.visible gh && negb (String.eqb selected ""))%bool;
      [|apply Qle_refl].
    unfold GameCanvas.getSelectedBuildingType. rewrite Hsel.
    destruct (findType selected) as [bType|] eqn:Hty; [|apply Qle_refl].
    destruct (negb (checkCollision _ _ _ _ _)); [|apply Qle_refl].
    destruct (JS.ge _ _); [|apply Qle_refl].
    apply catalog_costs_nonneg in Hty. cbn. lra.
Qed.

Lemma step_gameState_ui e st :
  match e with
  | Tick _ | Click _ => True
  | _ => App.gameState (step e st) = App.gameState st
  end.
Proof.
  destruct e; cbn [step]; try exact I; try reflexivity.
  - unfold App.handleSelectBuildingTool. cbv zeta.
    destruct id as [v|]; [destruct (String.eqb v "")|]; reflexivity.
  - unfold App.handleDemolishToggle. cbv zeta. destruct active; reflexivity.
Qed.

Lemma step_funds_le e st :
  GameState.funds (App.gameState (step e st))
  <= GameState.funds (App.gameState st).
Proof.
  pose proof (step_gameState_ui e st) as H.
  destruct e; try (rewrite H; apply Qle_refl).
  - cbn [step]. unfold App.setGameState. cbn [App.gameState].
    rewrite tick_funds. apply Qle_refl.
  - apply handleClick_funds_le.
Qed.

(** X2. No event ever raises the funds: a tick and a demolition leave them
    as they are (nothing is refunded), a placement lowers them by a cost
    that is never negative; so the funds of a reachable state never exceed
    the initial 50000. *)
Theorem funds_never_increase :
  (forall e st,
     GameState.funds (App.gameState (step e st))
     <= GameState.funds (App.gameState st))
  /\ (forall id st,
        GameState.funds (App.gameState (App.handleRemoveBuilding id st))
        = GameState.funds (App.gameState st))
  /\ (forall prev s, GameState.funds (fst (App.tick prev s)) = GameState.funds prev)
  /\ (forall st, reachable st ->
        GameState.funds (App.gameState st) <= INITIAL_FUNDS).
Proof.
  split; [exact step_funds_le|].
  split; [exact handleRemoveBuilding_funds|].
  split; [exact tick_funds|].
  induction 1 as [|e st Hst IH].
  - apply Qle_refl.
  - eapply Qle_trans; [apply step_funds_le | exact IH].
Qed.

Lemma funds_never_increase_witness :
  GameState.funds (App.gameState spree) <= INITIAL_FUNDS.
Proof.
  apply (proj2 (proj2 (proj2 funds_never_increase))).
  unfold spree. apply reachable_steps. apply reachable_step. apply reachable_initial.
Defined.

(** ** The statistics shown are never stale *)

Lemma tick_shown prev s :
  shown_totals (fst (App.tick prev s)) = shown_totals prev.
Proof.
  unfold App.tick. cbv zeta. destruct (App.newWeather prev s). reflexivity.
Qed.

Lemma setBuildings_fresh bs st : stats_fresh (App.setBuildings bs st).
Proof.
  unfold stats_fresh, App.setBuildings, App.setGameState.
  cbn [App.gameState App.buildings]. apply updateStats_shown.
Qed.

Lemma handleRemoveBuilding_fresh id st : stats_fresh (App.handleRemoveBuilding id st).
Proof.
  unfold stats_fresh.
  rewrite handleRemoveBuilding_gameState, handleRemoveBuilding_buildings.
  apply updateStats_shown.
Qed.

Lemma handlePlaceBuilding_fresh b st :
  stats_fresh st -> stats_fresh (App.handlePlaceBuilding b st).
Proof.
  intros H. unfold App.handlePlaceBuilding.
  destruct (String.eqb _ _); [exact H | apply setBuildings_fresh].
Qed.

Lemma onUpdateGameState_fresh funds st :
  stats_fresh st -> stats_fresh (App.onUpdateGameState funds st).
Proof.
  unfold stats_fresh, App.onUpdateGameState, App.setGameState.
  cbn [App.gameState App.buildings]. intros H.
  rewrite (updateStats_shown _ _ (App.gameState st)), <- H. reflexivity.
Qed.

Lemma handleClick_fresh props p :
  stats_fresh props -> stats_fresh (fst (GameCanvas.handleClick props p)).
Proof.
  intros H. unfold GameCanvas.handleClick.
  destruct (App.isDemolishMode props || GameCanvas.is_dezone (App.selectedBuildingId props))%bool.
  - destruct (GameCanvas.target p) as [id|]; [|exact H].
    destruct (String.eqb id ""); [exact H|].
    apply handleRemoveBuilding_fresh.
  - destruct (GameCanvas.ghostRef p) as [gh|];
      destruct (App.selectedBuildingId props) as [selected|];
      try exact H.
    destruct (GameCanvas.visible gh && negb (String.eqb selected ""))%bool; [|exact H].
    destruct (GameCanvas.getSelectedBuildingType props) as [bType|]; [|exact H].
    destruct (negb (checkCollision _ _ _ _ _)); [|exact H].
    destruct (JS.ge _ _); [|exact H].
    cbn [fst]. apply onUpdateGameState_fresh, handlePlaceBuilding_fresh. exact H.
Qed.

Lemma step_buildings_ui e st :
  match e with
  | Click _ => True
  | _ => App.buildings (step e st) = App.buildings st
  end.
Proof.
  destruct e; cbn [step]; try exact I; try reflexivity.
  - unfold App.handleSelectBuildingTool. cbv zeta.
    destruct id as [v|]; [destruct (String.eqb v "")|]; reflexivity.
  - unfold App.handleDemolishToggle. cbv zeta. destruct active; reflexivity.
Qed.

(** X3. In every reachable state the population and the jobs held by the
    game state are the ones recomputed from the placed structures: no
    handler changes the structures without the statistics following, and
    neither the timer nor the debit of a placement disturbs them. *)
Theorem stats_never_stale (st : App.state) :
  reachable st -> stats_fresh st.
Proof.
  induction 1 as [|e st Hst IH].
  - reflexivity.
  - pose proof (step_gameState_ui e st) as Hg.
    pose proof (step_buildings_ui e st) as Hb.
    destruct e; try (unfold stats_fresh in *; rewrite Hg, Hb; exact IH).
    + cbn [step]. unfold stats_fresh, App.setGameState in *.
      cbn [App.gameState App.buildings].
      rewrite tick_shown, IH. apply updateStats_shown.
    + apply handleClick_fresh. exact IH.
Qed.

Lemma stats_never_stale_witness : stats_fresh spree.
Proof.
  apply (stats_never_stale spree).
  unfold spree. apply reachable_steps. apply reachable_step. apply reachable_initial.
Defined.

(** ** The three interaction modes *)

Lemma demolish_click props p :
  App.isDemolishMode props = true ->
  GameState.funds (App.gameState (fst (GameCanvas.handleClick props p)))
  = GameState.funds (App.gameState props)
  /\ (forall b, In b (App.buildings (fst (GameCanvas.handleClick props p))) ->
                In b (App.buildings props))
  /\ snd (GameCanvas.handleClick props p) = None.
Proof.
  intros Hd. unfold GameCanvas.handleClick. rewrite Hd. cbn [orb].
  destruct (GameCanvas.target p) as [id|]; [|repeat split; auto].
  destruct (String.eqb id ""); [repeat split; auto|].
  cbn [fst snd]. split; [apply handleRemoveBuilding_funds|]. split; [|reflexivity].
  intros b Hb. rewrite handleRemoveBuilding_buildings in Hb.
  apply filter_In in Hb. tauto.
Qed.

(** X4. The demolish mode and an armed tool never coexist in a reachable
    state; Escape returns to the idle mode from any state; and a click in
    demolish mode only ever removes: it adds no structure, leaves the funds
    as they are and raises no alert. *)
Theorem modes_exclude_each_other :
  (forall st, reachable st ->
     App.isDemolishMode st = true ->
     GameCanvas.truthy (App.selectedBuildingId st) = false)
  /\ (forall st,
        App.selectedBuildingId (step Escape st) = None
        /\ App.isDemolishMode (step Escape st) = false
        /\ App.inspectedBuildingId (step Escape st) = None
        /\ App.buildings (step Escape st) = App.buildings st
        /\ App.gameState (step Escape st) = App.gameState st)
  /\ (forall props p,
        App.isDemolishMode props = true ->
        GameState.funds (App.gameState (fst (GameCanvas.handleClick props p)))
        = GameState.funds (App.gameState props)
        /\ (forall b, In b (App.buildings (fst (GameCanvas.handleClick props p))) ->
                      In b (App.buildings props))
        /\ snd (GameCanvas.handleClick props p) = None).
Proof.
  split; [|split].
  - intros st H. exact (proj1 (reachable_session_invariant st H)).
  - intros st. repeat split.
  - exact demolish_click.
Qed.

Lemma modes_exclude_each_other_witness :
  GameCanvas.truthy
    (App.selectedBuildingId
       (step (DemolishToggle true)
          (step (SelectBuildingTool (Some "res_1x1"%string)) App.initial)))
  = false.
Proof.
  apply (proj1 modes_exclude_each_other).
  - repeat apply reachable_step. apply reachable_initial.
  - reflexivity.
Defined.

(** ** Demolition *)

Lemma filter_idem {A} (f : A -> bool) l : filter f (filter f l) = filter f l.
Proof.
  apply filter_all. intros a Ha. apply filter_In in Ha. tauto.
Qed.

(** X5. Removing by identifier: afterwards no placed structure carries the
    identifier, the structures with another identifier are all kept, in
    their order, and the inspector no longer shows the identifier; when no
    structure carries it the structure list is unchanged; removing twice is
    removing once. *)
Theorem handleRemoveBuilding_removes (id : string) (st : App.state) :
  let st' := App.handleRemoveBuilding id st in
  (forall b, In b (App.buildings st') <->
             In b (App.buildings st) /\ PlacedBuilding.id b <> id)
  /\ (exists dropped,
        App.buildings st'
        = filter (fun b => negb (String.eqb (PlacedBuilding.id b) id)) (App.buildings st)
        /\ dropped = filter (fun b => String.eqb (PlacedBuilding.id b) id) (App.buildings st)
        /\ (List.length (App.buildings st')
            + List.length dropped = List.length (App.buildings st))%nat)
  /\ (~ In id (ids (App.buildings st)) -> App.buildings st' = App.buildings st)
  /\ App.inspectedBuildingId st' <> Some id
  /\ (App.inspectedBuildingId st <> Some id ->
      App.inspectedBuildingId st' = App.inspectedBuildingId st)
  /\ App.buildings (App.handleRemoveBuilding id st') = App.buildings st'.
Proof.
  cbv zeta. rewrite !handleRemoveBuilding_buildings.
  split; [|split; [|split; [|split; [|split]]]].
  - intros b. rewrite filter_In, negb_true_iff, String.eqb_neq. tauto.
  - eexists. split; [reflexivity|]. split; [reflexivity|].
    induction (App.buildings st) as [|a l IH]; [reflexivity|].
    cbn [filter]. destruct (String.eqb (PlacedBuilding.id a) id);
      cbn [negb List.length]; lia.
  - intros Hno. apply filter_all. intros a Ha.
    apply negb_true_iff, String.eqb_neq. intros E. apply Hno.
    unfold ids. rewrite <- E. apply in_map. exact Ha.
  - unfold App.handleRemoveBuilding. cbv zeta.
    destruct (App.inspectedBuildingId st) as [i|] eqn:Hi; [|cbn; rewrite Hi; discriminate].
    destruct (String.eqb i id) eqn:E; cbn [App.inspectedBuildingId App.setInspectedBuildingId App.setBuildings App.setGameState].
    + discriminate.
    + rewrite Hi. apply String.eqb_neq in E. congruence.
  - intros Hne. unfold App.handleRemoveBuilding. cbv zeta.
    destruct (App.inspectedBuildingId st) as [i|] eqn:Hi; [|cbn; rewrite Hi; reflexivity].
    destruct (String.eqb i id) eqn:E.
    + apply String.eqb_eq in E. congruence.
    + cbn. rewrite Hi. reflexivity.
  - apply filter_idem.
Qed.

Example remove_unknown_id :
  App.buildings (App.handleRemoveBuilding "nobody" one_house_city)
  = App.buildings one_house_city.
Proof. reflexivity. Qed.

(** ** Style variants *)

Lemma rem_3_cycle v :
  (v == 0 -> JS.rem (v + 1) 3 == 1)
  /\ (v == 1 -> JS.rem (v + 1) 3 == 2)
  /\ (v == 2 -> JS.rem (v + 1) 3 == 0).
Proof.
  unfold JS.rem. repeat split; intros H.
  - assert (E : JS.trunc ((v + 1) / 3) = 0%Z).
    { rewrite trunc_floor by qlra. apply floor_unique; change (inject_Z 0) with 0; qlra. }
    rewrite E. change (inject_Z 0) with 0. lra.
  - assert (E : JS.trunc ((v + 1) / 3) = 0%Z).
    { rewrite trunc_floor by qlra. apply floor_unique; change (inject_Z 0) with 0; qlra. }
    rewrite E. change (inject_Z 0) with 0. lra.
  - assert (E : JS.trunc ((v + 1) / 3) = 1%Z).
    { rewrite trunc_floor by qlra. apply floor_unique; change (inject_Z 1) with 1; qlra. }
    rewrite E. change (inject_Z 1) with 1. lra.
Qed.

Lemma KeyC_style st :
  is_style (App.currentVariant st) -> is_style (App.currentVariant (step KeyC st)).
Proof.
  intros H. cbn [step App.setCurrentVariant App.currentVariant].
  destruct (rem_3_cycle (App.currentVariant st)) as [H0 [H1 H2]].
  destruct H as [H | [H | H]].
  - right; left. auto.
  - right; right. auto.
  - left. auto.
Qed.

Lemma step_currentVariant e st :
  match e with
  | KeyC => True
  | _ => App.currentVariant (step e st) = App.currentVariant st
  end.
Proof.
  destruct e; cbn [step]; try exact I; try reflexivity.
  - unfold GameCanvas.handleClick.
    destruct (App.isDemolishMode st || GameCanvas.is_dezone (App.selectedBuildingId st))%bool.
    + destruct (GameCanvas.target p) as [id|]; [|reflexivity].
      destruct (String.eqb id ""); [reflexivity|].
      cbn [fst]. unfold App.handleRemoveBuilding. cbv zeta.
      destruct (App.inspectedBuildingId st) as [i|];
        [destruct (String.eqb i id)|]; reflexivity.
    + destruct (GameCanvas.ghostRef p) as [gh|];
        destruct (App.selectedBuildingId st) as [selected|];
        try reflexivity.
      destruct (GameCanvas.visible gh && negb (String.eqb selected ""))%bool;
        [|reflexivity].
      destruct (GameCanvas.getSelectedBuildingType st) as [bType|]; [|reflexivity].
      destruct (negb (checkCollision _ _ _ _ _)); [|reflexivity].
      destruct (JS.ge _ _); [|reflexivity].
      cbn [fst]. unfold App.handlePlaceBuilding.
      destruct (String.eqb _ _); reflexivity.
  - unfold App.handleSelectBuildingTool. cbv zeta.
    destruct id as [v|]; [destruct (String.eqb v "")|]; reflexivity.
  - unfold App.handleDemolishToggle. cbv zeta. destruct active; reflexivity.
Qed.

Lemma reachable_styles st :
  reachable st ->
  is_style (App.currentVariant st) /\ Forall styled (App.buildings st).
Proof.
  induction 1 as [|e st Hst [Hv Hb]].
  - split; [left; reflexivity | constructor].
  - split.
    + pose proof (step_currentVariant e st) as H.
      destruct e; try (rewrite H; exact Hv). apply KeyC_style. exact Hv.
    + destruct (step_buildings e st)
        as [E | [[id E] | [p [sel [bT [gh [_ [_ [_ [_ [_ E]]]]]]]]]]]; rewrite E.
      * exact Hb.
      * apply Forall_filter. exact Hb.
      * apply Forall_app. split; [exact Hb|]. constructor; [|constructor].
        exists (App.currentVariant st). split; [reflexivity | exact Hv].
Qed.

(** X7. The style variant is always 0, 1 or 2: the C key cycles 0, 1, 2, 0
    (three presses bring it back), and in every reachable state the current
    variant and the variant stored in each placed structure are among the
    three. *)
Theorem variant_is_always_a_style :
  (forall st, reachable st ->
     is_style (App.currentVariant st) /\ Forall styled (App.buildings st))
  /\ (forall st, is_style (App.currentVariant st) ->
        App.currentVariant (step KeyC (step KeyC (step KeyC st)))
        == App.currentVariant st)
  /\ (forall st,
        (App.currentVariant st == 0 -> App.currentVariant (step KeyC st) == 1)
        /\ (App.currentVariant st == 1 -> App.currentVariant (step KeyC st) == 2)
        /\ (App.currentVariant st == 2 -> App.currentVariant (step KeyC st) == 0)).
Proof.
  assert (Hcyc : forall st,
        (App.currentVariant st == 0 -> App.currentVariant (step KeyC st) == 1)
        /\ (App.currentVariant st == 1 -> App.currentVariant (step KeyC st) == 2)
        /\ (App.currentVariant st == 2 -> App.currentVariant (step KeyC st) == 0)).
  { intros st. cbn [step App.setCurrentVariant App.currentVariant].
    apply rem_3_cycle. }
  split; [exact reachable_styles|]. split; [|exact Hcyc].
  intros st Hv.
  destruct (Hcyc st) as [A0 [A1 A2]].
  destruct (Hcyc (step KeyC st)) as [B0 [B1 B2]].
  destruct (Hcyc (step KeyC (step KeyC st))) as [C0 [C1 C2]].
  destruct Hv as [H | [H | H]]; rewrite H; auto.
Qed.

Lemma variant_is_always_a_style_witness :
  is_style (App.currentVariant (step KeyC (step KeyC App.initial))).
Proof.
  apply (proj1 variant_is_always_a_style).
  repeat apply reachable_step. apply reachable_initial.
Defined.

(** ** Demand converges geometrically *)







(** ** The catalog *)

Lemma append_inj_l (p a b : string) : (p ++ a)%string = (p ++ b)%string -> a = b.
Proof.
  induction p as [|c p IH]; cbn; intros H; [exact H|].
  injection H as H. apply IH. exact H.
Qed.

Lemma createZone_ids prefix name category color baseCost baseHeight :
  map BuildingType.id (createZone prefix name category color baseCost baseHeight)
  = [(prefix ++ "_1x1")%string; (prefix ++ "_2x2")%string;
     (prefix ++ "_3x3")%string; (prefix ++ "_4x4")%string].
Proof. reflexivity. Qed.

Lemma createZone_distinct prefix name category color baseCost baseHeight :
  NoDup (map BuildingType.id
           (createZone prefix name category color baseCost baseHeight)).
Proof.
  rewrite createZone_ids.
  repeat constructor; cbn [In]; intros H;
    repeat (destruct H as [H | H]; [apply append_inj_l in H; discriminate|]);
    exact H.
Qed.

Lemma createZone_types prefix name category color baseCost baseHeight :
  Forall (zone_type category baseCost baseHeight)
    (createZone prefix name category color baseCost baseHeight).
Proof.
  unfold createZone. cbn [map].
  repeat (apply Forall_cons || apply Forall_nil);
    unfold zone_type;
    cbn [BuildingType.width BuildingType.depth BuildingType.cost
         BuildingType.height BuildingType.category];
    (split; [reflexivity|]); (split; [reflexivity|]);
    (split; [|split; ring]);
    first [ left; reflexivity
          | right; left; reflexivity
          | right; right; left; reflexivity
          | right; right; right; reflexivity ].
Qed.

Lemma catalog_ids_distinct : NoDup (map BuildingType.id BUILDINGS).
Proof.
  assert (E : nodup string_dec (map BuildingType.id BUILDINGS)
              = map BuildingType.id BUILDINGS) by (vm_compute; reflexivity).
  rewrite <- E. apply NoDup_nodup.
Qed.

Lemma catalog_round_trip :
  Forall (fun t => findType (BuildingType.id t) = Some t) BUILDINGS.
Proof.
  unfold BUILDINGS, createZone. cbn [map app].
  repeat constructor.
Qed.

(** X6. The catalog is a faithful table: its 26 identifiers are pairwise
    distinct, looking up the identifier of an entry returns that entry, a
    successful lookup returns an entry of the catalog carrying the
    identifier asked for, and the empty identifier resolves to nothing.
    Whatever its arguments, [createZone] yields four types with distinct
    identifiers, square footprints of sizes 1 to 4, cost baseCost * size^2
    and height baseHeight * (1 + size * 0.5). *)
Theorem catalog_is_a_table :
  NoDup (map BuildingType.id BUILDINGS)
  /\ List.length BUILDINGS = 26%nat
  /\ (forall t, In t BUILDINGS -> findType (BuildingType.id t) = Some t)
  /\ (forall typeId t,
        findType typeId = Some t -> BuildingType.id t = typeId /\ In t BUILDINGS)
  /\ findType "" = None
  /\ (forall prefix name category color baseCost baseHeight,
        let zone := createZone prefix name category color baseCost baseHeight in
        NoDup (map BuildingType.id zone)
        /\ List.length zone = 4%nat
        /\ Forall (zone_type category baseCost baseHeight) zone).
Proof.
  split; [exact catalog_ids_distinct|]. split; [reflexivity|].
  split; [apply Forall_forall; exact catalog_round_trip|].
  split.
  { intros typeId t H. unfold findType in H. apply find_some in H.
    destruct H as [Hin Heq]. apply String.eqb_eq in Heq. split; assumption. }
  split; [reflexivity|].
  intros prefix name category color baseCost baseHeight zone. subst zone.
  split; [apply createZone_distinct|]. split; [reflexivity|].
  apply createZone_types.
Qed.

Lemma catalog_is_a_table_witness :
  exists t, findType "off_4x4" = Some t /\ BuildingType.id t = "off_4x4"%string.
Proof.
  eexists. split; [reflexivity|].
  exact (proj1 (proj1 (proj2 (proj2 (proj2 catalog_is_a_table))) "off_4x4"%string _ eq_refl)).
Defined.

(** ** The fog range *)

Lemma animate_fog_in_range g scene :
  fog_in_range scene -> fog_in_range (Scene.animate g scene).
Proof.
  unfold fog_in_range, Scene.animate. cbv zeta. cbn [Scene.fog].
  destruct (Scene.fog scene) as [f|]; [|trivial].
  cbn [Scene.near Scene.far]. intros [H1 [H2 [H3 H4]]].
  destruct (GameState.weather g); cbn [Scene.wNear Scene.wFar];
    repeat split; lra.
Qed.

(** X9. Over any sequence of frames, whatever the weather of each, the fog
    distances stay within the ranges spanned by the three weathers (near in
    [50,600], far in [900,2500]), so the near distance always stays below
    the far distance; a scene with no fog keeps none. *)
Theorem fog_range_is_kept (states : list GameState.t) (scene : Scene.t) :
  fog_in_range scene ->
  fog_in_range (frames states scene)
  /\ match Scene.fog (frames states scene) with
     | Some f => Scene.near f < Scene.far f
     | None => Scene.fog scene = None
     end.
Proof.
  revert scene. induction states as [|g gs IH]; intros scene H; cbn [frames fold_left].
  - split; [exact H|]. unfold fog_in_range in H.
    destruct (Scene.fog scene) as [f|]; [lra | reflexivity].
  - destruct (IH (Scene.animate g scene) (animate_fog_in_range g scene H)) as [H1 H2].
    split; [exact H1|]. unfold frames in H2.
    destruct (Scene.fog (fold_left _ gs (Scene.animate g scene))) as [f|]; [exact H2|].
    unfold Scene.animate in H2. cbn [Scene.fog] in H2.
    destruct (Scene.fog scene); [discriminate | reflexivity].
Qed.

Lemma fog_range_is_kept_witness :
  fog_in_range (frames [at_time 8; at_time 19; at_time 19.008] Scene.initial).
Proof.
  apply (fog_range_is_kept [at_time 8; at_time 19; at_time 19.008] Scene.initial).
  cbn. repeat split; discriminate.
Defined.

(** ** The sky target *)

Lemma phases_of_the_day time :
  (Scene.isNight time = true <-> time < 5 \/ 19 < time)
  /\ (Scene.isDawnDusk time = true <->
      (5 <= time /\ time < 7) \/ (17 < time /\ time <= 19)).
Proof.
  unfold Scene.isNight, Scene.isDawnDusk.
  rewrite !orb_true_iff, !andb_true_iff, !JS_lt_true, !JS_gt_true,
    !JS_ge_true, !JS_le_true. tauto.
Qed.

Lemma byte_channel z :
  0 <= inject_Z (Z.land z 255) / 255 /\ inject_Z (Z.land z 255) / 255 <= 1.
Proof.
  assert (E : Z.land z 255 = (z mod 256)%Z) by (apply (Z.land_ones z 8); lia).
  rewrite E.
  pose proof (Z.mod_pos_bound z 256 eq_refl) as [H0 H1].
  assert (H2 : (z mod 256 <= 255)%Z) by lia.
  rewrite Zle_Qle in H0, H2.
  change (inject_Z 0) with 0 in H0. change (inject_Z 255) with 255 in H2.
  split; qlra.
Qed.

Lemma setHex_valid hex : valid_color (Color.setHex hex).
Proof.
  unfold valid_color, Color.setHex. cbn [Color.r Color.g Color.b].
  repeat split; apply byte_channel.
Qed.

Lemma lerp_valid c1 c2 alpha :
  0 <= alpha -> alpha <= 1 ->
  valid_color c1 -> valid_color c2 -> valid_color (Color.lerp c1 c2 alpha).
Proof.
  unfold valid_color, Color.lerp. cbn [Color.r Color.g Color.b].
  intros Ha0 Ha1 [[R0 R1] [[G0 G1] [B0 B1]]] [[R0' R1'] [[G0' G1'] [B0' B1']]].
  repeat split; nra.
Qed.

(** X10. At every time exactly one phase of the day applies (night before
    5 and after 19, dawn or dusk on [5,7) and (17,19], day on [7,17]); in
    clear weather the sky target is the colour of the phase, under rain or
    fog it is that colour moved 80% or 90% of the way to the weather's
    grey; and every channel of the target is always in [0,1]. *)
Theorem sky_target_phases (time : number) (weather : Weather.t) :
  (Scene.isNight time = true <-> time < 5 \/ 19 < time)
  /\ (Scene.isDawnDusk time = true <->
      (5 <= time /\ time < 7) \/ (17 < time /\ time <= 19))
  /\ ~ (Scene.isNight time = true /\ Scene.isDawnDusk time = true)
  /\ (Scene.isNight time = false /\ Scene.isDawnDusk time = false <->
      7 <= time /\ time <= 17)
  /\ (time < 5 \/ 19 < time ->
      Scene.targetSky time Weather.clear = Color.setHex 0x0a0a15)
  /\ ((5 <= time /\ time < 7) \/ (17 < time /\ time <= 19) ->
      Scene.targetSky time Weather.clear = Color.setHex 0xffaa77)
  /\ (7 <= time /\ time <= 17 ->
      Scene.targetSky time Weather.clear = Color.setHex COLORS.WATER)
  /\ Scene.targetSky time Weather.rain
     = Color.lerp (Scene.targetSky time Weather.clear) (Color.setHex 0x333344) 0.8
  /\ Scene.targetSky time Weather.fog
     = Color.lerp (Scene.targetSky time Weather.clear) (Color.setHex 0xcccccc) 0.9
  /\ valid_color (Scene.targetSky time weather).
Proof.
  destruct (phases_of_the_day time) as [Hn Hd].
  assert (Hclear : valid_color (Scene.targetSky time Weather.clear)).
  { unfold Scene.targetSky. cbv zeta.
    destruct (Scene.isNight time); [apply setHex_valid|].
    destruct (Scene.isDawnDusk time); apply setHex_valid. }
  split; [exact Hn|]. split; [exact Hd|].
  split. { rewrite Hn, Hd. intros [[H | H] [[H1 H2] | [H1 H2]]]; lra. }
  split.
  { rewrite <- !not_true_iff_false, Hn, Hd. split.
    - intros [H1 H2]. split.
      + destruct (Qlt_le_dec time 7); [|assumption].
        destruct (Qlt_le_dec time 5); [exfalso; tauto|]. exfalso. tauto.
      + destruct (Qlt_le_dec 17 time); [|assumption].
        destruct (Qlt_le_dec 19 time); [exfalso; tauto|]. exfalso. tauto.
    - intros [H1 H2]. split; intros H; repeat destruct H as [H | H]; lra. }
  split.
  { intros H. apply Hn in H. unfold Scene.targetSky. cbv zeta. rewrite H. reflexivity. }
  split.
  { intros H. assert (Hnn : Scene.isNight time = false).
    { apply not_true_iff_false. rewrite Hn. intros [H' | H'];
        destruct H as [[A B] | [A B]]; lra. }
    apply Hd in H. unfold Scene.targetSky. cbv zeta. rewrite Hnn, H. reflexivity. }
  split.
  { intros [H1 H2].
    assert (Hnn : Scene.isNight time = false).
    { apply not_true_iff_false. rewrite Hn. intros [H' | H']; lra. }
    assert (Hdd : Scene.isDawnDusk time = false).
    { apply not_true_iff_false. rewrite Hd. intros [[A B] | [A B]]; lra. }
    unfold Scene.targetSky. cbv zeta. rewrite Hnn, Hdd. reflexivity. }
  split; [reflexivity|]. split; [reflexivity|].
  destruct weather.
  - exact Hclear.
  - apply lerp_valid; [discriminate | discriminate | exact Hclear | apply setHex_valid].
  - apply lerp_valid; [discriminate | discriminate | exact Hclear | apply setHex_valid].
Qed.

Lemma sky_target_phases_witness :
  Scene.targetSky 12 Weather.clear = Color.setHex COLORS.WATER.
Proof.
  apply (proj1 (proj2 (proj2 (proj2 (proj2 (proj2 (proj2
    (sky_target_phases 12 Weather.clear)))))))).
  split; discriminate.
Defined.

(** ** The clock display *)

Lemma two_digits_table :
  forallb (fun k =>
    String.eqb
      (UIOverlay.padStart (UIOverlay.toString (inject_Z (Z.of_nat k))) 2 "0")
      (two_digits (Z.of_nat k)))
    (seq 0 100) = true.
Proof. vm_compute. reflexivity. Qed.

Lemma padStart_two_digits n :
  (0 <= n < 100)%Z ->
  UIOverlay.padStart (UIOverlay.toString (inject_Z n)) 2 "0" = two_digits n.
Proof.
  intros H. pose proof two_digits_table as T. rewrite forallb_forall in T.
  specialize (T (Z.to_nat n)). rewrite Z2Nat.id in T by lia.
  apply String.eqb_eq, T. apply in_seq. lia.
Qed.

Lemma rem_1_fraction t :
  0 <= t -> JS.rem t 1 == t - inject_Z (Qfloor t).
Proof.
  intros H. unfold JS.rem.
  assert (E : JS.trunc (t / 1) = Qfloor t).
  { rewrite trunc_floor by qlra. apply Qfloor_comp. field. }
  rewrite E. ring.
Qed.

Example formatTime_examples :
  UIOverlay.formatTime 8 = "08:00"%string
  /\ UIOverlay.formatTime 23.995 = "23:59"%string
  /\ UIOverlay.formatTime 12.5 = "12:30"%string.
Proof. repeat split. Qed.

(** X11. For a clock value in [0,24) the time shown is five characters,
    two digits of the hour, a colon and two digits of the minute, where the
    hour is in 0..23, the minute in 0..59, and the value lies within that
    minute: hour + minute/60 <= t < hour + (minute + 1)/60. *)
Theorem formatTime_shows_the_minute (t : number) :
  clock t ->
  exists h m : Z,
    (0 <= h <= 23)%Z /\ (0 <= m <= 59)%Z
    /\ inject_Z h + inject_Z m / 60 <= t
    /\ t < inject_Z h + (inject_Z m + 1) / 60
    /\ UIOverlay.formatTime t = (two_digits h ++ ":" ++ two_digits m)%string
    /\ String.length (UIOverlay.formatTime t) = 5%nat.
Proof.
  intros [H0 H24].
  pose proof (Qfloor_le t) as Hf1. pose proof (Qlt_floor t) as Hf2.
  rewrite inject_Z_plus in Hf2. change (inject_Z 1) with 1 in Hf2.
  set (h := Qfloor t) in *.
  set (m := Qfloor (JS.rem t 1 * 60)).
  pose proof (rem_1_fraction t H0) as Hr. fold h in Hr.
  pose proof (Qfloor_le (JS.rem t 1 * 60)) as Hm1.
  pose proof (Qlt_floor (JS.rem t 1 * 60)) as Hm2.
  rewrite inject_Z_plus in Hm2. change (inject_Z 1) with 1 in Hm2.
  fold m in Hm1, Hm2. rewrite Hr in Hm1, Hm2.
  assert (Hh : (0 <= h <= 23)%Z).
  { assert (A : inject_Z (-1) < inject_Z h) by (change (inject_Z (-1)) with (-1); lra).
    assert (B : inject_Z h < inject_Z 24) by (change (inject_Z 24) with 24; lra).
    rewrite <- Zlt_Qlt in A, B. lia. }
  assert (Hm : (0 <= m <= 59)%Z).
  { assert (A : inject_Z (-1) < inject_Z m) by (change (inject_Z (-1)) with (-1); lra).
    assert (B : inject_Z m < inject_Z 60) by (change (inject_Z 60) with 60; lra).
    rewrite <- Zlt_Qlt in A, B. lia. }
  assert (E : UIOverlay.formatTime t = (two_digits h ++ ":" ++ two_digits m)%string).
  { unfold UIOverlay.formatTime, Math.floor. cbv zeta. fold h. fold m.
    rewrite !padStart_two_digits by lia. reflexivity. }
  exists h, m. split; [exact Hh|]. split; [exact Hm|].
  split; [qlra|]. split; [qlra|]. split; [exact E|].
  rewrite E. reflexivity.
Qed.

Lemma formatTime_shows_the_minute_witness :
  String.length (UIOverlay.formatTime 23.995) = 5%nat.
Proof.
  destruct (formatTime_shows_the_minute 23.995) as [h [m [_ [_ [_ [_ [_ H]]]]]]].
  - split; [discriminate | reflexivity].
  - exact H.
Defined.

(** ** The inspector *)


Lemma catalog_figures_nonneg typeId t :
  findType typeId = Some t -> (0 <= residents t)%Z /\ (0 <= workplaces t)%Z.
Proof.
  intros H. apply findType_In in H.
  assert (Hall : forallb (fun t => (0 <=? residents t)%Z && (0 <=? workplaces t)%Z)
                   BUILDINGS = true) by (vm_compute; reflexivity).
  rewrite forallb_forall in Hall. specialize (Hall t H).
  apply andb_true_iff in Hall. destruct Hall as [A B].
  split; apply Z.leb_le; assumption.
Qed.

Lemma figures_of_type (t : BuildingType.t) :
  (if BuildingCategory_eqb (BuildingType.category t) RESIDENTIAL
   then Math.floor (BuildingType.width t * BuildingType.depth t * 10
                    * (1 + BuildingType.width t * 0.5))
   else 0) = inject_Z (residents t)
  /\ (if BuildingCategory_eqb (BuildingType.category t) RESIDENTIAL
      then 0
      else if BuildingCategory_eqb (BuildingType.category t) COMMERCIAL
              || BuildingCategory_eqb (BuildingType.category t) INDUSTRIAL
              || BuildingCategory_eqb (BuildingType.category t) OFFICE
      then Math.floor (BuildingType.width t * BuildingType.depth t * 10
                       * (1 + BuildingType.width t * 0.2))
      else 0) = inject_Z (workplaces t)
  /\ (residents t = 0%Z \/ workplaces t = 0%Z).
Proof.
  unfold residents, workplaces, Math.floor.
  destruct (BuildingType.category t); cbn [BuildingCategory_eqb orb];
    (split; [reflexivity|]); (split; [reflexivity|]);
    first [left; reflexivity | right; reflexivity].
Qed.

(** X12. The inspector shows nothing when no identifier is inspected, when
    no placed structure carries the identifier, or when the type of the
    structure does not resolve; otherwise it shows the first structure
    carrying the identifier, with its catalog type, a whole number of
    residents or of work places that is never negative, never both, and
    the stored variant (0 when none is stored). *)
Theorem inspector_lookup (props : App.state) :
  match UIOverlay.inspectedData props with
  | Some d =>
      App.inspectedBuildingId props = Some (PlacedBuilding.id (UIOverlay.building d))
      /\ In (UIOverlay.building d) (App.buildings props)
      /\ find (fun b => String.eqb (PlacedBuilding.id b)
                          (PlacedBuilding.id (UIOverlay.building d)))
           (App.buildings props) = Some (UIOverlay.building d)
      /\ findType (PlacedBuilding.typeId (UIOverlay.building d)) = Some (UIOverlay.type d)
      /\ UIOverlay.pop d = inject_Z (residents (UIOverlay.type d))
      /\ UIOverlay.jobs d = inject_Z (workplaces (UIOverlay.type d))
      /\ 0 <= UIOverlay.pop d /\ 0 <= UIOverlay.jobs d
      /\ (UIOverlay.pop d == 0 \/ UIOverlay.jobs d == 0)
      /\ UIOverlay.variant d
         = match PlacedBuilding.variant (UIOverlay.building d) with
           | Some v => v
           | None => 0
           end
  | None =>
      App.inspectedBuildingId props = None
      \/ App.inspectedBuildingId props = Some ""%string
      \/ (exists i, App.inspectedBuildingId props = Some i
                    /\ ~ In i (ids (App.buildings props)))
      \/ (exists i b, App.inspectedBuildingId props = Some i
                      /\ In b (App.buildings props)
                      /\ PlacedBuilding.id b = i
                      /\ findType (PlacedBuilding.typeId b) = None)
  end.
Proof.
  unfold UIOverlay.inspectedData.
  destruct (App.inspectedBuildingId props) as [i|]; [|left; reflexivity].
  destruct (String.eqb i "") eqn:Ei.
  { apply String.eqb_eq in Ei. subst. right; left. reflexivity. }
  destruct (find _ (App.buildings props)) as [b|] eqn:Ef.
  - pose proof (find_some _ _ Ef) as [Hin Hid]. apply String.eqb_eq in Hid.
    destruct (findType (PlacedBuilding.typeId b)) as [t|] eqn:Et.
    + cbv zeta. cbn [UIOverlay.building UIOverlay.type UIOverlay.pop
                     UIOverlay.jobs UIOverlay.variant].
      destruct (figures_of_type t) as [Fp [Fj Fz]]. rewrite Fp, Fj.
      destruct (catalog_figures_nonneg _ _ Et) as [Np Nj].
      split; [rewrite Hid; reflexivity|]. split; [exact Hin|].
      split; [rewrite Hid; exact Ef|]. split; [exact Et|].
      split; [reflexivity|]. split; [reflexivity|].
      split; [change 0 with (inject_Z 0); rewrite <- Zle_Qle; exact Np|].
      split; [change 0 with (inject_Z 0); rewrite <- Zle_Qle; exact Nj|].
      split; [|reflexivity].
      destruct Fz as [Fz | Fz]; rewrite Fz; [left | right]; reflexivity.
    + right; right; right. exists i, b. repeat split; assumption.
  - right; right; left. exists i. split; [reflexivity|].
    unfold ids. intros Hin. apply in_map_iff in Hin. destruct Hin as [b [Hid Hin]].
    apply (find_none _ _ Ef) in Hin. rewrite Hid, String.eqb_refl in Hin. discriminate.
Qed.





(** ** The buttons of the overlay *)

Lemma buildingButton_selected building st :
  BuildingType.id building <> ""%string ->
  App.isDemolishMode (UIOverlay.buildingButton building st) = false
  /\ (App.selectedBuildingId st = Some (BuildingType.id building) ->
      App.selectedBuildingId (UIOverlay.buildingButton building st) = None
      /\ App.inspectedBuildingId (UIOverlay.buildingButton building st)
         = App.inspectedBuildingId st)
  /\ (App.selectedBuildingId st <> Some (BuildingType.id building) ->
      App.selectedBuildingId (UIOverlay.buildingButton building st)
      = Some (BuildingType.id building)
      /\ App.inspectedBuildingId (UIOverlay.buildingButton building st) = None).
Proof.
  intros Hne. apply String.eqb_neq in Hne.
  unfold UIOverlay.buildingButton, App.handleDemolishToggle, App.handleSelectBuildingTool.
  cbv zeta.
  destruct (App.selectedBuildingId st) as [sel|] eqn:Hs.
  - destruct (String.eqb sel (BuildingType.id building)) eqn:E.
    + apply String.eqb_eq in E. subst sel.
      split; [reflexivity|]. split; [intros _; split; reflexivity|].
      intros H. congruence.
    + apply String.eqb_neq in E. rewrite Hne.
      split; [reflexivity|]. split; [intros H; congruence|].
      intros _. split; reflexivity.
  - rewrite Hne. split; [reflexivity|]. split; [discriminate|].
    intros _. split; reflexivity.
Qed.

Lemma demolishButton_modes st :
  App.isDemolishMode (UIOverlay.demolishButton st) = negb (App.isDemolishMode st)
  /\ App.selectedBuildingId (UIOverlay.demolishButton st) = None.
Proof.
  unfold UIOverlay.demolishButton, App.handleDemolishToggle, App.handleSelectBuildingTool.
  cbv zeta. destruct (App.isDemolishMode st); split; reflexivity.
Qed.

(** X14. The buttons of the overlay.  A button of the construction menu
    leaves the demolish mode and arms its type, or disarms it when it was
    the armed one, so that pressing it twice restores whether the type is
    armed; arming clears the inspection.  The demolish button flips the
    demolish mode and disarms any tool, so that pressing it twice restores
    the mode.  Neither button touches the placed structures or the game
    state, and both keep a reachable state reachable. *)
Theorem overlay_buttons (building : BuildingType.t) (st : App.state) :
  BuildingType.id building <> ""%string ->
  let armed st := App.selectedBuildingId st = Some (BuildingType.id building) in
  (App.isDemolishMode (UIOverlay.buildingButton building st) = false
   /\ (armed st -> App.selectedBuildingId (UIOverlay.buildingButton building st) = None)
   /\ (~ armed st ->
       armed (UIOverlay.buildingButton building st)
       /\ App.inspectedBuildingId (UIOverlay.buildingButton building st) = None)
   /\ (armed (UIOverlay.buildingButton building (UIOverlay.buildingButton building st))
       <-> armed st))
  /\ (App.isDemolishMode (UIOverlay.demolishButton st) = negb (App.isDemolishMode st)
      /\ App.selectedBuildingId (UIOverlay.demolishButton st) = None
      /\ App.isDemolishMode (UIOverlay.demolishButton (UIOverlay.demolishButton st))
         = App.isDemolishMode st)
  /\ (App.buildings (UIOverlay.buildingButton building st) = App.buildings st
      /\ App.gameState (UIOverlay.buildingButton building st) = App.gameState st
      /\ App.buildings (UIOverlay.demolishButton st) = App.buildings st
      /\ App.gameState (UIOverlay.demolishButton st) = App.gameState st)
  /\ (reachable st ->
      reachable (UIOverlay.buildingButton building st)
      /\ reachable (UIOverlay.demolishButton st)).
Proof.
  intros Hne armed.
  destruct (buildingButton_selected building st Hne) as [B1 [B2 B3]].
  destruct (buildingButton_selected building (UIOverlay.buildingButton building st) Hne)
    as [_ [C2 C3]].
  destruct (demolishButton_modes st) as [D1 D2].
  destruct (demolishButton_modes (UIOverlay.demolishButton st)) as [E1 _].
  split; [|split; [|split]].
  - split; [exact B1|]. split; [intros H; exact (proj1 (B2 H))|].
    split; [exact B3|]. subst armed. cbv beta. split.
    + intros H2.
      destruct (App.selectedBuildingId st) as [sel|] eqn:Hs.
      * destruct (String.eqb sel (BuildingType.id building)) eqn:E.
        -- apply String.eqb_eq in E. subst. reflexivity.
        -- apply String.eqb_neq in E.
           assert (Hn : Some sel <> Some (BuildingType.id building)) by congruence.
           destruct (B3 Hn) as [H3 _]. destruct (C2 H3) as [H4 _].
           rewrite H4 in H2. discriminate.
      * assert (Hn : @None string <> Some (BuildingType.id building)) by discriminate.
        destruct (B3 Hn) as [H3 _]. destruct (C2 H3) as [H4 _].
        rewrite H4 in H2. discriminate.
    + intros H. destruct (B2 H) as [H1 _].
      apply C3. rewrite H1. discriminate.
  - split; [exact D1|]. split; [exact D2|].
    rewrite E1, D1. apply negb_involutive.
  - unfold UIOverlay.buildingButton, UIOverlay.demolishButton,
      App.handleDemolishToggle, App.handleSelectBuildingTool. cbv zeta.
    repeat split;
      repeat match goal with
             | |- context [match ?x with _ => _ end] => destruct x
             end; reflexivity.
  - intros Hr. split.
    + exact (reachable_step (DemolishToggle false) _
               (reachable_step (SelectBuildingTool _) _ Hr)).
    + exact (reachable_step (SelectBuildingTool None) _
               (reachable_step (DemolishToggle _) _ Hr)).
Qed.

Example road_type_in_catalog : findType "road_local" = Some road_type.
Proof. reflexivity. Qed.

Lemma overlay_buttons_witness :
  App.selectedBuildingId (UIOverlay.buildingButton road_type App.initial)
  = Some "road_local"%string.
Proof.
  refine (proj1 (proj1 (proj2 (proj2 (proj1
            (overlay_buttons road_type App.initial _)))) _)); discriminate.
Defined.

(** ** Snapping to the grid *)

Lemma snap_whole v :
  Preview.snap v = inject_Z (Qfloor (v / TILE_SIZE + 0.5)) * TILE_SIZE.
Proof. reflexivity. Qed.

Lemma snap_near v :
  v - 5 < Preview.snap v /\ Preview.snap v <= v + 5.
Proof.
  rewrite snap_whole. unfold TILE_SIZE.
  pose proof (Qfloor_le (v / 10 + 0.5)) as H1.
  pose proof (Qlt_floor (v / 10 + 0.5)) as H2.
  rewrite inject_Z_plus in H2. change (inject_Z 1) with 1 in H2.
  set (k := inject_Z (Qfloor (v / 10 + 0.5))) in *.
  split; qlra.
Qed.

Lemma snap_of_multiple (k : Z) : Preview.snap (inject_Z k * TILE_SIZE) == inject_Z k * TILE_SIZE.
Proof.
  rewrite snap_whole.
  assert (E : Qfloor (inject_Z k * TILE_SIZE / TILE_SIZE + 0.5) = k).
  { apply floor_unique; unfold TILE_SIZE; qlra. }
  rewrite E. reflexivity.
Qed.

Lemma snap_mono a b : a <= b -> Preview.snap a <= Preview.snap b.
Proof.
  intros H. rewrite !snap_whole.
  assert (Hf : (Qfloor (a / TILE_SIZE + 0.5) <= Qfloor (b / TILE_SIZE + 0.5))%Z).
  { apply Qfloor_resp_le. unfold TILE_SIZE. qlra. }
  rewrite Zle_Qle in Hf. unfold TILE_SIZE in *. lra.
Qed.

Example snap_examples :
  Preview.snap 14.9 == 10 /\ Preview.snap 15 == 20 /\ Preview.snap (-15) == -10
  /\ Preview.snap 0 == 0 /\ Preview.snap (-4.9) == 0.
Proof. repeat split. Qed.

Lemma snap_close v :
  (exists k : Z, Preview.snap v = inject_Z k * TILE_SIZE)
  /\ (v - TILE_SIZE / 2 < Preview.snap v /\ Preview.snap v <= v + TILE_SIZE / 2)
  /\ Qabs (Preview.snap v - v) <= TILE_SIZE / 2.
Proof.
  destruct (snap_near v) as [H1 H2].
  split; [eexists; apply snap_whole|].
  split; [unfold TILE_SIZE; split; qlra|].
  apply Qabs_Qle_condition; unfold TILE_SIZE; split; qlra.
Qed.

(** X15. Snapping sends a world coordinate to a whole multiple of the tile
    size at most half a tile away (strictly less below, halves go up), it
    leaves the multiples of the tile size in place, so snapping twice is
    snapping once, and it is monotone. *)
Theorem snap_to_grid (v : number) :
  (exists k : Z, Preview.snap v = inject_Z k * TILE_SIZE)
  /\ (v - TILE_SIZE / 2 < Preview.snap v /\ Preview.snap v <= v + TILE_SIZE / 2)
  /\ Qabs (Preview.snap v - v) <= TILE_SIZE / 2
  /\ Preview.snap (Preview.snap v) == Preview.snap v
  /\ (forall k : Z, Preview.snap (inject_Z k * TILE_SIZE) == inject_Z k * TILE_SIZE)
  /\ (forall u, v <= u -> Preview.snap v <= Preview.snap u).
Proof.
  destruct (snap_close v) as [H1 [H2 H3]].
  split; [exact H1|]. split; [exact H2|]. split; [exact H3|].
  split; [rewrite (snap_whole v) at 1; apply snap_of_multiple|].
  split; [exact snap_of_multiple | intros u; apply snap_mono].
Qed.

(** ** The preview under the pointer *)

Lemma hide_invisible pv : GameCanvas.visible (Preview.ghost (Preview.hide pv)) = false.
Proof. reflexivity. Qed.

Lemma updateGhost_visible props pv x z :
  GameCanvas.visible (Preview.ghost (Preview.updateGhost props pv x z)) = true ->
  GameCanvas.truthy (App.selectedBuildingId props) = true
  /\ (exists bType, GameCanvas.getSelectedBuildingType props = Some bType)
  /\ GameCanvas.position_x (Preview.ghost (Preview.updateGhost props pv x z)) = x
  /\ GameCanvas.position_z (Preview.ghost (Preview.updateGhost props pv x z)) = z
  /\ Preview.typeId (Preview.updateGhost props pv x z) = App.selectedBuildingId props.
Proof.
  unfold Preview.updateGhost.
  destruct (GameCanvas.getSelectedBuildingType props) as [bType|];
    [|rewrite hide_invisible; discriminate].
  destruct (GameCanvas.truthy (App.selectedBuildingId props));
    [|rewrite hide_invisible; discriminate].
  intros _. split; [reflexivity|]. split; [exists bType; reflexivity|].
  repeat split.
Qed.

(** X16. Whatever the sine, when the mouse handler leaves the preview
    visible, the pointer's ray met the terrain at least 10 units inside the
    map on the x axis and at least 35 units from the river line, a catalog
    type is armed, and the preview sits on the snapped point: whole
    multiples of the tile size on both axes, within half a tile of the
    pointer, and within 630 of the centre on the x axis.  With no
    intersection the preview is hidden. *)
Theorem mouse_preview_is_snapped (sin : number -> number) (props : App.state)
    (pv : Preview.t) (intersects : option (number * number)) :
  let pv' := Preview.handleMouseMove sin props pv intersects in
  (GameCanvas.visible (Preview.ghost pv') = true ->
   exists point_x point_z,
     intersects = Some (point_x, point_z)
     /\ (- (MAP_SIZE / 2) + 10 <= point_x /\ point_x <= MAP_SIZE / 2 - 10)
     /\ 35 <= Qabs (point_z - Preview.riverZ sin point_x)
     /\ GameCanvas.truthy (App.selectedBuildingId props) = true
     /\ (exists bType, GameCanvas.getSelectedBuildingType props = Some bType)
     /\ GameCanvas.position_x (Preview.ghost pv') = Preview.snap point_x
     /\ GameCanvas.position_z (Preview.ghost pv') = Preview.snap point_z
     /\ Qabs (GameCanvas.position_x (Preview.ghost pv') - point_x) <= TILE_SIZE / 2
     /\ Qabs (GameCanvas.position_z (Preview.ghost pv') - point_z) <= TILE_SIZE / 2
     /\ (-630 <= GameCanvas.position_x (Preview.ghost pv')
         /\ GameCanvas.position_x (Preview.ghost pv') <= 630))
  /\ (intersects = None -> GameCanvas.visible (Preview.ghost pv') = false).
Proof.
  cbv zeta. split; [|intros ->; reflexivity].
  unfold Preview.handleMouseMove.
  destruct intersects as [[px pz]|]; [|rewrite hide_invisible; discriminate].
  cbv zeta.
  case_lt px (- (MAP_SIZE / 2) + 10); cbn [orb]; [rewrite hide_invisible; discriminate|].
  case_gt px (MAP_SIZE / 2 - 10); cbn [orb]; [rewrite hide_invisible; discriminate|].
  case_lt (Qabs (pz - Preview.riverZ sin px)) 35; [rewrite hide_invisible; discriminate|].
  intros Hv. destruct (updateGhost_visible _ _ _ _ Hv) as [Ht [Hb [Hx [Hz _]]]].
  exists px, pz. split; [reflexivity|]. split; [split; assumption|].
  split; [assumption|]. split; [exact Ht|]. split; [exact Hb|].
  split; [exact Hx|]. split; [exact Hz|]. rewrite Hx, Hz.
  split; [apply snap_close|]. split; [apply snap_close|].
  unfold MAP_SIZE, GRID_SIZE, TILE_SIZE in *.
  assert (Elo : Preview.snap (inject_Z (-63) * TILE_SIZE) == -630) by reflexivity.
  assert (Ehi : Preview.snap (inject_Z 63 * TILE_SIZE) == 630) by reflexivity.
  split.
  - rewrite <- Elo. apply snap_mono. unfold TILE_SIZE.
    change (inject_Z (-63)) with (-63). qlra.
  - rewrite <- Ehi. apply snap_mono. unfold TILE_SIZE.
    change (inject_Z 63) with 63. qlra.
Qed.

Lemma mouse_preview_is_snapped_witness :
  GameCanvas.position_x
    (Preview.ghost
       (Preview.handleMouseMove (fun _ => 0) (armed 50000)
          {| Preview.ghost := {| GameCanvas.visible := false;
                                 GameCanvas.position_x := 0;
                                 GameCanvas.position_z := 0 |};
             Preview.typeId := None; Preview.tint := None |}
          (Some (123.4, 77))))
  == 120.
Proof.
  destruct (proj1 (mouse_preview_is_snapped (fun _ => 0) (armed 50000)
                     {| Preview.ghost := {| GameCanvas.visible := false;
                                            GameCanvas.position_x := 0;
                                            GameCanvas.position_z := 0 |};
                        Preview.typeId := None; Preview.tint := None |}
                     (Some (123.4, 77))) eq_refl)
    as [px [pz [E [_ [_ [_ [_ [Hx _]]]]]]]].
  injection E as <- <-. rewrite Hx. reflexivity.
Defined.

Lemma updateGhost_tint props pv x z c :
  GameCanvas.visible (Preview.ghost (Preview.updateGhost props pv x z)) = true ->
  Preview.tint (Preview.updateGhost props pv x z) = Some c ->
  exists selected bType,
    App.selectedBuildingId props = Some selected
    /\ selected <> "tool_dezone"%string
    /\ findType selected = Some bType
    /\ Preview.ghost (Preview.updateGhost props pv x z)
       = {| GameCanvas.visible := true;
            GameCanvas.position_x := x;
            GameCanvas.position_z := z |}
    /\ c = (if negb (checkCollision (App.buildings props) x z
                       (BuildingType.width bType) (BuildingType.depth bType))
            then Preview.SELECTION_VALID else Preview.SELECTION_INVALID).
Proof.
  unfold Preview.updateGhost, GameCanvas.getSelectedBuildingType.
  destruct (App.selectedBuildingId props) as [selected|] eqn:Hs;
    [|rewrite hide_invisible; discriminate].
  destruct (findType selected) as [bType|] eqn:Ht;
    [|rewrite hide_invisible; discriminate].
  destruct (GameCanvas.truthy (Some selected));
    [|rewrite hide_invisible; discriminate].
  cbn [Preview.tint Preview.ghost GameCanvas.is_dezone].
  destruct (String.eqb selected "tool_dezone") eqn:E; [discriminate|].
  cbv zeta. intros _ H. injection H as <-.
  exists selected, bType. apply String.eqb_neq in E. repeat split; assumption.
Qed.

(** X17. The colour of the preview tells what a click will do.  In a
    reachable state, after [updateGhost] has shown the preview at a point:
    if the tint is the invalid colour, a click changes neither the placed
    structures nor the funds; if it is the valid colour, a click places the
    armed type at that point when the funds cover its cost, and otherwise
    changes nothing and raises the alert. *)
Theorem preview_tint_predicts_click (props : App.state) (pv : Preview.t)
    (x z : number) (target : option string) (freshId : string) :
  reachable props ->
  let pv' := Preview.updateGhost props pv x z in
  let click := GameCanvas.handleClick props (pointer_of pv' target freshId) in
  GameCanvas.visible (Preview.ghost pv') = true ->
  (Preview.tint pv' = Some Preview.SELECTION_INVALID ->
   App.buildings (fst click) = App.buildings props
   /\ GameState.funds (App.gameState (fst click)) = GameState.funds (App.gameState props)
   /\ snd click = None)
  /\ (Preview.tint pv' = Some Preview.SELECTION_VALID ->
      exists selected bType,
        App.selectedBuildingId props = Some selected
        /\ findType selected = Some bType
        /\ (BuildingType.cost bType <= GameState.funds (App.gameState props) ->
            App.buildings (fst click)
            = App.buildings props
              ++ [{| PlacedBuilding.id := freshId;
                     PlacedBuilding.typeId := selected;
                     PlacedBuilding.x := x;
                     PlacedBuilding.z := z;
                     PlacedBuilding.rotation := 0;
                     PlacedBuilding.variant := Some (App.currentVariant props) |}]
            /\ GameState.funds (App.gameState (fst click))
               = GameState.funds (App.gameState props) - BuildingType.cost bType)
        /\ (GameState.funds (App.gameState props) < BuildingType.cost bType ->
            fst click = props
            /\ snd click = Some "Not enough Simoleons!"%string)).
Proof.
  intros Hreach pv' click Hvis.
  destruct (reachable_session_invariant props Hreach) as [Hmode _].
  assert (Hcase : forall c, Preview.tint pv' = Some c ->
    exists selected bType,
      App.isDemolishMode props = false
      /\ App.selectedBuildingId props = Some selected
      /\ String.eqb selected "tool_dezone" = false
      /\ String.eqb selected "" = false
      /\ findType selected = Some bType
      /\ Preview.ghost pv' = {| GameCanvas.visible := true;
                                GameCanvas.position_x := x;
                                GameCanvas.position_z := z |}
      /\ c = (if negb (checkCollision (App.buildings props) x z
                         (BuildingType.width bType) (BuildingType.depth bType))
              then Preview.SELECTION_VALID else Preview.SELECTION_INVALID)).
  { intros c Hc.
    destruct (updateGhost_tint props pv x z c Hvis Hc)
      as [sel [bT [Hs [Hdz [Ht [Hg Hcol]]]]]].
    exists sel, bT.
    assert (Hne : String.eqb sel "" = false).
    { apply String.eqb_neq. intros ->. rewrite findType_empty in Ht. discriminate. }
    assert (Hoff : App.isDemolishMode props = false).
    { destruct (App.isDemolishMode props); [|reflexivity].
      specialize (Hmode eq_refl). rewrite Hs in Hmode. cbn [GameCanvas.truthy] in Hmode.
      rewrite Hne in Hmode. discriminate. }
    apply String.eqb_neq in Hdz. repeat split; assumption. }
  split.
  - intros Hc. destruct (Hcase _ Hc) as [sel [bT [Hoff [Hs [Hdz [Hne [Ht [Hg Hcol]]]]]]]].
    destruct (checkCollision (App.buildings props) x z
                (BuildingType.width bT) (BuildingType.depth bT)) eqn:Hcc;
      cbn [negb] in Hcol; [|discriminate].
    subst click. unfold GameCanvas.handleClick, pointer_of.
    cbn [GameCanvas.ghostRef GameCanvas.target GameCanvas.freshId].
    rewrite Hoff, Hs, Hg. cbn [GameCanvas.is_dezone orb GameCanvas.visible
                                GameCanvas.position_x GameCanvas.position_z].
    rewrite Hdz, Hne. cbn [negb andb].
    unfold GameCanvas.getSelectedBuildingType. rewrite Hs, Ht. cbv zeta.
    rewrite Hcc. cbn [negb fst snd]. repeat split.
  - intros Hc. destruct (Hcase _ Hc) as [sel [bT [Hoff [Hs [Hdz [Hne [Ht [Hg Hcol]]]]]]]].
    destruct (checkCollision (App.buildings props) x z
                (BuildingType.width bT) (BuildingType.depth bT)) eqn:Hcc;
      cbn [negb] in Hcol; [discriminate|].
    exists sel, bT. split; [exact Hs|]. split; [exact Ht|].
    subst click. unfold GameCanvas.handleClick, pointer_of.
    cbn [GameCanvas.ghostRef GameCanvas.target GameCanvas.freshId].
    rewrite Hoff, Hs, Hg. cbn [GameCanvas.is_dezone orb GameCanvas.visible
                                GameCanvas.position_x GameCanvas.position_z].
    rewrite Hdz, Hne. cbn [negb andb].
    unfold GameCanvas.getSelectedBuildingType. rewrite Hs, Ht. cbv zeta.
    rewrite Hcc. cbn [negb].
    split.
    + intros Hle. apply JS_ge_true in Hle. rewrite Hle. cbn [fst].
      unfold App.handlePlaceBuilding. cbn [PlacedBuilding.typeId]. rewrite Hdz.
      split; reflexivity.
    + intros Hlt. apply JS_ge_false in Hlt. rewrite Hlt. split; reflexivity.
Qed.

Lemma preview_tint_predicts_click_witness :
  fst (GameCanvas.handleClick spree
         (pointer_of (Preview.updateGhost spree blank_preview 0 40)
            None "k3x9q0a1z"))
  = spree.
Proof.
  unshelve refine
    (let H := proj2 (preview_tint_predicts_click spree blank_preview 0 40
                       None "k3x9q0a1z" _ eq_refl) _ in _).
  - unfold spree. apply reachable_steps.
    apply reachable_step. apply reachable_initial.
  - vm_compute. reflexivity.
  - destruct H as [sel [bT [Hs [Ht [_ Hpoor]]]]].
    vm_compute in Hs. injection Hs as <-.
    vm_compute in Ht. injection Ht as <-.
    apply Hpoor. vm_compute. reflexivity.
Defined.

(** ** Rain *)

Lemma update_at_length k f l : List.length (Rain.update_at k f l) = List.length l.
Proof.
  revert k. induction l as [|v l IH]; intros [|k]; cbn; try reflexivity.
  rewrite IH. reflexivity.
Qed.

Lemma nth_error_update_at k f l j :
  nth_error (Rain.update_at k f l) j
  = if (j =? k)%nat then option_map f (nth_error l j) else nth_error l j.
Proof.
  revert k j. induction l as [|v l IH]; intros k j.
  - assert (E : nth_error (@nil Q) j = None) by (destruct j; reflexivity).
    destruct k; cbn [Rain.update_at]; rewrite E; destruct (j =? _)%nat; reflexivity.
  - destruct k as [|k]; destruct j as [|j]; cbn; try reflexivity.
    apply IH.
Qed.

Lemma loop_length n : forall i l, List.length (Rain.loop n i l) = List.length l.
Proof.
  induction n as [|n IH]; intros i l; cbn [Rain.loop]; [reflexivity|].
  rewrite IH. apply update_at_length.
Qed.

Lemma nth_error_loop n : forall i l j,
  nth_error (Rain.loop n i l) j
  = if ((j mod 3 =? 1) && (i <=? j / 3) && (j / 3 <? i + n))%nat
    then option_map Rain.fall (nth_error l j)
    else nth_error l j.
Proof.
  induction n as [|n IH]; intros i l j; cbn [Rain.loop].
  - replace (j / 3 <? i + 0)%nat with (j / 3 <? i)%nat by (f_equal; lia).
    destruct (j mod 3 =? 1)%nat; cbn [andb]; [|reflexivity].
    destruct (i <=? j / 3)%nat eqn:A; destruct (j / 3 <? i)%nat eqn:B;
      cbn [andb]; try reflexivity.
    apply Nat.leb_le in A. apply Nat.ltb_lt in B. lia.
  - rewrite IH, nth_error_update_at.
    pose proof (Nat.div_mod_eq j 3) as Hdm.
    pose proof (Nat.mod_upper_bound j 3 ltac:(lia)) as Hmb.
    destruct (j =? i * 3 + 1)%nat eqn:E.
    + apply Nat.eqb_eq in E.
      assert (Hq : (j / 3 = i)%nat) by lia.
      assert (Hm : (j mod 3 = 1)%nat) by lia.
      rewrite Hm, Hq. cbn [Nat.eqb andb].
      replace (S i <=? i)%nat with false by (symmetry; apply Nat.leb_gt; lia).
      replace (i <=? i)%nat with true by (symmetry; apply Nat.leb_le; lia).
      replace (i <? i + S n)%nat with true by (symmetry; apply Nat.ltb_lt; lia).
      reflexivity.
    + apply Nat.eqb_neq in E.
      destruct (j mod 3 =? 1)%nat eqn:M; cbn [andb]; [|reflexivity].
      apply Nat.eqb_eq in M.
      assert (Hq : (j / 3 <> i)%nat) by lia.
      destruct (S i <=? j / 3)%nat eqn:A; destruct (i <=? j / 3)%nat eqn:A';
        destruct (j / 3 <? S i + n)%nat eqn:B; destruct (j / 3 <? i + S n)%nat eqn:B';
        cbn [andb]; try reflexivity; exfalso;
        repeat match goal with
               | H : (_ <=? _)%nat = true |- _ => apply Nat.leb_le in H
               | H : (_ <=? _)%nat = false |- _ => apply Nat.leb_gt in H
               | H : (_ <? _)%nat = true |- _ => apply Nat.ltb_lt in H
               | H : (_ <? _)%nat = false |- _ => apply Nat.ltb_ge in H
               end; lia.
Qed.

Lemma fall_in_range y : 0 <= y -> y <= 800 -> 0 <= Rain.fall y /\ Rain.fall y <= 800.
Proof.
  intros H0 H1. unfold Rain.fall. cbv zeta. case_lt (y - 8) 0; split; lra.
Qed.

Lemma nth_error_rain positions j :
  nth_error (snd (Rain.animate Weather.rain positions)) j
  = if (j mod 3 =? 1)%nat then option_map Rain.fall (nth_error positions j)
    else nth_error positions j.
Proof.
  unfold Rain.animate. cbv zeta. cbn [snd]. rewrite nth_error_loop.
  destruct (j mod 3 =? 1)%nat; cbn [andb]; [|reflexivity].
  cbn [Nat.leb Nat.add].
  destruct (j / 3 <? Rain.particles positions)%nat eqn:B; [reflexivity|].
  apply Nat.ltb_ge in B. unfold Rain.particles in B.
  assert (Hlen : (List.length positions <= j)%nat).
  { pose proof (Nat.div_mod_eq j 3). pose proof (Nat.mod_upper_bound j 3 ltac:(lia)).
    pose proof (Nat.div_mod_eq (List.length positions + 2) 3).
    pose proof (Nat.mod_upper_bound (List.length positions + 2) 3 ltac:(lia)). lia. }
  apply nth_error_None in Hlen. rewrite Hlen. reflexivity.
Qed.

(** X18. The rain part of a frame.  Without rain the particle array is left
    as it is and the rain is invisible.  In rain the array keeps its length,
    the entries 1, 4, 7, ... (the heights) each fall by 8, going back to
    800 when that would take them below the ground, and every other entry
    is unchanged.  So heights that are all within [0,800] stay within
    [0,800], in any weather. *)
Theorem rain_frame (weather : Weather.t) (positions : list number) :
  let opacity := fst (Rain.animate weather positions) in
  let positions' := snd (Rain.animate weather positions) in
  List.length positions' = List.length positions
  /\ (weather <> Weather.rain -> positions' = positions /\ opacity = 0)
  /\ (weather = Weather.rain ->
      opacity = 0.6
      /\ forall j,
           nth_error positions' j
           = if (j mod 3 =? 1)%nat then option_map Rain.fall (nth_error positions j)
             else nth_error positions j)
  /\ (forall y, (8 <= y -> Rain.fall y == y - 8) /\ (y < 8 -> Rain.fall y == 800))
  /\ (heights_in_range positions -> heights_in_range positions').
Proof.
  cbv zeta. split; [|split; [|split; [|split]]].
  - unfold Rain.animate. cbv zeta. cbn [snd].
    destruct weather; try reflexivity. apply loop_length.
  - intros H. destruct weather; try (split; reflexivity). congruence.
  - intros ->. split; [reflexivity | apply nth_error_rain].
  - intros y. unfold Rain.fall. cbv zeta.
    case_lt (y - 8) 0; split; intros H; try reflexivity; lra.
  - intros Hr. destruct weather; try exact Hr.
    intros j y Hj Hy. rewrite nth_error_rain in Hy.
    apply Nat.eqb_eq in Hj. rewrite Hj in Hy.
    destruct (nth_error positions j) as [y0|] eqn:E; [|discriminate].
    cbn in Hy. injection Hy as <-.
    apply Nat.eqb_eq in Hj. destruct (Hr j y0 Hj E) as [A B].
    apply fall_in_range; assumption.
Qed.

Example rain_frame_example :
  snd (Rain.animate Weather.rain [1; 5; 2; 3; 800; 4]) = [1; 800; 2; 3; 800 - 8; 4].
Proof. reflexivity. Qed.

Lemma rain_frame_witness :
  heights_in_range (snd (Rain.animate Weather.rain [1; 5; 2; 3; 800; 4])).
Proof.
  apply (proj2 (proj2 (proj2 (proj2
           (rain_frame Weather.rain [1; 5; 2; 3; 800; 4]))))).
  intros j y Hj Hy.
  destruct j as [|[|[|[|[|[|j]]]]]]; cbn in Hj, Hy; try discriminate;
    try (injection Hy as <-; split; discriminate).
  destruct j; discriminate.
Defined.

(** ** The procedural forms *)

Lemma all_meshes_app a b : all_meshes (a ++ b) = all_meshes a ++ all_meshes b.
Proof. apply flat_map_app. Qed.

Lemma Forall_meshes_app (P : THREE.Mesh -> Prop) a b :
  Forall P (all_meshes a) -> Forall P (all_meshes b) -> Forall P (all_meshes (a ++ b)).
Proof. intros. rewrite all_meshes_app. apply Forall_app. tauto. Qed.

Lemma Forall_meshes_cons (P : THREE.Mesh -> Prop) m l :
  P m -> Forall P (all_meshes l) -> Forall P (all_meshes (THREE.AMesh m :: l)).
Proof. intros. cbn. constructor; assumption. Qed.

Lemma Forall_meshes_each (P : THREE.Mesh -> Prop) l :
  Forall (fun o => Forall P (THREE.meshes o)) l -> Forall P (all_meshes l).
Proof.
  induction 1; cbn; [constructor|]. apply Forall_app. tauto.
Qed.

Lemma Forall_meshes_map {A} (P : THREE.Mesh -> Prop) (g : A -> THREE.Mesh) l :
  (forall a, In a l -> P (g a)) ->
  Forall P (all_meshes (map (fun a => THREE.AMesh (g a)) l)).
Proof.
  induction l as [|a l IH]; intros H; cbn; [constructor|].
  constructor; [apply H; left; reflexivity|].
  apply IH. intros b Hb. apply H. right. exact Hb.
Qed.

Lemma Forall_meshes_flat_map {A} (P : THREE.Mesh -> Prop)
    (f : A -> list THREE.Object3D) l :
  (forall a, In a l -> Forall P (all_meshes (f a))) ->
  Forall P (all_meshes (flat_map f l)).
Proof.
  induction l as [|a l IH]; intros H; cbn [flat_map]; [constructor|].
  apply Forall_meshes_app; [apply H; left; reflexivity|].
  apply IH. intros b Hb. apply H. right. exact Hb.
Qed.

Lemma piles_loop_S n w d isGhost pileMat s :
  Procedural.piles_loop (S n) w d isGhost pileMat s
  = (pile_of w d isGhost pileMat
       (Math.draws s (Math.cursor s))
       (Math.draws s (S (Math.cursor s)))
       (Math.draws s (S (S (Math.cursor s))))
     :: fst (Procedural.piles_loop n w d isGhost pileMat
               {| Math.draws := Math.draws s;
                  Math.cursor := S (S (S (Math.cursor s))) |}),
     snd (Procedural.piles_loop n w d isGhost pileMat
            {| Math.draws := Math.draws s;
               Math.cursor := S (S (S (Math.cursor s))) |})).
Proof.
  cbn [Procedural.piles_loop]. unfold Math.random.
  cbn [Math.draws Math.cursor].
  destruct (Procedural.piles_loop n w d isGhost pileMat _) as [rest s'].
  reflexivity.
Qed.

Lemma trees_loop_S n w d trunkMat leavesMat s :
  Procedural.trees_loop (S n) w d trunkMat leavesMat s
  = (tree_of w d trunkMat leavesMat
       (Math.draws s (Math.cursor s))
       (Math.draws s (S (Math.cursor s)))
     :: fst (Procedural.trees_loop n w d trunkMat leavesMat
               {| Math.draws := Math.draws s;
                  Math.cursor := S (S (Math.cursor s)) |}),
     snd (Procedural.trees_loop n w d trunkMat leavesMat
            {| Math.draws := Math.draws s;
               Math.cursor := S (S (Math.cursor s)) |})).
Proof.
  cbn [Procedural.trees_loop]. unfold Math.random.
  cbn [Math.draws Math.cursor].
  destruct (Procedural.trees_loop n w d trunkMat leavesMat _) as [rest s'].
  reflexivity.
Qed.

(** The piles are made from consecutive draws, three for each. *)
Lemma piles_loop_spec n w d isGhost pileMat : forall s,
  fst (Procedural.piles_loop n w d isGhost pileMat s)
  = map (fun i =>
           pile_of w d isGhost pileMat
             (Math.draws s (Math.cursor s + 3 * i))
             (Math.draws s (Math.cursor s + 3 * i + 1))
             (Math.draws s (Math.cursor s + 3 * i + 2)))
      (seq 0 n)
  /\ Math.draws (snd (Procedural.piles_loop n w d isGhost pileMat s)) = Math.draws s
  /\ Math.cursor (snd (Procedural.piles_loop n w d isGhost pileMat s))
     = (Math.cursor s + 3 * n)%nat.
Proof.
  induction n as [|n IH]; intros s.
  - cbn. split; [reflexivity|]. split; [reflexivity|lia].
  - rewrite piles_loop_S. cbn [fst snd].
    destruct (IH {| Math.draws := Math.draws s;
                    Math.cursor := S (S (S (Math.cursor s))) |}) as [E1 [E2 E3]].
    cbn [Math.draws Math.cursor] in *.
    split; [|split].
    + cbn [seq map]. f_equal.
      * rewrite Nat.mul_0_r, !Nat.add_0_r.
        replace (Math.cursor s + 1)%nat with (S (Math.cursor s)) by lia.
        replace (Math.cursor s + 2)%nat with (S (S (Math.cursor s))) by lia.
        reflexivity.
      * rewrite E1. rewrite <- seq_shift, map_map. apply map_ext. intros i.
        f_equal; f_equal; lia.
    + exact E2.
    + rewrite E3. lia.
Qed.

(** The trees are made from consecutive draws, two for each. *)
Lemma trees_loop_spec n w d trunkMat leavesMat : forall s,
  fst (Procedural.trees_loop n w d trunkMat leavesMat s)
  = map (fun i =>
           tree_of w d trunkMat leavesMat
             (Math.draws s (Math.cursor s + 2 * i))
             (Math.draws s (Math.cursor s + 2 * i + 1)))
      (seq 0 n)
  /\ Math.draws (snd (Procedural.trees_loop n w d trunkMat leavesMat s)) = Math.draws s
  /\ Math.cursor (snd (Procedural.trees_loop n w d trunkMat leavesMat s))
     = (Math.cursor s + 2 * n)%nat.
Proof.
  induction n as [|n IH]; intros s.
  - cbn. split; [reflexivity|]. split; [reflexivity|lia].
  - rewrite trees_loop_S. cbn [fst snd].
    destruct (IH {| Math.draws := Math.draws s;
                    Math.cursor := S (S (Math.cursor s)) |}) as [E1 [E2 E3]].
    cbn [Math.draws Math.cursor] in *.
    split; [|split].
    + cbn [seq map]. f_equal.
      * rewrite Nat.mul_0_r, !Nat.add_0_r.
        replace (Math.cursor s + 1)%nat with (S (Math.cursor s)) by lia.
        reflexivity.
      * rewrite E1. rewrite <- seq_shift, map_map. apply map_ext. intros i.
        f_equal; f_equal; lia.
    + exact E2.
    + rewrite E3. lia.
Qed.

Lemma form_landfill type variant isGhost s :
  BuildingCategory_eqb (BuildingType.category type) UTILITY
  && Procedural.includes (BuildingType.id type) "landfill" = true ->
  exists fence,
    form type variant isGhost s
    = map (fun i =>
             pile_of (BuildingType.width type * TILE_SIZE)
               (BuildingType.depth type * TILE_SIZE) isGhost
               (Procedural.createMat isGhost "#713f12" 0.9 0.0 false)
               (Math.draws s (Math.cursor s + 3 * i))
               (Math.draws s (Math.cursor s + 3 * i + 1))
               (Math.draws s (Math.cursor s + 3 * i + 2)))
        (seq 0 (Procedural.below
                  (Math.max 3 (BuildingType.width type * TILE_SIZE * 0.5))))
      ++ (if isGhost then [] else [THREE.AMesh fence])
    /\ THREE.wireframe (THREE.material fence) = true
    /\ THREE.geometry fence
       = THREE.BoxGeometry (BuildingType.width type * TILE_SIZE) 2
           (BuildingType.depth type * TILE_SIZE)
    /\ THREE.position fence = {| THREE.x := 0; THREE.y := 1; THREE.z := 0 |}.
Proof.
  intros H. unfold form, Procedural.createProceduralBuilding. cbv zeta.
  rewrite H.
  match goal with
  | |- context [Procedural.piles_loop ?n ?w ?d ?g ?m ?s] =>
      pose proof (piles_loop_spec n w d g m s) as [E _];
      destruct (Procedural.piles_loop n w d g m s) as [heap s']
  end.
  cbn [fst] in *. rewrite E.
  eexists. split; [|split; [|split]].
  - destruct isGhost; cbn [negb].
    + reflexivity.
    + reflexivity.
  - reflexivity.
  - reflexivity.
  - reflexivity.
Qed.

Lemma form_park type variant isGhost s :
  BuildingCategory_eqb (BuildingType.category type) UTILITY
  && Procedural.includes (BuildingType.id type) "landfill" = false ->
  BuildingType.category type = DECORATION ->
  exists trunkMat leavesMat,
    form type variant isGhost s
    = THREE.AMesh
        (THREE.mesh_at
           (THREE.BoxGeometry (BuildingType.width type * TILE_SIZE) 1
              (BuildingType.depth type * TILE_SIZE))
           (Procedural.createMat isGhost "#166534" 0.9 0 false) 0 0.5 0)
      :: (if isGhost then []
          else map (fun i =>
                      tree_of (BuildingType.width type * TILE_SIZE)
                        (BuildingType.depth type * TILE_SIZE) trunkMat leavesMat
                        (Math.draws s (Math.cursor s + 2 * i))
                        (Math.draws s (Math.cursor s + 2 * i + 1)))
                 (seq 0 (Procedural.below
                           (Math.max 1
                              (BuildingType.width type * TILE_SIZE
                               * (BuildingType.depth type * TILE_SIZE) / 50)))))
    /\ (exists c, trunkMat = Procedural.createMat isGhost c 1 0 false)
    /\ (exists c, leavesMat = Procedural.createMat isGhost c 0.8 0 false).
Proof.
  intros H D. unfold form, Procedural.createProceduralBuilding. cbv zeta.
  rewrite H, D. cbn [BuildingCategory_eqb].
  destruct isGhost; cbn [negb].
  - exists (Procedural.createMat true "" 1 0 false),
           (Procedural.createMat true "" 0.8 0 false).
    split; [reflexivity|]. split; eexists; reflexivity.
  - match goal with
    | |- context [Procedural.trees_loop ?n ?w ?d ?t ?l ?s] =>
        pose proof (trees_loop_spec n w d t l s) as [E _];
        destruct (Procedural.trees_loop n w d t l s) as [wood s'];
        exists t, l
    end.
    cbn [fst] in *. rewrite E.
    split; [reflexivity|]. split; eexists; reflexivity.
Qed.

Ltac mesh_fields :=
  cbn [THREE.castShadow THREE.receiveShadow THREE.material THREE.transparent
       THREE.opacity THREE.wireframe THREE.geometry THREE.position THREE.name
       THREE.emissive THREE.emissiveIntensity THREE.color THREE.kind
       THREE.rotation_y THREE.x THREE.y THREE.z
       THREE.shadows THREE.named THREE.mesh_at THREE.rotated_y
       Procedural.createMat negb] in *.

Ltac each_mesh :=
  repeat first
    [ apply Forall_nil
    | apply Forall_meshes_cons
    | apply Forall_meshes_app
    | apply Forall_meshes_map; intros
    | apply Forall_meshes_flat_map; intros; unfold Procedural.eco_step; cbv zeta;
      cbn [negb]; rewrite ?Bool.andb_false_r, ?Bool.andb_true_r
    | match goal with
      | |- Forall _ (all_meshes (if ?b then _ else _)) => destruct b
      end ].

Lemma Forall_meshes_trees (P : THREE.Mesh -> Prop) w d trunkMat leavesMat
    (f g : nat -> number) l :
  (forall m, In m (THREE.meshes (tree_of w d trunkMat leavesMat 0 0)) -> P m) ->
  Forall P (all_meshes (map (fun i => tree_of w d trunkMat leavesMat (f i) (g i)) l)).
Proof.
  intros H. apply Forall_meshes_each. apply Forall_map.
  apply Forall_forall. intros i _. apply Forall_forall. intros m Hm.
  apply H. exact Hm.
Qed.

(** X19. The preview form is bare: whatever the type, the variant and the
    draws, none of its meshes throws or takes a shadow and each is
    transparent with opacity at most 0.6.  In the committed form every mesh
    that is not a wire frame is fully opaque. *)
Theorem preview_form_is_bare (type : BuildingType.t) (variant : number)
    (s : Math.source) :
  Forall bare (all_meshes (form type variant true s))
  /\ Forall solid (all_meshes (form type variant false s)).
Proof.
  destruct (BuildingCategory_eqb (BuildingType.category type) UTILITY
            && Procedural.includes (BuildingType.id type) "landfill") eqn:L.
  { split.
    - destruct (form_landfill type variant true s L) as [fence [E _]]. rewrite E.
      each_mesh. unfold bare. mesh_fields. repeat split; lra.
    - destruct (form_landfill type variant false s L) as [fence [E [W _]]]. rewrite E.
      each_mesh.
      + unfold solid. mesh_fields. intros _. split; [reflexivity | lra].
      + unfold solid. rewrite W. discriminate. }
  destruct (BuildingCategory_eqb (BuildingType.category type) DECORATION) eqn:D.
  { assert (D' : BuildingType.category type = DECORATION)
      by (destruct (BuildingType.category type); try discriminate; reflexivity).
    split.
    - destruct (form_park type variant true s L D') as [t [l [E _]]]. rewrite E.
      each_mesh. unfold bare. mesh_fields. repeat split; lra.
    - destruct (form_park type variant false s L D') as [t [l [E [[c1 ->] [c2 ->]]]]].
      rewrite E. apply Forall_meshes_cons.
      + unfold solid. mesh_fields. intros _. split; [reflexivity | lra].
      + apply Forall_meshes_trees. intros m [<- | [<- | []]];
          unfold solid; mesh_fields; intros _; (split; [reflexivity | lra]). }
  unfold form, Procedural.createProceduralBuilding. cbv zeta. rewrite L, D.
  cbn [negb].
  split.
  - repeat match goal with
           | |- context [if ?b then _ else _] => destruct b
           end; cbn [fst negb andb app]; each_mesh;
      repeat match goal with
             | |- context [if ?b then _ else _] => destruct b
             end;
      unfold bare; mesh_fields; repeat split; lra.
  - repeat match goal with
           | |- context [if ?b then _ else _] => destruct b
           end; cbn [fst negb andb app]; each_mesh;
      repeat match goal with
             | |- context [if ?b then _ else _] => destruct b
             end;
      unfold solid; mesh_fields; intros W;
      first [discriminate W | split; [reflexivity | lra]].
Qed.

(** ** Every placed structure is drawn *)

Lemma rem_3_small v : 0 <= v -> v < 3 -> JS.rem v 3 == v.
Proof.
  intros H0 H3. unfold JS.rem.
  assert (E : JS.trunc (v / 3) = 0%Z).
  { rewrite trunc_floor by qlra. apply floor_unique; change (inject_Z 0) with 0; qlra. }
  rewrite E. change (inject_Z 0) with 0. lra.
Qed.

Lemma style_of_variant v :
  is_style v ->
  JS.eq (JS.rem v 3) 0 = true \/ JS.eq (JS.rem v 3) 1 = true
  \/ JS.eq (JS.rem v 3) 2 = true.
Proof.
  intros H. unfold JS.eq.
  assert (E : JS.rem v 3 == v) by (apply rem_3_small; destruct H as [H | [H | H]]; lra).
  destruct H as [H | [H | H]]; [left | right; left | right; right];
    apply Qeq_bool_iff; lra.
Qed.

Lemma below_pos q : 0 < q -> exists n, Procedural.below q = S n.
Proof.
  intros H. unfold Procedural.below.
  assert (Hc : (0 < Qceiling q)%Z).
  { pose proof (Qle_ceiling q) as Hq. rewrite Zlt_Qlt. change (inject_Z 0) with 0. lra. }
  exists (Z.to_nat (Qceiling q - 1)). lia.
Qed.

Lemma max_cases a b :
  (a < b /\ Math.max a b = b) \/ (b <= a /\ Math.max a b = a).
Proof.
  unfold Math.max. destruct (JS.lt a b) eqn:E.
  - left. apply JS_lt_true in E. tauto.
  - right. apply JS_lt_false in E. tauto.
Qed.

Lemma min_cases a b :
  (b < a /\ Math.min a b = b) \/ (a <= b /\ Math.min a b = a).
Proof.
  unfold Math.min. destruct (JS.lt b a) eqn:E.
  - left. apply JS_lt_true in E. tauto.
  - right. apply JS_lt_false in E. tauto.
Qed.

Lemma max_ge_l a b : a <= Math.max a b.
Proof.
  destruct (max_cases a b) as [[H ->] | [H ->]]; lra.
Qed.

Lemma max_ge_r a b : b <= Math.max a b.
Proof.
  destruct (max_cases a b) as [[H ->] | [H ->]]; lra.
Qed.

Lemma form_nonempty type variant isGhost s :
  (JS.eq (JS.rem variant 3) 0 = true \/ JS.eq (JS.rem variant 3) 1 = true
   \/ JS.eq (JS.rem variant 3) 2 = true) ->
  form type variant isGhost s <> [].
Proof.
  intros Hstyle.
  destruct (BuildingCategory_eqb (BuildingType.category type) UTILITY
            && Procedural.includes (BuildingType.id type) "landfill") eqn:L.
  { destruct (form_landfill type variant isGhost s L) as [fence [E _]]. rewrite E.
    destruct (below_pos (Math.max 3 (BuildingType.width type * TILE_SIZE * 0.5)))
      as [n ->].
    - pose proof (max_ge_l 3 (BuildingType.width type * TILE_SIZE * 0.5)). lra.
    - discriminate. }
  destruct (BuildingCategory_eqb (BuildingType.category type) DECORATION) eqn:D.
  { assert (D' : BuildingType.category type = DECORATION)
      by (destruct (BuildingType.category type); try discriminate; reflexivity).
    destruct (form_park type variant isGhost s L D') as [t [l [E _]]]. rewrite E.
    discriminate. }
  unfold form, Procedural.createProceduralBuilding. cbv zeta. rewrite L, D.
  destruct (negb (existsb _ _)); [discriminate|].
  destruct (JS.eq (JS.rem variant 3) 0) eqn:S0.
  { destruct (JS.gt _ 15); discriminate. }
  destruct (JS.eq (JS.rem variant 3) 1) eqn:S1; [discriminate|].
  destruct (JS.eq (JS.rem variant 3) 2) eqn:S2.
  - cbn [fst].
    match goal with
    | |- context [Procedural.below ?q] => destruct (below_pos q) as [n ->]
    end.
    + match goal with |- 0 < Math.max 1 ?b => pose proof (max_ge_l 1 b) end. lra.
    + cbn [seq flat_map]. unfold Procedural.eco_step at 1. cbv zeta.
      cbn [app]. discriminate.
  - destruct Hstyle as [H | [H | H]]; discriminate.
Qed.

Lemma reachable_drawable st :
  reachable st -> Forall drawable (App.buildings st).
Proof.
  intros Hst. pose proof (reachable_styles st Hst) as [_ Hstyled].
  assert (Hres : Forall resolvable (App.buildings st)).
  { clear Hstyled. induction Hst as [|e st Hst IH]; [constructor|].
    destruct (step_buildings e st)
      as [E | [[id E] | [p [sel [bT [gh [_ [_ [Hty [_ [_ E]]]]]]]]]]]; rewrite E.
    - exact IH.
    - apply Forall_filter. exact IH.
    - apply Forall_app. split; [exact IH|]. constructor; [|constructor].
      unfold resolvable, committed. cbn [PlacedBuilding.typeId]. congruence. }
  apply Forall_forall. intros b Hb. split.
  - rewrite Forall_forall in Hres. auto.
  - rewrite Forall_forall in Hstyled. auto.
Qed.

Lemma renderBuildings_drawable bs :
  Forall drawable bs ->
  forall s,
    map Procedural.userData_id (fst (Procedural.renderBuildings bs s)) = ids bs
    /\ map Procedural.position (fst (Procedural.renderBuildings bs s)) = map seat bs
    /\ Forall (fun r => Procedural.children r <> [])
         (fst (Procedural.renderBuildings bs s)).
Proof.
  induction 1 as [|b bs [Hres [v [Hv Hs]]] Hbs IH]; intros s.
  - cbn. repeat split; constructor.
  - cbn [Procedural.renderBuildings].
    unfold resolvable in Hres.
    destruct (findType (PlacedBuilding.typeId b)) as [bType|]; [|congruence].
    rewrite Hv.
    set (variant := if JS.eq v 0 then 0 else v).
    assert (Hstyle : is_style variant).
    { unfold variant. destruct (JS.eq v 0); [left; reflexivity | exact Hs]. }
    pose proof (form_nonempty bType variant false s (style_of_variant _ Hstyle)) as Hne.
    unfold form in Hne.
    destruct (Procedural.createProceduralBuilding bType variant false s)
      as [buildingMesh s1].
    destruct (IH s1) as [I1 [I2 I3]].
    destruct (Procedural.renderBuildings bs s1) as [others s'].
    cbn [fst map Procedural.userData_id Procedural.position Procedural.children] in *.
    split; [|split].
    + unfold ids in *. cbn [map]. rewrite I1. reflexivity.
    + rewrite I2. reflexivity.
    + constructor; [exact Hne | exact I3].
Qed.

(** X20. In every reachable state the effect draws every placed structure:
    the group holds one form for each, in the order of the list, tagged
    with the identifier of the structure, seated at its cell at height 2,
    and no form is empty.  A structure whose type is not in the catalog is
    passed over without a draw. *)
Theorem every_structure_is_drawn (st : App.state) (s : Math.source) :
  reachable st ->
  map Procedural.userData_id (drawn st s) = ids (App.buildings st)
  /\ map Procedural.position (drawn st s) = map seat (App.buildings st)
  /\ Forall (fun r => Procedural.children r <> []) (drawn st s)
  /\ (forall b bs s',
        findType (PlacedBuilding.typeId b) = None ->
        Procedural.renderBuildings (b :: bs) s' = Procedural.renderBuildings bs s').
Proof.
  intros Hst.
  destruct (renderBuildings_drawable _ (reachable_drawable st Hst) s) as [H1 [H2 H3]].
  split; [exact H1|]. split; [exact H2|]. split; [exact H3|].
  intros b bs s' H. cbn [Procedural.renderBuildings]. rewrite H. reflexivity.
Qed.

Lemma every_structure_is_drawn_witness :
  map Procedural.userData_id (drawn spree (constant_source 0.5)) = ids (App.buildings spree).
Proof.
  apply (every_structure_is_drawn spree (constant_source 0.5)).
  unfold spree. apply reachable_steps. apply reachable_step. apply reachable_initial.
Defined.

(** ** The eco form is a stepped stack *)

Lemma zoned_branch type :
  zoned type ->
  BuildingCategory_eqb (BuildingType.category type) UTILITY
  && Procedural.includes (BuildingType.id type) "landfill" = false
  /\ BuildingCategory_eqb (BuildingType.category type) DECORATION = false
  /\ existsb (BuildingCategory_eqb (BuildingType.category type))
       [RESIDENTIAL; COMMERCIAL; OFFICE; INDUSTRIAL] = true.
Proof.
  unfold zoned. intros [H | [H | [H | [H | []]]]]; rewrite <- H; repeat split.
Qed.

Lemma style_2 variant :
  JS.rem variant 3 == 2 ->
  JS.eq (JS.rem variant 3) 0 = false
  /\ JS.eq (JS.rem variant 3) 1 = false
  /\ JS.eq (JS.rem variant 3) 2 = true.
Proof.
  intros H. unfold JS.eq. repeat split.
  - apply not_true_iff_false. intros E. apply Qeq_bool_iff in E. lra.
  - apply not_true_iff_false. intros E. apply Qeq_bool_iff in E. lra.
  - apply Qeq_bool_iff. exact H.
Qed.

Lemma num_S i : Procedural.num (S i) == Procedural.num i + 1.
Proof.
  unfold Procedural.num. rewrite Nat2Z.inj_succ, <- Z.add_1_r, inject_Z_plus.
  reflexivity.
Qed.

Lemma num_nonneg i : 0 <= Procedural.num i.
Proof.
  unfold Procedural.num. change 0 with (inject_Z 0). rewrite <- Zle_Qle. lia.
Qed.

(** The number of steps is a whole number, at least one, and the loop runs
    that many times. *)
Lemma steps_whole h :
  1 <= Math.max 1 (Math.floor (h / 6))
  /\ Procedural.num (Procedural.below (Math.max 1 (Math.floor (h / 6))))
     == Math.max 1 (Math.floor (h / 6)).
Proof.
  split; [apply max_ge_l|].
  assert (W : forall z : Z, (1 <= z)%Z ->
                Procedural.num (Procedural.below (inject_Z z)) == inject_Z z).
  { intros z Hz. unfold Procedural.num, Procedural.below.
    rewrite Qceiling_Z, Z2Nat.id by lia. reflexivity. }
  destruct (max_cases 1 (Math.floor (h / 6))) as [[H ->] | [H ->]].
  - unfold Math.floor in *. apply W.
    change 1 with (inject_Z 1) in H. rewrite <- Zlt_Qlt in H. lia.
  - apply (W 1%Z). lia.
Qed.

Lemma max_mono a b c : b <= c -> Math.max a b <= Math.max a c.
Proof.
  intros H.
  destruct (max_cases a b) as [[H1 ->] | [H1 ->]];
    destruct (max_cases a c) as [[H2 ->] | [H2 ->]]; lra.
Qed.

Lemma eco_step_preview w d h steps wallMat woodMat grassMat glassMat i :
  Procedural.eco_step w d h steps true wallMat woodMat grassMat glassMat i
  = [THREE.AMesh
       (THREE.shadows false false
          (THREE.mesh_at
             (THREE.BoxGeometry (Math.max 2 (w - 2 - i * 1.5)) (h / steps)
                (Math.max 2 (d - 2 - i * 1.5)))
             (if JS.eq (JS.rem i 2) 0 then wallMat else woodMat)
             0 ((i * (h / steps)) + (h / steps) / 2) 0))].
Proof.
  unfold Procedural.eco_step. cbv zeta. cbn [negb].
  rewrite !Bool.andb_false_r. reflexivity.
Qed.

Lemma eco_step_casts w d h steps wallMat woodMat grassMat glassMat
    wallMat' woodMat' grassMat' glassMat' i :
  map outline
    (filter casts
       (Procedural.eco_step w d h steps false wallMat woodMat grassMat glassMat i))
  = map outline
      (Procedural.eco_step w d h steps true wallMat' woodMat' grassMat' glassMat' i).
Proof.
  rewrite eco_step_preview.
  unfold Procedural.eco_step. cbv zeta. cbn [negb].
  destruct (JS.eq (JS.rem i 2) 0 && true); destruct (JS.gt i 0 && true);
    reflexivity.
Qed.

Lemma filter_flat_map {A B} (p : B -> bool) (f : A -> list B) l :
  filter p (flat_map f l) = flat_map (fun a => filter p (f a)) l.
Proof.
  induction l as [|a l IH]; cbn [flat_map]; [reflexivity|].
  rewrite filter_app, IH. reflexivity.
Qed.

Lemma map_flat_map {A B C} (g : B -> C) (f : A -> list B) l :
  map g (flat_map f l) = flat_map (fun a => map g (f a)) l.
Proof.
  induction l as [|a l IH]; cbn [flat_map]; [reflexivity|].
  rewrite map_app, IH. reflexivity.
Qed.

Lemma stacked_steps w d h steps wallMat woodMat grassMat glassMat n :
  forall k base under top,
    base == Procedural.num k * (h / steps) ->
    top == Procedural.num (k + n) * (h / steps) ->
    match under with
    | Some (pw, pd) =>
        Math.max 2 (w - 2 - Procedural.num k * 1.5) <= pw
        /\ Math.max 2 (d - 2 - Procedural.num k * 1.5) <= pd
    | None => True
    end ->
    stacked base under
      (flat_map (fun i =>
                   Procedural.eco_step w d h steps true wallMat woodMat grassMat
                     glassMat (Procedural.num i))
         (seq k n))
      top.
Proof.
  induction n as [|n IH]; intros k base under top Hb Ht Hu.
  - cbn [seq flat_map stacked]. rewrite Nat.add_0_r in Ht. rewrite Hb, Ht. reflexivity.
  - cbn [seq flat_map]. rewrite eco_step_preview. cbn [app stacked].
    mesh_fields.
    split; [reflexivity|]. split; [reflexivity|].
    split; [rewrite Hb; unfold Qdiv; ring|].
    split; [apply max_ge_l|]. split; [apply max_ge_l|].
    split; [exact Hu|].
    apply IH.
    + rewrite Hb, num_S. ring.
    + rewrite Ht. replace (k + S n)%nat with (S k + n)%nat by lia. reflexivity.
    + pose proof (num_S k) as HS.
      split; apply max_mono; rewrite HS; lra.
Qed.

(** X21. The eco form of a zoned type is a stepped stack.  Its preview is
    exactly a pile of boxes centred on the axis that starts on the ground,
    has no gap between a step and the next, ends at the height of the type,
    and whose steps are at least two units wide and deep and never wider or
    deeper than the step under them.  The meshes of the committed form that
    throw a shadow are the same boxes at the same places. *)
Theorem eco_steps_stack (type : BuildingType.t) (variant : number) (s : Math.source) :
  zoned type ->
  JS.rem variant 3 == 2 ->
  stacked 0 None (form type variant true s) (BuildingType.height type * TILE_SIZE)
  /\ map outline (filter casts (form type variant false s))
     = map outline (form type variant true s).
Proof.
  intros Hz Hs.
  destruct (zoned_branch type Hz) as [L [D Z]].
  destruct (style_2 variant Hs) as [S0 [S1 S2]].
  unfold form, Procedural.createProceduralBuilding. cbv zeta.
  rewrite L, D, Z, S0, S1, S2. cbn [negb fst].
  set (h := BuildingType.height type * TILE_SIZE).
  destruct (steps_whole h) as [H1 Hn].
  split.
  - rewrite app_nil_r. apply stacked_steps.
    + unfold Procedural.num. cbn [Z.of_nat]. change (inject_Z 0) with 0. lra.
    + cbn [Nat.add]. rewrite Hn. field. lra.
    + exact I.
  - rewrite app_nil_r, filter_app, map_app, filter_flat_map, !map_flat_map.
    cbn [filter casts THREE.castShadow THREE.mesh_at map app].
    rewrite app_nil_r. apply flat_map_ext. intros i. apply eco_step_casts.
Qed.

Lemma eco_steps_stack_witness :
  stacked 0 None (form (the_type "res_4x4") 2 true (constant_source 0.5))
    (BuildingType.height (the_type "res_4x4") * TILE_SIZE).
Proof.
  apply (eco_steps_stack (the_type "res_4x4") 2 (constant_source 0.5)).
  - left. reflexivity.
  - reflexivity.
Defined.

(** ** A form stays over its cells *)

Ltac bounds :=
  repeat match goal with
         | |- context [Math.max ?a ?b] =>
             destruct (max_cases a b) as [[? ->] | [? ->]]
         | |- context [Math.min ?a ?b] =>
             destruct (min_cases a b) as [[? ->] | [? ->]]
         end.

(** X22. The form of a type that is not scattered by draws stays over the
    cells of the type: when the type is at least one cell wide and deep,
    every mesh of the form, preview or committed, in any style, is a box or
    a cone centred on the axis of the group and no wider or deeper than the
    rectangle of the type. *)
Theorem form_stays_over_its_cells (type : BuildingType.t) (variant : number)
    (isGhost : bool) (s : Math.source) :
  scattered type = false ->
  1 <= BuildingType.width type ->
  1 <= BuildingType.depth type ->
  Forall (within (BuildingType.width type * TILE_SIZE)
            (BuildingType.depth type * TILE_SIZE))
    (all_meshes (form type variant isGhost s)).
Proof.
  intros Hsc Hw Hd. unfold scattered in Hsc.
  apply Bool.orb_false_iff in Hsc. destruct Hsc as [L D].
  unfold form, Procedural.createProceduralBuilding. cbv zeta. rewrite L, D.
  assert (Hw' : 10 <= BuildingType.width type * TILE_SIZE) by (unfold TILE_SIZE; lra).
  assert (Hd' : 10 <= BuildingType.depth type * TILE_SIZE) by (unfold TILE_SIZE; lra).
  set (w := BuildingType.width type * TILE_SIZE) in *.
  set (d := BuildingType.depth type * TILE_SIZE) in *.
  set (h := BuildingType.height type * TILE_SIZE) in *.
  pose proof (max_ge_l 1 (Math.floor (h / 6))) as Hsteps.
  set (steps := Math.max 1 (Math.floor (h / 6))) in *.
  clearbody w d h steps. clear Hw Hd.
  destruct isGhost; cbn [negb];
    repeat match goal with
           | |- context [if ?b then _ else _] => destruct b
           end; cbn [fst app]; each_mesh;
    repeat match goal with
           | |- context [if ?b then _ else _] => destruct b
           end;
    repeat match goal with
           | |- context [Procedural.num ?a] =>
               pose proof (num_nonneg a);
               generalize dependent (Procedural.num a); intros
           end;
    unfold within; mesh_fields;
    (split; [reflexivity|]); (split; [reflexivity|]);
    bounds; split; qlra.
Qed.

Lemma form_stays_over_its_cells_witness :
  Forall (within (BuildingType.width (the_type "com_2x2") * TILE_SIZE)
            (BuildingType.depth (the_type "com_2x2") * TILE_SIZE))
    (all_meshes (form (the_type "com_2x2") 1 false (constant_source 0.5))).
Proof.
  apply (form_stays_over_its_cells (the_type "com_2x2") 1 false (constant_source 0.5)).
  - reflexivity.
  - vm_compute. discriminate.
  - vm_compute. discriminate.
Defined.

(** ** Landfills and parks *)

Lemma scatter_bound r c :
  0 <= r -> r < 1 -> 4 <= c ->
  - (c / 2 - 2) <= (r - 0.5) * (c - 4) <= c / 2 - 2.
Proof.
  intros H0 H1 Hc.
  assert (A : 0 <= r * (c - 4)) by (apply Qmult_le_0_compat; lra).
  assert (B : 0 <= (1 - r) * (c - 4)) by (apply Qmult_le_0_compat; lra).
  split.
  - setoid_replace ((r - 0.5) * (c - 4)) with (r * (c - 4) - (c / 2 - 2))
      by field.
    lra.
  - setoid_replace ((r - 0.5) * (c - 4)) with ((c / 2 - 2) - (1 - r) * (c - 4))
      by field.
    lra.
Qed.

Lemma Forall_map_seq {A} (P : A -> Prop) (f : nat -> A) k n :
  (forall i, P (f i)) -> Forall P (map f (seq k n)).
Proof. intros H. apply Forall_map. apply Forall_forall. intros i _. apply H. Qed.

(** X23. A landfill is a heap of piles inside a wire fence.  From draws in
    the range of [Math.random()], for a type at least one cell wide and
    deep: the committed form is the heap followed by the fence, the fence is
    the box of the rectangle of the type, two units high; there are at least
    three piles, as many as the loop bound, each of radius from 2 up to 5,
    seated at half its radius with its centre at least two units inside the
    rectangle; and from the same draws the preview is the heap alone. *)
Theorem landfill_heap (type : BuildingType.t) (variant : number) (s : Math.source) :
  BuildingCategory_eqb (BuildingType.category type) UTILITY
  && Procedural.includes (BuildingType.id type) "landfill" = true ->
  unit_draws s ->
  1 <= BuildingType.width type ->
  1 <= BuildingType.depth type ->
  exists heap fence,
    form type variant false s = heap ++ [THREE.AMesh fence]
    /\ map outline (form type variant true s) = map outline heap
    /\ List.length heap
       = Procedural.below (Math.max 3 (BuildingType.width type * TILE_SIZE * 0.5))
    /\ (3 <= List.length heap)%nat
    /\ Forall (pile_on (BuildingType.width type * TILE_SIZE)
                 (BuildingType.depth type * TILE_SIZE)) heap
    /\ THREE.wireframe (THREE.material fence) = true
    /\ THREE.geometry fence
       = THREE.BoxGeometry (BuildingType.width type * TILE_SIZE) 2
           (BuildingType.depth type * TILE_SIZE)
    /\ THREE.position fence = {| THREE.x := 0; THREE.y := 1; THREE.z := 0 |}.
Proof.
  intros L Hs Hw Hd.
  destruct (form_landfill type variant false s L) as [fence [E [W [G P]]]].
  destruct (form_landfill type variant true s L) as [fence' [E' _]].
  rewrite E, E'. cbn [app].
  eexists. exists fence. split; [reflexivity|].
  split; [|split; [|split; [|split; [|split; [exact W | split; [exact G | exact P]]]]]].
  - rewrite app_nil_r, !map_map. apply map_ext. intros i. reflexivity.
  - rewrite length_map, length_seq. reflexivity.
  - rewrite length_map, length_seq. unfold Procedural.below.
    pose proof (max_ge_l 3 (BuildingType.width type * TILE_SIZE * 0.5)) as H3.
    pose proof (Qle_ceiling (Math.max 3 (BuildingType.width type * TILE_SIZE * 0.5))) as Hc.
    assert (Hz : (3 <= Qceiling (Math.max 3 (BuildingType.width type * TILE_SIZE * 0.5)))%Z).
    { rewrite Zle_Qle. change (inject_Z 3) with 3. lra. }
    lia.
  - assert (Hw' : 4 <= BuildingType.width type * TILE_SIZE) by (unfold TILE_SIZE; lra).
    assert (Hd' : 4 <= BuildingType.depth type * TILE_SIZE) by (unfold TILE_SIZE; lra).
    apply Forall_map_seq. intros i. unfold pile_on, pile_of. mesh_fields.
    destruct (Hs (Math.cursor s + 3 * i)%nat) as [A0 A1].
    destruct (Hs (Math.cursor s + 3 * i + 1)%nat) as [B0 B1].
    destruct (Hs (Math.cursor s + 3 * i + 2)%nat) as [C0 C1].
    split; [lra|]. split; [lra|]. split; [field|].
    split; apply scatter_bound; assumption.
Qed.

Lemma landfill_heap_witness :
  exists heap fence,
    form (the_type "util_landfill_2x2") 0 false (constant_source 0.5)
    = heap ++ [THREE.AMesh fence].
Proof.
  destruct (landfill_heap (the_type "util_landfill_2x2") 0 (constant_source 0.5))
    as [heap [fence [E _]]].
  - reflexivity.
  - intros k. cbn. split; lra.
  - vm_compute. discriminate.
  - vm_compute. discriminate.
  - exists heap, fence. exact E.
Defined.

(** X24. A park is a lawn with trees.  From draws in the range of
    [Math.random()], for a type at least one cell wide and deep: the
    committed form is the lawn, the box of the rectangle of the type one
    unit high, followed by at least one tree, as many as the loop bound;
    each tree is a trunk under a cone of leaves of radius 2 on the axis of a
    group that stands at least two units inside the rectangle, so that no
    tree hangs over the edge; the preview is the lawn alone and uses no
    draw. *)
Theorem park_trees (type : BuildingType.t) (variant : number) (s : Math.source) :
  BuildingCategory_eqb (BuildingType.category type) UTILITY
  && Procedural.includes (BuildingType.id type) "landfill" = false ->
  BuildingType.category type = DECORATION ->
  unit_draws s ->
  1 <= BuildingType.width type ->
  1 <= BuildingType.depth type ->
  exists lawn wood,
    form type variant false s = THREE.AMesh lawn :: wood
    /\ map outline (form type variant true s) = [outline (THREE.AMesh lawn)]
    /\ snd (Procedural.createProceduralBuilding type variant true s) = s
    /\ THREE.geometry lawn
       = THREE.BoxGeometry (BuildingType.width type * TILE_SIZE) 1
           (BuildingType.depth type * TILE_SIZE)
    /\ THREE.position lawn = {| THREE.x := 0; THREE.y := 0.5; THREE.z := 0 |}
    /\ List.length wood
       = Procedural.below
           (Math.max 1 (BuildingType.width type * TILE_SIZE
                        * (BuildingType.depth type * TILE_SIZE) / 50))
    /\ (1 <= List.length wood)%nat
    /\ Forall (tree_on (BuildingType.width type * TILE_SIZE)
                 (BuildingType.depth type * TILE_SIZE)) wood.
Proof.
  intros L D Hs Hw Hd.
  destruct (form_park type variant false s L D) as [t [l [E _]]].
  destruct (form_park type variant true s L D) as [t' [l' [E' _]]].
  rewrite E, E'.
  eexists. eexists. split; [reflexivity|].
  split; [reflexivity|].
  split.
  { unfold Procedural.createProceduralBuilding. cbv zeta. rewrite L, D.
    reflexivity. }
  split; [reflexivity|]. split; [reflexivity|].
  split; [rewrite length_map, length_seq; reflexivity|].
  split.
  - rewrite length_map, length_seq.
    match goal with
    | |- (1 <= Procedural.below ?q)%nat => destruct (below_pos q) as [n ->]
    end; [|lia].
    match goal with |- 0 < Math.max 1 ?b => pose proof (max_ge_l 1 b) end. lra.
  - assert (Hw' : 4 <= BuildingType.width type * TILE_SIZE) by (unfold TILE_SIZE; lra).
    assert (Hd' : 4 <= BuildingType.depth type * TILE_SIZE) by (unfold TILE_SIZE; lra).
    apply Forall_map_seq. intros i. unfold tree_on, tree_of. mesh_fields.
    destruct (Hs (Math.cursor s + 2 * i)%nat) as [A0 A1].
    destruct (Hs (Math.cursor s + 2 * i + 1)%nat) as [B0 B1].
    split; [apply scatter_bound; assumption|].
    split; [apply scatter_bound; assumption|].
    repeat split; reflexivity.
Qed.

Lemma park_trees_witness :
  exists lawn wood,
    form (the_type "dec_park_1x1") 0 false (constant_source 0.5)
    = THREE.AMesh lawn :: wood.
Proof.
  destruct (park_trees (the_type "dec_park_1x1") 0 (constant_source 0.5))
    as [lawn [wood [E _]]].
  - reflexivity.
  - reflexivity.
  - intros k. cbn. split; lra.
  - vm_compute. discriminate.
  - vm_compute. discriminate.
  - exists lawn, wood. exact E.
Defined.

(** ** Windows at night *)

Lemma meshes_traverse (f : THREE.Mesh -> THREE.Mesh) :
  forall o, THREE.meshes (Lighting.traverse f o) = map f (THREE.meshes o).
Proof.
  fix IH 1. intros [m | p children].
  - reflexivity.
  - cbn [Lighting.traverse THREE.meshes].
    induction children as [|c cs IHcs]; [reflexivity|].
    cbn [map flat_map]. rewrite map_app, IH, IHcs. reflexivity.
Qed.

Lemma all_meshes_traverse (f : THREE.Mesh -> THREE.Mesh) os :
  all_meshes (map (Lighting.traverse f) os) = map f (all_meshes os).
Proof.
  unfold all_meshes. induction os as [|o os IH]; [reflexivity|].
  cbn [map flat_map]. rewrite map_app, meshes_traverse, IH. reflexivity.
Qed.

Lemma form_landfill_fence type variant isGhost s :
  BuildingCategory_eqb (BuildingType.category type) UTILITY
  && Procedural.includes (BuildingType.id type) "landfill" = true ->
  form type variant isGhost s
  = map (fun i =>
           pile_of (BuildingType.width type * TILE_SIZE)
             (BuildingType.depth type * TILE_SIZE) isGhost
             (Procedural.createMat isGhost "#713f12" 0.9 0.0 false)
             (Math.draws s (Math.cursor s + 3 * i))
             (Math.draws s (Math.cursor s + 3 * i + 1))
             (Math.draws s (Math.cursor s + 3 * i + 2)))
      (seq 0 (Procedural.below
                (Math.max 3 (BuildingType.width type * TILE_SIZE * 0.5))))
    ++ (if isGhost then []
        else [THREE.AMesh (fence_of (BuildingType.width type * TILE_SIZE)
                             (BuildingType.depth type * TILE_SIZE))]).
Proof.
  intros H. unfold form, Procedural.createProceduralBuilding. cbv zeta.
  rewrite H.
  match goal with
  | |- context [Procedural.piles_loop ?n ?w ?d ?g ?m ?s] =>
      pose proof (piles_loop_spec n w d g m s) as [E _];
      destruct (Procedural.piles_loop n w d g m s) as [heap s']
  end.
  cbn [fst] in *. rewrite E.
  destruct isGhost; reflexivity.
Qed.

Ltac window_rule_of_mesh :=
  unfold window_rule, glazed, relit, window_level, Lighting.lightWindow,
    fence_of, pile_of;
  mesh_fields; cbn [String.eqb Ascii.eqb Bool.eqb];
  mesh_fields;
  let T := fresh "T" in
  split;
  [ split; intros T; first [discriminate T | reflexivity]
  | split;
    [ intros T; first [discriminate T | repeat split]
    | intros T; first [reflexivity | exfalso; apply T; reflexivity] ] ].

(** X25. Windows and only windows light up.  In the form of any type, in
    any style, a mesh carries the tag of the windows exactly when its
    material glows in its own colour; the frame sets the emissive intensity
    of each tagged mesh to the night level (times 1.5 in clear weather, 2
    otherwise) and changes nothing else of it; a mesh without the tag is
    left as it is.  The traversal reaches the meshes inside groups. *)
Theorem windows_and_only_windows_light_up (cos : number -> number) (PI time : number)
    (weather : Weather.t) (type : BuildingType.t) (variant : number)
    (isGhost : bool) (s : Math.source) :
  all_meshes (map (Lighting.traverse (Lighting.lightWindow cos PI time weather))
                (form type variant isGhost s))
  = map (Lighting.lightWindow cos PI time weather)
      (all_meshes (form type variant isGhost s))
  /\ Forall (window_rule cos PI time weather)
       (all_meshes (form type variant isGhost s)).
Proof.
  split; [apply all_meshes_traverse|].
  destruct (BuildingCategory_eqb (BuildingType.category type) UTILITY
            && Procedural.includes (BuildingType.id type) "landfill") eqn:L.
  { rewrite (form_landfill_fence type variant isGhost s L).
    apply Forall_meshes_app.
    - apply (Forall_meshes_map (A := nat)). intros i _.
      destruct isGhost; window_rule_of_mesh.
    - destruct isGhost; [constructor|]. apply Forall_meshes_cons; [|constructor].
      window_rule_of_mesh. }
  destruct (BuildingCategory_eqb (BuildingType.category type) DECORATION) eqn:D.
  { assert (D' : BuildingType.category type = DECORATION)
      by (destruct (BuildingType.category type); try discriminate; reflexivity).
    destruct (form_park type variant isGhost s L D') as [t [l [E [[c1 ->] [c2 ->]]]]].
    rewrite E. apply Forall_meshes_cons.
    - destruct isGhost; window_rule_of_mesh.
    - destruct isGhost; [constructor|].
      apply Forall_meshes_trees. intros m [<- | [<- | []]]; window_rule_of_mesh. }
  unfold form, Procedural.createProceduralBuilding. cbv zeta. rewrite L, D.
  destruct isGhost; cbn [negb];
    repeat match goal with
           | |- context [if ?b then _ else _] => destruct b
           end; cbn [fst app]; each_mesh;
    repeat match goal with
           | |- context [if ?b then _ else _] => destruct b
           end;
    window_rule_of_mesh.
Qed.

(** ** Sun, stars and the level of the windows *)

Lemma max_0_nonneg a : 0 <= Math.max 0 a.
Proof. apply max_ge_l. Qed.

(** X26. The light of the frame, whatever the sine, the cosine and the
    constant in the place of pi: the intensity of the sun is never negative
    and rain or fog bring it to 0.4 times that of clear weather at the same
    time; the sun stays on the plane z = 500; the stars are shown only at
    night in clear weather, with an opacity that is never negative; the
    level of the windows is never negative and in rain or fog it is that of
    clear weather times 2 over 1.5. *)
Theorem light_of_the_frame (sin cos : number -> number) (PI time : number) :
  (forall weather,
     0 <= Lighting.intensity (Lighting.sunLight sin cos PI time weather)
     /\ THREE.z (Lighting.position (Lighting.sunLight sin cos PI time weather)) = 500
     /\ 0 <= Lighting.starOpacity sin PI time weather
     /\ 0 <= window_level cos PI time weather)
  /\ (forall weather, weather <> Weather.clear ->
        Lighting.intensity (Lighting.sunLight sin cos PI time weather)
        == 0.4 * Lighting.intensity (Lighting.sunLight sin cos PI time Weather.clear)
        /\ Lighting.starOpacity sin PI time weather = 0
        /\ 1.5 * window_level cos PI time weather
           == 2 * window_level cos PI time Weather.clear)
  /\ (Scene.isNight time = false ->
      forall weather, Lighting.starOpacity sin PI time weather = 0).
Proof.
  split; [|split].
  - intros weather.
    unfold Lighting.sunLight, Lighting.starOpacity, window_level,
      Lighting.nightIntensity. cbv zeta.
    cbn [Lighting.intensity Lighting.position THREE.z].
    pose proof (max_0_nonneg (sin (Lighting.sunAngle PI time))) as Hs.
    pose proof (max_0_nonneg (sin (JS.rem (time + 12) 24 / 24 * PI))) as Ht.
    pose proof (max_0_nonneg (cos (Lighting.sunAngle PI time) * -1)) as Hc.
    set (a := Math.max 0 (sin (Lighting.sunAngle PI time))) in *.
    set (b := Math.max 0 (sin (JS.rem (time + 12) 24 / 24 * PI))) in *.
    set (c := Math.max 0 (cos (Lighting.sunAngle PI time) * -1)) in *.
    clearbody a b c.
    split; [destruct weather; lra|]. split; [reflexivity|].
    split; [|destruct weather; lra].
    destruct (Scene.isNight time && _); lra.
  - intros weather Hw.
    unfold Lighting.sunLight, Lighting.starOpacity, window_level. cbv zeta.
    cbn [Lighting.intensity].
    set (a := Math.max 0 (sin (Lighting.sunAngle PI time))).
    set (c := Lighting.nightIntensity cos PI time).
    clearbody a c.
    destruct weather; [congruence| |];
      (split; [ring|]); (split; [rewrite Bool.andb_false_r; reflexivity | ring]).
  - intros Hn weather. unfold Lighting.starOpacity. rewrite Hn. reflexivity.
Qed.

Lemma light_of_the_frame_witness :
  Lighting.starOpacity (fun a => a) 3 12 Weather.clear = 0.
Proof.
  apply (proj2 (proj2 (light_of_the_frame (fun a => a) (fun a => a) 3 12))).
  reflexivity.
Defined.

(** ** The classic form *)

Lemma style_1 variant :
  JS.rem variant 3 == 1 ->
  JS.eq (JS.rem variant 3) 0 = false
  /\ JS.eq (JS.rem variant 3) 1 = true.
Proof.
  intros H. unfold JS.eq. split.
  - apply not_true_iff_false. intros E. apply Qeq_bool_iff in E. lra.
  - apply Qeq_bool_iff. exact H.
Qed.

(** The loop over the floors stays under the floor count. *)
Lemma floors_bound h f :
  In f (seq 1 (Procedural.below (Math.floor (h / 3)) - 1)) ->
  1 <= Procedural.num f /\ Procedural.num f * 3 <= h - 3.
Proof.
  intros Hf. apply in_seq in Hf. unfold Procedural.below, Math.floor in Hf.
  rewrite Qceiling_Z in Hf.
  pose proof (Qfloor_le (h / 3)) as Hfl.
  assert (Hz : (Z.of_nat f + 1 <= Qfloor (h / 3))%Z) by lia.
  rewrite Zle_Qle, inject_Z_plus in Hz. change (inject_Z 1) with 1 in Hz.
  assert (H1 : (1 <= Z.of_nat f)%Z) by lia.
  rewrite Zle_Qle in H1. change (inject_Z 1) with 1 in H1.
  unfold Procedural.num. split; [exact H1 | qlra].
Qed.

(** X27. The classic form of a zoned type.  The committed form is the
    body, a box that stands on the ground and ends at the height of the
    type, then one band of windows for each floor above the first and below
    the last, then the cornice, the plinth and, for a residential type only,
    the roof.  Each band carries the tag of the windows and lies between
    2.25 above the ground and 2.25 under the top, clear of the plinth (which
    starts on the ground) and of the cornice (which ends at the top); the
    roof starts at the top.  The preview is the body alone. *)
Theorem classic_form (type : BuildingType.t) (variant : number) (s : Math.source) :
  zoned type ->
  JS.rem variant 3 == 1 ->
  exists body bands cornice plinth roof,
    form type variant false s
    = THREE.AMesh body :: map THREE.AMesh bands
      ++ [THREE.AMesh cornice; THREE.AMesh plinth] ++ map THREE.AMesh roof
    /\ map outline (form type variant true s) = [outline (THREE.AMesh body)]
    /\ bottom body == 0
    /\ top body == BuildingType.height type * TILE_SIZE
    /\ List.length bands
       = (Procedural.below (Math.floor (BuildingType.height type * TILE_SIZE / 3)) - 1)%nat
    /\ Forall (storey_band (BuildingType.height type * TILE_SIZE)) bands
    /\ top cornice == BuildingType.height type * TILE_SIZE
    /\ bottom plinth == 0
    /\ Forall (fun r => bottom r == BuildingType.height type * TILE_SIZE) roof
    /\ (List.length roof = 1%nat <-> BuildingType.category type = RESIDENTIAL)
    /\ (roof = [] <-> BuildingType.category type <> RESIDENTIAL).
Proof.
  intros Hz Hs.
  destruct (zoned_branch type Hz) as [L [D Z]].
  destruct (style_1 variant Hs) as [S0 S1].
  unfold form, Procedural.createProceduralBuilding. cbv zeta.
  rewrite L, D, Z, S0, S1. cbn [negb fst app].
  set (h := BuildingType.height type * TILE_SIZE).
  eexists. eexists (map _ (seq 1 (Procedural.below (Math.floor (h / 3)) - 1))).
  eexists. eexists.
  exists (if BuildingCategory_eqb (BuildingType.category type) RESIDENTIAL
          then [THREE.rotated_y (1 / 4)
                  (THREE.mesh_at
                     (THREE.ConeGeometry
                        (Math.min (BuildingType.width type * TILE_SIZE)
                           (BuildingType.depth type * TILE_SIZE) / 2) 4 (Some 4))
                     (Procedural.createMat false "#374151" 0.6 0.3 false)
                     0 (h + 2) 0)]
          else []).
  split.
  { rewrite map_map.
    destruct (BuildingCategory_eqb (BuildingType.category type) RESIDENTIAL);
      reflexivity. }
  split; [reflexivity|].
  split; [unfold bottom, tall; mesh_fields; field|].
  split; [unfold top, tall; mesh_fields; field|].
  split; [rewrite length_map, length_seq; reflexivity|].
  split.
  { apply Forall_map. apply Forall_forall. intros f Hf.
    destruct (floors_bound h f Hf) as [H1 H3].
    unfold storey_band, bottom, top, tall. mesh_fields.
    split; [reflexivity|]. split; qlra. }
  split; [unfold top, tall; mesh_fields; field|].
  split; [unfold bottom, tall; mesh_fields; field|].
  destruct (BuildingType.category type); cbn [BuildingCategory_eqb];
    (split;
     [ first [ apply Forall_nil
             | apply Forall_cons;
               [unfold bottom, tall; mesh_fields; field | apply Forall_nil] ]
     | split; split; intros E; cbn [List.length] in *;
       first [reflexivity | congruence] ]).
Qed.

Lemma classic_form_witness :
  exists body bands cornice plinth roof,
    form (the_type "res_2x2") 1 false (constant_source 0.5)
    = THREE.AMesh body :: map THREE.AMesh bands
      ++ [THREE.AMesh cornice; THREE.AMesh plinth] ++ map THREE.AMesh roof.
Proof.
  destruct (classic_form (the_type "res_2x2") 1 (constant_source 0.5))
    as [body [bands [cornice [plinth [roof [E _]]]]]].
  - left. reflexivity.
  - reflexivity.
  - exists body, bands, cornice, plinth, roof. exact E.
Defined.

(** ** The modern form *)

Lemma style_0 variant :
  JS.rem variant 3 == 0 -> JS.eq (JS.rem variant 3) 0 = true.
Proof. intros H. unfold JS.eq. apply Qeq_bool_iff. exact H. Qed.

Lemma catalog_zoned_heights :
  Forall (fun t =>
            existsb (BuildingCategory_eqb (BuildingType.category t))
              [RESIDENTIAL; COMMERCIAL; OFFICE; INDUSTRIAL] = true ->
            JS.gt (BuildingType.height t * TILE_SIZE) 15 = true)
    BUILDINGS.
Proof.
  unfold BUILDINGS, createZone. cbn [map app].
  repeat (apply Forall_cons; [cbn [BuildingType.category existsb BuildingCategory_eqb orb];
                              first [discriminate | intros _; vm_compute; reflexivity]|]).
  apply Forall_nil.
Qed.

(** X28. The modern form of a zoned type is one glazed body, preview and
    committed form alike.  The body carries the tag of the windows, glows in
    its own colour, stands on the ground and ends at the height of the type.
    When the type is taller than 15 the body is the tower, four units
    narrower and shallower than the rectangle of the type, followed by a
    wire frame that is half a unit narrower than the tower and exceeds it by
    a tenth of a unit under the ground and above the top; otherwise the body
    is a box two units narrower and shallower than the rectangle and nothing
    follows.  Every zoned type of the catalog is taller than 15, so that
    with the catalog the low box is never built. *)
Theorem modern_form (type : BuildingType.t) (variant : number) (s : Math.source) :
  zoned type ->
  JS.rem variant 3 == 0 ->
  (exists body rest,
     form type variant false s = THREE.AMesh body :: rest
     /\ map outline (form type variant true s)
        = map outline (form type variant false s)
     /\ THREE.name body = "window_mesh"%string
     /\ glazed body
     /\ bottom body == 0
     /\ top body == BuildingType.height type * TILE_SIZE
     /\ ((BuildingType.height type * TILE_SIZE > 15
          /\ THREE.geometry body
             = THREE.BoxGeometry (BuildingType.width type * TILE_SIZE - 4)
                 (BuildingType.height type * TILE_SIZE)
                 (BuildingType.depth type * TILE_SIZE - 4)
          /\ exists frame,
               rest = [THREE.AMesh frame]
               /\ THREE.wireframe (THREE.material frame) = true
               /\ THREE.geometry frame
                  = THREE.BoxGeometry (BuildingType.width type * TILE_SIZE - 4 - 0.5)
                      (BuildingType.height type * TILE_SIZE + 0.2)
                      (BuildingType.depth type * TILE_SIZE - 4 - 0.5)
               /\ bottom frame == - 0.1
               /\ top frame == BuildingType.height type * TILE_SIZE + 0.1)
         \/ (BuildingType.height type * TILE_SIZE <= 15
             /\ THREE.geometry body
                = THREE.BoxGeometry (BuildingType.width type * TILE_SIZE - 2)
                    (BuildingType.height type * TILE_SIZE)
                    (BuildingType.depth type * TILE_SIZE - 2)
             /\ rest = [])))
  /\ (In type BUILDINGS -> BuildingType.height type * TILE_SIZE > 15).
Proof.
  intros Hz Hs.
  destruct (zoned_branch type Hz) as [L [D Z]].
  pose proof (style_0 variant Hs) as S0.
  split.
  - unfold form, Procedural.createProceduralBuilding. cbv zeta.
    rewrite L, D, Z, S0. cbn [negb].
    set (h := BuildingType.height type * TILE_SIZE).
    destruct (JS.gt h 15) eqn:G; cbn [fst].
    + apply JS_gt_true in G.
      eexists. eexists. split; [reflexivity|]. split; [reflexivity|].
      split; [reflexivity|].
      split; [unfold glazed; mesh_fields; reflexivity|].
      split; [unfold bottom, tall; mesh_fields; field|].
      split; [unfold top, tall; mesh_fields; field|].
      left. split; [exact G|]. split; [reflexivity|].
      eexists. split; [reflexivity|]. split; [reflexivity|].
      split; [reflexivity|].
      split; unfold bottom, top, tall; mesh_fields; field.
    + apply JS_gt_false in G.
      eexists. eexists. split; [reflexivity|]. split; [reflexivity|].
      split; [reflexivity|].
      split; [unfold glazed; mesh_fields; reflexivity|].
      split; [unfold bottom, tall; mesh_fields; field|].
      split; [unfold top, tall; mesh_fields; field|].
      right. split; [exact G|]. split; reflexivity.
  - intros Hin. pose proof catalog_zoned_heights as Hc.
    rewrite Forall_forall in Hc. apply JS_gt_true. apply Hc; assumption.
Qed.

Lemma modern_form_witness :
  BuildingType.height (the_type "off_1x1") * TILE_SIZE > 15.
Proof.
  apply (modern_form (the_type "off_1x1") 0 (constant_source 0.5)).
  - right; right; left. reflexivity.
  - reflexivity.
  - vm_compute. do 14 right. left. reflexivity.
Defined.

(** ** The labels of the overlay *)

Lemma style_label v :
  is_style v ->
  (UIOverlay.getVariantName v = "Modern"%string /\ JS.eq (JS.rem v 3) 0 = true)
  \/ (UIOverlay.getVariantName v = "Classic"%string /\ JS.eq (JS.rem v 3) 1 = true)
  \/ (UIOverlay.getVariantName v = "Eco"%string /\ JS.eq (JS.rem v 3) 2 = true).
Proof.
  intros H.
  assert (E : JS.rem v 3 == v) by (apply rem_3_small; destruct H as [H | [H | H]]; lra).
  unfold UIOverlay.getVariantName, JS.eq.
  destruct H as [H | [H | H]].
  - left. assert (A : Qeq_bool v 0 = true) by (apply Qeq_bool_iff; exact H).
    rewrite A. split; [reflexivity|]. apply Qeq_bool_iff. lra.
  - right; left.
    assert (A : Qeq_bool v 0 = false)
      by (apply not_true_iff_false; intros A; apply Qeq_bool_iff in A; lra).
    assert (B : Qeq_bool v 1 = true) by (apply Qeq_bool_iff; exact H).
    rewrite A, B. split; [reflexivity|]. apply Qeq_bool_iff. lra.
  - right; right.
    assert (A : Qeq_bool v 0 = false)
      by (apply not_true_iff_false; intros A; apply Qeq_bool_iff in A; lra).
    assert (B : Qeq_bool v 1 = false)
      by (apply not_true_iff_false; intros B; apply Qeq_bool_iff in B; lra).
    assert (C : Qeq_bool v 2 = true) by (apply Qeq_bool_iff; exact H).
    rewrite A, B, C. split; [reflexivity|]. apply Qeq_bool_iff. lra.
Qed.

Lemma style_label_named v :
  is_style v -> UIOverlay.getVariantName v <> "Standard"%string.
Proof.
  intros H. destruct (style_label v H) as [[E _] | [[E _] | [E _]]];
    rewrite E; discriminate.
Qed.

Lemma inspected_is_placed props d :
  UIOverlay.inspectedData props = Some d ->
  exists b, In b (App.buildings props)
    /\ UIOverlay.variant d
       = match PlacedBuilding.variant b with Some v => v | None => 0 end.
Proof.
  unfold UIOverlay.inspectedData.
  destruct (App.inspectedBuildingId props) as [i|]; [|discriminate].
  destruct (String.eqb i ""); [discriminate|].
  destruct (find _ (App.buildings props)) as [b|] eqn:Ef; [|discriminate].
  destruct (findType (PlacedBuilding.typeId b)) as [t|]; [|discriminate].
  cbv zeta. intros E. injection E as <-. exists b.
  apply find_some in Ef. split; [tauto | reflexivity].
Qed.

(** X29. The style shown is the style built.  In every reachable state the
    label of the current variant and the label of the variant of the
    inspected structure are Modern, Classic or Eco, never the fallback
    Standard; and for each of the three variants the label names the
    branch the form generator takes: Modern with style 0, Classic with
    style 1, Eco with style 2. *)
Theorem style_shown_is_style_built (st : App.state) :
  reachable st ->
  UIOverlay.getVariantName (App.currentVariant st) <> "Standard"%string
  /\ (forall d, UIOverlay.inspectedData st = Some d ->
        UIOverlay.getVariantName (UIOverlay.variant d) <> "Standard"%string)
  /\ (forall v, is_style v ->
        (UIOverlay.getVariantName v = "Modern"%string
         /\ JS.eq (JS.rem v 3) 0 = true)
        \/ (UIOverlay.getVariantName v = "Classic"%string
            /\ JS.eq (JS.rem v 3) 1 = true)
        \/ (UIOverlay.getVariantName v = "Eco"%string
            /\ JS.eq (JS.rem v 3) 2 = true)).
Proof.
  intros Hst. destruct (reachable_styles st Hst) as [Hv Hb].
  split; [apply style_label_named; exact Hv|].
  split; [|exact style_label].
  intros d Hd. destruct (inspected_is_placed st d Hd) as [b [Hin ->]].
  rewrite Forall_forall in Hb. destruct (Hb b Hin) as [v [-> Hs]].
  apply style_label_named. exact Hs.
Qed.

Lemma style_shown_is_style_built_witness :
  UIOverlay.getVariantName (App.currentVariant (step KeyC App.initial))
  <> "Standard"%string.
Proof.
  apply (style_shown_is_style_built (step KeyC App.initial)).
  apply reachable_step. apply reachable_initial.
Defined.

Lemma catalog_names :
  Forall (fun t => BuildingType.id t <> ""%string /\ BuildingType.name t <> ""%string)
    BUILDINGS.
Proof.
  unfold BUILDINGS, createZone. cbn [map app].
  repeat (apply Forall_cons; [split; discriminate|]). apply Forall_nil.
Qed.

(** X30. The tool label follows the buttons.  After the Escape key the
    label is Pointer; after the demolish button, pressed outside the
    demolish mode, it is Demolish; after the button of a type of the
    catalog that was not the armed one it is the name of that type, and
    after the button of the armed type it is Pointer again. *)
Theorem tool_label_follows_buttons (building : BuildingType.t) (st : App.state) :
  In building BUILDINGS ->
  UIOverlay.getActiveToolName (App.handleDeselect st) = "Pointer"%string
  /\ (App.isDemolishMode st = false ->
      UIOverlay.getActiveToolName (UIOverlay.demolishButton st) = "Demolish"%string)
  /\ (App.selectedBuildingId st <> Some (BuildingType.id building) ->
      UIOverlay.getActiveToolName (UIOverlay.buildingButton building st)
      = BuildingType.name building)
  /\ (App.selectedBuildingId st = Some (BuildingType.id building) ->
      UIOverlay.getActiveToolName (UIOverlay.buildingButton building st)
      = "Pointer"%string).
Proof.
  intros Hin.
  pose proof catalog_names as Hn. rewrite Forall_forall in Hn.
  destruct (Hn building Hin) as [Hid Hname].
  pose proof catalog_round_trip as Hr. rewrite Forall_forall in Hr.
  specialize (Hr building Hin).
  destruct (buildingButton_selected building st Hid) as [Hd [Hsame Hother]].
  split; [reflexivity|]. split; [|split].
  - intros Hm. destruct (demolishButton_modes st) as [E _].
    unfold UIOverlay.getActiveToolName. rewrite E, Hm. reflexivity.
  - intros Hne. destruct (Hother Hne) as [Hsel _].
    unfold UIOverlay.getActiveToolName, GameCanvas.getSelectedBuildingType,
      GameCanvas.truthy.
    rewrite Hd, Hsel, Hr.
    apply String.eqb_neq in Hid. rewrite Hid. cbn [negb].
    apply String.eqb_neq in Hname. rewrite Hname. reflexivity.
  - intros He. destruct (Hsame He) as [Hsel _].
    unfold UIOverlay.getActiveToolName, GameCanvas.truthy.
    rewrite Hd, Hsel. reflexivity.
Qed.

Lemma tool_label_follows_buttons_witness :
  UIOverlay.getActiveToolName (UIOverlay.buildingButton road_type App.initial)
  = BuildingType.name road_type.
Proof.
  apply (tool_label_follows_buttons road_type App.initial).
  - right; left. reflexivity.
  - discriminate.
Defined.
